(* ===== verification/_CoqProject ===== *)
-Q . S2P
Prelude.v
JsString.v
JsNumber.v
JsDate.v
NodePath.v
Config.v
Exec.v
JsArray.v
Commands.v
Sorting.v
Retention.v
Glob.v
FsPrune.v
Run.v
Orchestrator.v
