(* ===== verification/Prelude.v ===== *)
(** * A verification development for docker-node-mongo-s3-backup

    The program ([src/src/run.ts]) is a one-shot Node script that backs up a
    MongoDB database: it derives names from its environment, runs
    [mongodump] (and [tar] unless archive mode is on), copies the archive to
    S3 with the AWS CLI, prunes old local archives, and mails a success or
    failure message through [aws ses].  Every step is a shell command run
    with [execSync]; a non-zero exit throws, and one top-level [try]/[catch]
    routes any exception of the backup to the failure e-mail.  The folder
    is created before the [try], so an error of [mkdirSync] is not
    caught.

    Files, in dependency order, and the code each one models
    - [Prelude]    (this file): values of [process.env] ([string |
                   undefined] as [option string]), their truthiness, [||]
                   and template-literal conversion; the [backup] hint
                   databases, tactics and generic list/string lemmas.
    - [JsString]:  the string built-ins the code calls: [split], [join],
                   [replace] with the code's regular expressions
                   ([/\..*$/] and [/:/g] of line 51, [/_/g] of line 77,
                   [/\.zip/] of line 86) and the two [match] tests of lines
                   74 and 77, each worked out as a function on characters.
    - [JsNumber]:  [parseInt] as ECMAScript 19.2.5 specifies it (line 75).
    - [JsDate]:    ECMAScript time values: the proleptic Gregorian calendar,
                   [Date.prototype.toISOString] (line 50) and the Date Time
                   String Format parser of [new Date(string)] (line 77).
    - [NodePath]:  Node's POSIX [path.join] with its normalisation (line
                   86) and [path.basename] (line 68).
    - [Config]:    the record [Env] of [EnvParams] (lines 5-31) and the
                   derived constants of lines 49-59 ([currentDateSufix],
                   [backupFolder], [backupName], [bakcupArchiveName], ...).
    - [Exec]:      the effect model.  A [world] holds whether the backup
                   folder exists, its listing, and the trace of events
                   ([console.log], [execSync], [mkdirSync]) in order;
                   [M A := world -> result A * world] is a state monad
                   whose exceptions keep the world reached, with
                   [try_catch] for [try]/[catch].  [exec] (lines 33-36) runs
                   a command through the [Shell] type class, which stands
                   for the environment: the external programs and whether
                   [mkdirSync] can create the folder.
    - [JsArray]:   [Array.prototype.slice] with a negative end (line 83)
                   and [map] with a callback that may throw (line 81).
    - [Commands]:  the command lines: [getCredParams] (92-100), the
                   [mongodump] line (102-115), [tar] (120), [aws s3 cp]
                   (68-69), [aws ses send-email] (42-46), the messages
                   (128-141).
    - [Sorting]:   [Array.prototype.sort] with the date comparator of line
                   82, as a stable insertion sort.
    - [Retention]: [removeOldLocalBackups] (lines 73-90).
    - [Glob]:      the meaning the shell gives to the words of the [rm]
                   command: pathname expansion of ['*'] ([glob]).  This is
                   the semantics of bash, not code of the repository.
    - [FsPrune]:   a file-system [Shell] ([fs_shell]) whose [rm -rf]
                   removes from the listing of the backup folder every
                   entry one of its glob words matches; every other
                   command succeeds and leaves the listing.  A model of
                   the environment, against which the pruner is stated
                   end to end.
    - [Run]:      [sendEmail], [uploadBackupToS3], [backupMongo], the
                   folder creation of line 61 and the top-level
                   [try]/[catch] (lines 124-144) as [main]; the plan of a
                   run ([backup_cmds], [prune_cmds], [success_email_cmds])
                   against which whole runs are stated.
    - [Orchestrator]: the state machine of section 4.7 of the
                   specification ([stage], [step]) and the stages a run
                   of [main] goes through: [mainBody_stages] labels the
                   statements of the [try] block (lines 125-138) with the
                   stages they implement, [staged_main] runs the whole
                   script stage by stage (start-up, [try], [catch]) and
                   [main_stages] is the path of a whole run.

    How the parts interact: [main] calls [ensureFolder], then inside
    [try_catch] [backupMongo], [uploadBackupToS3], [removeOldLocalBackups]
    and [notifySuccess]; each of them builds a command with [Commands] and
    runs it with [exec].  The pruner reads the listing with [readdir],
    parses the dates of the names [Config] builds with [JsDate], sorts them
    with [Sorting], slices with [JsArray] and builds paths with [NodePath].

    What the theorems show
    - Retention: with a positive count the pruner selects [N - max]
      archives, each dated no later than every kept one, the dates read as
      integers ([prune_removes_oldest]); the archive a run
      has just written is never among them when the other archives are
      older ([own_archive_kept]); every word of the [rm] command is a glob
      inside the backup folder when no name has a space
      ([rm_words_in_folder]); it is silent below the count, runs an empty
      [rm -rf] at the count, throws on a name that passes the unescaped
      [/.zip$/] filter without ending in [.zip], and with a negative count
      removes the oldest archives on every run.
    - Sorting: the sort of line 82 is a stable permutation whose dates,
      read as integers, never decrease ([sort_by_date_correct]): the
      order is stated against the time values, not the comparator.
    - Dates: [civil_from_days] inverts [days_from_civil] on every day; the
      archive name of a run parses back, as a local time, to the start
      time truncated to the second and shifted by the zone offset
      ([own_archive_date]).
    - Paths and commands: with a URI the discrete
      credentials never reach [mongodump] ([mongoCmd_uri_ignores_discrete]);
      exclusion list, message URI; the S3 key is the archive's own name
      ([s3Path_archive_name]); under the shell's ['*'] expansion the [rm]
      word of an archive designates exactly the archive, its dump folder
      and whatever else extends the dump folder's path
      ([rm_glob_archive_and_dump]), unless the backup name has a
      [".zip"] of its own.
    - Pruning end to end: on the file-system shell, a pruning that
      reaches its [rm] leaves exactly the archives it did not select and
      removes the dump folders of the selected ones
      ([prune_on_fs_shell]); with [prune_removes_oldest] the archives
      left are the newest ones.
    - Run: on a shell where every command succeeds, the commands of a run
      in order are the plan ([run_commands_in_order]); on every branch,
      which commands run: archive mode, the bucket guard, the e-mail
      guards, the first failure stopping the run and being mailed with the
      name of the command that failed ([failure_mail_names_last_command]),
      a failing success e-mail mailed again as a failure, a silent exit 0
      when no address is set.  Two exceptions escape the script: the
      error of [mkdirSync] at start-up, outside the [try], with nothing
      run and no e-mail, and the failure of the failure e-mail
      ([main_escape_is_email_failure]).  The theorems about the [try]
      block assume the start-up got past line 61 ([startup_ok]).  On
      every shell, whatever each command answers, nothing runs after a
      failed start-up, and otherwise the commands of a run are a prefix
      of the plan followed by at most the failure e-mail
      ([main_follows_plan], built on [runs_upto], the any-shell
      counterpart of [runs]), so no run issues more than six commands
      ([main_command_count]).
    - Orchestrator: running [main] stage by stage, start-up and [catch]
      included, is running [main]; on every shell its stages are a path of
      the specification's machine from [Idle] that reaches [Done] exactly
      when the start-up succeeded and takes the failure edge exactly when
      the [try] block threw ([main_refines_orchestrator]).
    - Invariants of every operation: the world only moves forward
      ([Exec.grows]), an operation that throws
      [Command failed: c] has just run [c] ([Exec.fails_on_last]), and
      every command is logged as [Executing c] right before the shell
      runs it ([Exec.announced], [main_announces_commands]).  Each
      invariant is proved once per primitive and carried through [;;] and
      [try_catch] by a tactic ([grows_tac], [fails_on_last_tac],
      [keeps_announced_tac]).
    Every theorem about [Run], [Exec] and [Retention] holds for every
    [Shell] unless it states a hypothesis on the shell.  A [Shell] is the
    environment: the exit status and effect of each command, and whether
    [mkdirSync] can create the backup folder.  The witnesses use fixed
    shells that accept or refuse commands by name.

    Bounds and fixed choices
    - The calendar inverse is checked by [vm_compute] over one era of
      146097 days ([era_table_ok]) and extended to all integers by the era
      decomposition, so no bound on dates is needed there.
    - The date round trips assume a four-digit year (0 to 9999), the range
      where [toISOString] has its short form, and for local times a time-zone
      offset [tza] of at most one day in absolute value (real offsets are
      at most 14 hours).  The offset is a constant: daylight-saving
      changes are not modelled.
    - Numbers are exact integers ([Z]); a double would round only beyond
      2^53, far above any time value or count the code handles.

    Not modelled
    - [src/src/test.ts], a docker launcher with no logic.
    - The external programs ([mongodump], [tar], [aws], [rm]) beyond their
      exit status and effect on the listing: the [Shell] interface.  The
      shell's word splitting is stated on the command strings
      ([rm_words_in_folder]) and its ['*'] expansion is modelled by
      [Glob.glob]; the other glob characters ([?], [[...]]) are not:
      [glob] reads them literally, which is what bash does only for names
      without them.  [FsPrune.fs_shell] gives [rm -rf] its effect on the
      listing; the files [mongodump], [tar] and [aws] write are not
      added by it, as no theorem about the pruning needs them.
    - Nothing more of [run.ts] is left to model: the map covers every
      line but the three imports and the blank lines, and what remains
      outside the model is the environment (the programs above, V8's
      date parser) or code with no behaviour (the launcher, the unread
      settings).
    - [readdirSync] (line 74) cannot fail in the model; it runs inside
      the [try], so its errors would take the same failure path as a
      failing command.
    - V8's implementation-defined fallback date formats: a string that is
      not in the ISO format is parsed as an invalid date.
    - [KEEP_REMOTE_BACKUPS_COUNT] and the [AWS_*] credentials, which the
      code never reads. *)

From Stdlib Require Export ZArith Ascii String Lia.
From stdpp Require Export base list strings.

Declare Scope js_scope.
Delimit Scope js_scope with js.


(** ** Values of [process.env]

    Every field of [EnvParams] is read from [process.env], so at run time it
    is either [undefined] or a string: [option string]. *)

Abbreviation js_value := (option string).

(** JavaScript truthiness of a [string | undefined]: [undefined] and the
    empty string are falsy, every other string is truthy. *)
Definition truthy (v : js_value) : bool :=
  match v with
  | None => false
  | Some s => negb (String.eqb s "")
  end.

(** [a || b] on two [string | undefined] values. *)
Definition js_or (a b : js_value) : js_value :=
  if truthy a then a else b.

(** [a || "literal"]: the result is always a string. *)
Definition js_or_str (a : js_value) (d : string) : string :=
  match js_or a (Some d) with Some s => s | None => d end.

(** Template-literal conversion [`${v}`]: [undefined] prints as
    ["undefined"]. *)
Definition js_str (v : js_value) : string :=
  match v with
  | None => "undefined"
  | Some s => s
  end.

(** ** Shared automation *)

Create HintDb backup.
Create Rewrite HintDb backup_rw.

Lemma truthy_Some_iff (v : js_value) :
  truthy v = true <-> exists s, v = Some s /\ s <> "".
Proof.
  destruct v as [s|]; simpl; split.
  - intros H. exists s. split; [reflexivity|].
    intros ->. discriminate.
  - intros (s' & [= <-] & Hs). apply negb_true_iff, String.eqb_neq. exact Hs.
  - discriminate.
  - intros (? & ? & _). discriminate.
Qed.

Lemma truthy_false_iff (v : js_value) :
  truthy v = false <-> v = None \/ v = Some "".
Proof.
  destruct v as [s|]; simpl; [|tauto].
  rewrite negb_false_iff, String.eqb_eq. split.
  - intros ->. auto.
  - intros [H|H]; congruence.
Qed.

Lemma js_or_str_truthy (a : js_value) d s :
  a = Some s -> s <> "" -> js_or_str a d = s.
Proof.
  intros -> Hs. unfold js_or_str, js_or. simpl.
  apply String.eqb_neq in Hs. now rewrite Hs.
Qed.

Lemma js_or_str_falsy (a : js_value) d :
  truthy a = false -> js_or_str a d = d.
Proof. intros H. unfold js_or_str, js_or. now rewrite H. Qed.

#[export] Hint Rewrite js_or_str_falsy using assumption : backup_rw.

(** Case on the truthiness tests that the code's [? :] and [if] make. *)
Ltac case_truthy :=
  repeat match goal with
  | |- context [truthy ?v] =>
      let E := fresh "Htr" in destruct (truthy v) eqn:E
  end.

(** ** Shared lemmas on strings as lists of characters *)

(** stdpp makes [String.append] opaque to [simpl]; these two equations
    unfold it one character at a time. *)
Lemma string_app_empty (b : string) : "" +:+ b = b.
Proof. reflexivity. Qed.

Lemma string_app_cons (x : ascii) (a b : string) :
  String x a +:+ b = String x (a +:+ b).
Proof. reflexivity. Qed.

Ltac string_ind a :=
  let x := fresh "x" in let IH := fresh "IH" in
  induction a as [|x a IH];
  rewrite ?string_app_empty, ?string_app_cons; simpl; [reflexivity | now rewrite IH].

Lemma string_app_assoc (a b c : string) :
  (a +:+ b) +:+ c = a +:+ (b +:+ c).
Proof. string_ind a. Qed.

Lemma string_app_nil_r (a : string) : a +:+ "" = a.
Proof. string_ind a. Qed.

Lemma list_ascii_of_string_app (a b : string) :
  list_ascii_of_string (a +:+ b) = list_ascii_of_string a ++ list_ascii_of_string b.
Proof. string_ind a. Qed.

Lemma string_of_list_ascii_app (a b : list ascii) :
  string_of_list_ascii (a ++ b) = string_of_list_ascii a +:+ string_of_list_ascii b.
Proof.
  induction a as [|x a IH]; simpl; rewrite ?string_app_empty, ?string_app_cons;
    [reflexivity | now rewrite IH].
Qed.

#[export] Hint Rewrite string_app_empty string_app_cons string_app_assoc
  string_app_nil_r list_ascii_of_string_app string_of_list_ascii_app
  string_of_list_ascii_of_string list_ascii_of_string_of_list_ascii : backup_rw.

(** ** Shared lemmas on integers *)

(** [lia] does not see through [Z.div] and [Z.modulo] here: name each
    quotient and remainder first. *)
Ltac lia_div := Z.div_mod_to_equations; lia.

(** Division and remainder of [q * b + r] for a remainder in range. *)
Lemma Z_div_mod_decomp (b q r : Z) :
  (0 <= r < b)%Z -> ((q * b + r) / b = q /\ (q * b + r) mod b = r)%Z.
Proof.
  intros Hr. split.
  - rewrite Z.div_add_l by lia. rewrite Z.div_small by lia. lia.
  - rewrite Z.add_comm, Z.mod_add by lia. apply Z.mod_small. exact Hr.
Qed.

(** ** Option binding, as the code's parsers fail through *)

Notation "'let?' x ':=' e 'in' k" :=
  (match e with Some x => k | None => None end)
  (at level 10, x pattern, e at level 100, k at level 200) : js_scope.
Open Scope js_scope.

(** ** Shared lemmas on lists *)

Lemma filter_all {A} (P : A -> Prop) `{!forall x, Decision (P x)} (l : list A) :
  Forall P l -> filter P l = l.
Proof. induction 1 as [|x l Hx _ IH]; [reflexivity|]. now rewrite filter_cons_True, IH. Qed.

Lemma elem_of_drop_sub {A} k (l : list A) x : x ∈ drop k l -> x ∈ l.
Proof.
  revert l. induction k as [|k IH]; intros [|y l] Hx; simpl in *; try easy.
  apply elem_of_cons. right. now apply IH.
Qed.

Lemma zip_map_self {A B} (f : A -> B) (l : list A) :
  zip l (map f l) = map (fun x => (x, f x)) l.
Proof. induction l as [|x l IH]; simpl; [reflexivity|]. now rewrite IH. Qed.

Lemma map_fst_zip {A B} (l1 : list A) (l2 : list B) :
  length l1 <= length l2 -> map fst (zip l1 l2) = l1.
Proof.
  revert l2. induction l1 as [|x l1 IH]; intros [|y l2] Hl; simpl in *; try (reflexivity || lia).
  f_equal. apply IH. lia.
Qed.

Lemma elem_of_take_sub {A} k (l : list A) x : x ∈ take k l -> x ∈ l.
Proof. intros Hx. rewrite <- (take_drop k l). apply elem_of_app. now left. Qed.

Lemma map_ext_Forall {A B} (P : A -> Prop) (f g : A -> B) l :
  Forall P l -> (forall x, P x -> f x = g x) -> map f l = map g l.
Proof. induction 1; intros Hfg; simpl; f_equal; auto. Qed.

Lemma elem_of_map {A B} (f : A -> B) l x : x ∈ l -> f x ∈ map f l.
Proof. rewrite !list_elem_of_In. apply in_map. Qed.

Lemma elem_of_map_inv {A B} (f : A -> B) l y : y ∈ map f l -> exists x, y = f x /\ x ∈ l.
Proof.
  rewrite list_elem_of_In, in_map_iff. intros (x & <- & Hx).
  exists x. split; [reflexivity | now apply list_elem_of_In].
Qed.

Lemma elem_of_length_pos {A} (l : list A) x : x ∈ l -> (0 < length l)%nat.
Proof. destruct l; [intros H; now apply not_elem_of_nil in H | simpl; lia]. Qed.

(** Prove [Forall P l] on a concrete list, closing each [P x] with [tac]
    (stdpp's [Forall_cons] is an equivalence; use the constructors). *)
Ltac forall_list tac :=
  repeat (apply List.Forall_cons; [tac|]); apply List.Forall_nil.

(** Close a decidable proposition on concrete values by evaluation. *)
Ltac decide_closed :=
  match goal with |- ?P => apply (bool_decide_unpack P); vm_compute; exact I end.
