(* ===== verification/JsString.v ===== *)
(** * The string built-ins that [run.ts] calls

    JavaScript strings are modelled as Rocq [string]s (8-bit characters; the
    code only handles ASCII names and commands).  Each built-in is written
    for the arguments the code passes it: [split] and [join] with the code's
    separators, [replace] with the code's four regular expressions, and the
    two regular-expression tests of [removeOldLocalBackups].  A regular
    expression is not interpreted: its leftmost-match semantics is worked
    out for the one pattern and written as a function on the character
    list, and the characterisation lemmas below state that semantics. *)

From S2P Require Import Prelude.

Module JsString.

(** ** Characters *)

(** ECMAScript LineTerminator code points that an 8-bit string can hold:
    LF and CR.  The regular-expression [.] matches any other character. *)
Definition is_line_terminator (c : ascii) : bool :=
  bool_decide (c = "010"%char) || bool_decide (c = "013"%char).

Definition is_digit (c : ascii) : bool :=
  let n := nat_of_ascii c in (48 <=? n)%nat && (n <=? 57)%nat.

(** The character class [[\d_T-]] of the archive-date pattern. *)
Definition date_class (c : ascii) : bool :=
  is_digit c || bool_decide (c = "_"%char) || bool_decide (c = "T"%char) || bool_decide (c = "-"%char).

(** ** Helpers on character lists *)

Fixpoint take_while {A} (p : A -> bool) (l : list A) : list A :=
  match l with
  | [] => []
  | x :: r => if p x then x :: take_while p r else []
  end.

Fixpoint is_prefix (p l : list ascii) : bool :=
  match p, l with
  | [], _ => true
  | x :: p', y :: l' => bool_decide (x = y) && is_prefix p' l'
  | _ :: _, [] => false
  end.

Definition chars := list_ascii_of_string.
Definition of_chars := string_of_list_ascii.

(** ** [String.prototype.split] with a one-character separator *)

Definition cons_head (x : ascii) (l : list string) : list string :=
  match l with
  | [] => [String x ""]
  | h :: t => String x h :: t
  end.

Fixpoint js_split (sep : ascii) (s : string) : list string :=
  match s with
  | EmptyString => [""]
  | String x r =>
      if bool_decide (x = sep) then "" :: js_split sep r
      else cons_head x (js_split sep r)
  end.

(** [xs[0]] of a [split] result: [split] never returns an empty array. *)
Definition first_piece (l : list string) : string :=
  match l with [] => "" | h :: _ => h end.

(** ** [Array.prototype.join] on an array of strings *)

Fixpoint js_join (sep : string) (l : list string) : string :=
  match l with
  | [] => ""
  | [x] => x
  | x :: r => x +:+ sep +:+ js_join sep r
  end.

(** ** [replace] with the code's regular expressions *)

(** [s.replace(/c/g, d)] for a one-character pattern [c]:
    [replace(/:/g, '_')] (line 51) and [replace(/_/g, ':')] (line 77). *)
Fixpoint replace_all_char (c d : ascii) (s : string) : string :=
  match s with
  | EmptyString => EmptyString
  | String x r => String (if bool_decide (x = c) then d else x) (replace_all_char c d r)
  end.

(** [s.replace(/\..*$/, '')] (line 51).  Without the [m] flag, [$] is the
    end of input and [.] does not match a line terminator, so the leftmost
    match starts at the first ['.'] followed only by non-terminators, and
    runs to the end; the replacement keeps what precedes it. *)
Fixpoint strip_dot_tail_l (l : list ascii) : list ascii :=
  match l with
  | [] => []
  | x :: r =>
      if bool_decide (x = "."%char) && forallb (fun c => negb (is_line_terminator c)) r
      then [] else x :: strip_dot_tail_l r
  end.

Definition strip_dot_tail (s : string) : string :=
  of_chars (strip_dot_tail_l (chars s)).

(** [s.replace(/\.zip/, '*')] (line 86): the first occurrence of the
    literal [".zip"] is replaced, wherever it is. *)
Fixpoint replace_first_l (pat rep l : list ascii) : list ascii :=
  if is_prefix pat l then rep ++ drop (length pat) l
  else match l with
       | [] => []
       | x :: r => x :: replace_first_l pat rep r
       end.

Definition replace_first (pat rep s : string) : string :=
  of_chars (replace_first_l (chars pat) (chars rep) (chars s)).

(** ** The two regular expressions of [removeOldLocalBackups] *)

(** [/.zip$/.test(f)] (line 74): the dot is not escaped, so any
    non-terminator character followed by ["zip"] at the end matches. *)
Definition zip_test (s : string) : bool :=
  match rev (chars s) with
  | "p"%char :: "i"%char :: "z"%char :: c :: _ => negb (is_line_terminator c)
  | _ => false
  end.

(** [f.match(...)] of line 77, whose pattern is a group of the class
    [[\d_T-]] under a star, then [\.zip] and [$]: [None] for a [null]
    result, [Some t] for the capture [t = m[1]].  The match has to end with the
    final [".zip"] (the class has no ['.']), so the leftmost start is the
    start of the longest run of class characters before it. *)
Definition archive_date_capture (s : string) : option string :=
  match rev (chars s) with
  | "p"%char :: "i"%char :: "z"%char :: "."%char :: rstem => Some (of_chars (rev (take_while date_class rstem)))
  | _ => None
  end.

(** A name [p ++ t ++ ".zip"] whose [t] is made of class characters and
    whose [p] does not end with one: the capture is exactly [t]. *)
Definition ends_outside_class (p : string) : Prop :=
  p = "" \/ exists p' c, p = p' +:+ String c "" /\ date_class c = false.

(** ** Executable checks on the code's own inputs *)

Example js_split_uri :
  first_piece (js_split "@" "mongodb://u:p@host/db") = "mongodb://u:p".
Proof. reflexivity. Qed.

Example capture_own_name :
  archive_date_capture "test.2020-01-01T00_00_00.zip" = Some "2020-01-01T00_00_00".
Proof. reflexivity. Qed.

Example gzip_passes_filter_not_pattern :
  zip_test "notes.gzip" = true /\ archive_date_capture "notes.gzip" = None.
Proof. split; reflexivity. Qed.

(** ** Lemmas *)

Lemma js_split_nonempty sep s : js_split sep s <> [].
Proof.
  destruct s as [|x r]; simpl; [discriminate|].
  case_bool_decide; [discriminate|]. destruct (js_split sep r); discriminate.
Qed.

Lemma js_join_cons_head sep x l :
  js_join sep (cons_head x l) = String x (js_join sep l).
Proof. destruct l as [|h [|h' t]]; reflexivity. Qed.

Lemma js_join_cons_nonempty sep x l :
  l <> [] -> js_join sep (x :: l) = x +:+ sep +:+ js_join sep l.
Proof. destruct l; [congruence | reflexivity]. Qed.

Lemma js_split_no_sep sep s :
  sep ∉ chars s -> js_split sep s = [s].
Proof.
  induction s as [|x r IH]; simpl; intros Hn; [reflexivity|].
  rewrite not_elem_of_cons in Hn. destruct Hn as [Hx Hr].
  rewrite bool_decide_false by congruence. now rewrite IH.
Qed.

Lemma js_split_app sep a b :
  sep ∉ chars a -> js_split sep (a +:+ String sep b) = a :: js_split sep b.
Proof.
  induction a as [|x r IH]; intros Hn; simpl.
  - now rewrite bool_decide_true.
  - unfold chars in Hn; simpl in Hn. rewrite not_elem_of_cons in Hn. destruct Hn as [Hx Hr].
    rewrite bool_decide_false by congruence. rewrite IH by exact Hr. reflexivity.
Qed.

Lemma take_while_app_all {A} (p : A -> bool) l1 l2 :
  Forall (fun x => p x = true) l1 -> take_while p (l1 ++ l2) = l1 ++ take_while p l2.
Proof. induction 1 as [|x l Hx _ IH]; simpl; [reflexivity|]. now rewrite Hx, IH. Qed.

Lemma chars_rev_app (a b : string) :
  rev (chars (a +:+ b)) = rev (chars b) ++ rev (chars a).
Proof. unfold chars. now rewrite list_ascii_of_string_app, rev_app_distr. Qed.

Lemma of_chars_chars s : of_chars (chars s) = s.
Proof. apply string_of_list_ascii_of_string. Qed.

#[export] Hint Rewrite chars_rev_app of_chars_chars : backup_rw.

Lemma replace_all_char_app c d a b :
  replace_all_char c d (a +:+ b) = replace_all_char c d a +:+ replace_all_char c d b.
Proof. induction a as [|x r IH]; simpl; [reflexivity|]. now rewrite IH. Qed.

Lemma replace_all_char_id c d s :
  c ∉ chars s -> replace_all_char c d s = s.
Proof.
  induction s as [|x r IH]; simpl; intros Hn; [reflexivity|].
  rewrite not_elem_of_cons in Hn. destruct Hn as [Hx Hr].
  rewrite bool_decide_false by congruence. now rewrite IH.
Qed.

(** Joining the pieces of a split on one character with that character
    gives back the string: [split] loses nothing. *)
Lemma js_join_split sep s :
  js_join (String sep "") (js_split sep s) = s.
Proof.
  induction s as [|x r IH]; simpl; [reflexivity|].
  case_bool_decide as Hx.
  - subst. rewrite js_join_cons_nonempty by apply js_split_nonempty.
    now rewrite IH.
  - now rewrite js_join_cons_head, IH.
Qed.

Lemma take_while_stop {A} (p : A -> bool) x l :
  p x = false -> take_while p (x :: l) = [].
Proof. simpl. now intros ->. Qed.

Lemma archive_date_capture_app p t :
  Forall (fun c => date_class c = true) (chars t) ->
  ends_outside_class p ->
  archive_date_capture (p +:+ t +:+ ".zip") = Some t.
Proof.
  intros Ht Hp. unfold archive_date_capture.
  rewrite !chars_rev_app. simpl.
  rewrite take_while_app_all by now apply Forall_rev.
  destruct Hp as [->|(p' & c & -> & Hc)].
  - simpl. rewrite app_nil_r, rev_involutive. now rewrite of_chars_chars.
  - rewrite chars_rev_app. simpl. rewrite Hc, app_nil_r, rev_involutive.
    now rewrite of_chars_chars.
Qed.

Lemma replace_all_char_roundtrip c d s :
  d ∉ chars s -> replace_all_char d c (replace_all_char c d s) = s.
Proof.
  induction s as [|x r IH]; simpl; intros Hn; [reflexivity|].
  unfold chars in Hn; simpl in Hn. rewrite not_elem_of_cons in Hn. destruct Hn as [Hx Hr].
  destruct (decide (x = c)) as [->|Hxc].
  - rewrite (bool_decide_true (c = c)), (bool_decide_true (d = d)) by done. now rewrite IH.
  - rewrite (bool_decide_false (x = c)), (bool_decide_false (x = d)) by congruence.
    now rewrite IH.
Qed.

Lemma strip_dot_tail_app a b :
  "."%char ∉ chars a -> Forall (fun c => is_line_terminator c = false) (chars b) ->
  strip_dot_tail (a +:+ String "." b) = a.
Proof.
  intros Ha Hb. unfold strip_dot_tail. rewrite <- (of_chars_chars a) at 2.
  f_equal. unfold chars in *. rewrite list_ascii_of_string_app.
  change (list_ascii_of_string (String "." b)) with ("."%char :: list_ascii_of_string b).
  induction (list_ascii_of_string a) as [|x r IH]; cbn [app strip_dot_tail_l].
  - rewrite bool_decide_true by reflexivity. rewrite andb_true_l.
    replace (forallb _ _) with true; [reflexivity|].
    symmetry. apply forallb_forall. intros c Hc. rewrite List.Forall_forall in Hb.
    rewrite (Hb c Hc). reflexivity.
  - rewrite not_elem_of_cons in Ha. destruct Ha as [Hx Hr].
    rewrite bool_decide_false by congruence. rewrite andb_false_l. now rewrite IH.
Qed.

Lemma chars_replace_all_char c d s :
  chars (replace_all_char c d s) = map (fun x => if bool_decide (x = c) then d else x) (chars s).
Proof. induction s as [|x r IH]; [reflexivity|]. unfold chars in *. simpl. now rewrite IH. Qed.

Lemma replace_all_char_removes c d s :
  c <> d -> c ∉ chars (replace_all_char c d s).
Proof.
  intros Hcd. induction s as [|x r IH]; unfold chars in *; simpl.
  - apply not_elem_of_nil.
  - rewrite not_elem_of_cons. split; [case_bool_decide; congruence | exact IH].
Qed.

Lemma js_split_join sep l :
  l <> [] -> Forall (fun s => sep ∉ chars s) l ->
  js_split sep (js_join (String sep "") l) = l.
Proof.
  induction l as [|x [|y r] IH]; intros Hne Hf; [congruence| |].
  - inversion Hf. simpl. now apply js_split_no_sep.
  - inversion Hf as [|? ? Hx Hr]; subst.
    rewrite js_join_cons_nonempty by discriminate.
    rewrite string_app_cons, string_app_empty, js_split_app by exact Hx. f_equal. apply IH; [discriminate | exact Hr].
Qed.

Lemma js_split_app_sep sep a b :
  js_split sep (a +:+ String sep b) = js_split sep a ++ js_split sep b.
Proof.
  induction a as [|x r IH]; rewrite ?string_app_empty, ?string_app_cons; simpl.
  - now rewrite bool_decide_true.
  - case_bool_decide; [now rewrite IH|]. rewrite IH.
    destruct (js_split sep r) eqn:E; [now apply js_split_nonempty in E | reflexivity].
Qed.

Lemma js_join_app sep l1 l2 :
  l1 <> [] -> l2 <> [] -> js_join sep (l1 ++ l2) = js_join sep l1 +:+ sep +:+ js_join sep l2.
Proof.
  induction l1 as [|x [|y r] IH]; intros H1 H2; [congruence| |].
  - cbn [app]. now rewrite js_join_cons_nonempty.
  - change ((x :: y :: r) ++ l2) with (x :: ((y :: r) ++ l2)).
    rewrite js_join_cons_nonempty by (simpl; discriminate).
    rewrite IH by (discriminate || assumption).
    rewrite (js_join_cons_nonempty sep x) by discriminate.
    now rewrite !string_app_assoc.
Qed.

Lemma is_prefix_app p l : is_prefix p (p ++ l) = true.
Proof. induction p as [|x p IH]; simpl; [reflexivity|]. now rewrite bool_decide_true, IH. Qed.

(** Every character of a [replace] result comes from the subject or from
    the replacement. *)
Lemma replace_first_l_chars pat rep l x :
  x ∈ replace_first_l pat rep l -> x ∈ l \/ x ∈ rep.
Proof.
  induction l as [|y l IH]; simpl; intros Hx.
  - destruct (is_prefix pat []); [|now apply not_elem_of_nil in Hx].
    revert Hx. rewrite ?drop_nil, ?app_nil_r. now right.
  - destruct (is_prefix pat (y :: l)).
    + apply elem_of_app in Hx as [Hx|Hx]; [now right|]. left. eapply elem_of_drop_sub. exact Hx.
    + apply elem_of_cons in Hx as [->|Hx]; [left; apply list_elem_of_here|].
      destruct (IH Hx); [left; now apply elem_of_cons; right | now right].
Qed.

(** When the pattern occurs, the replacement is in the result. *)
Lemma replace_first_l_occurs pat rep a b :
  exists a' b', replace_first_l pat rep (a ++ pat ++ b) = a' ++ rep ++ b'.
Proof.
  induction a as [|y a IH]; simpl.
  - exists [], (drop (length pat) (pat ++ b)). destruct pat as [|x p]; simpl; [now destruct b|].
    rewrite bool_decide_true, is_prefix_app by reflexivity. reflexivity.
  - destruct (is_prefix pat (y :: a ++ pat ++ b)).
    + exists [], (drop (length pat) (y :: a ++ pat ++ b)). reflexivity.
    + destruct IH as (a' & b' & ->). exists (y :: a'), b'. reflexivity.
Qed.

(** A name that [archive_date_capture] accepts ends with [".zip"]. *)
Lemma archive_date_capture_ends s t :
  archive_date_capture s = Some t -> exists a, chars s = a ++ chars ".zip".
Proof.
  unfold archive_date_capture. intros H.
  destruct (rev (chars s)) as [|a r] eqn:E; [discriminate|].
  destruct a as [[] [] [] [] [] [] [] []]; try discriminate.
  destruct r as [|b r]; [discriminate|].
  destruct b as [[] [] [] [] [] [] [] []]; try discriminate.
  destruct r as [|c r]; [discriminate|].
  destruct c as [[] [] [] [] [] [] [] []]; try discriminate.
  destruct r as [|d r]; [discriminate|].
  destruct d as [[] [] [] [] [] [] [] []]; try discriminate.
  exists (rev r). rewrite <- (rev_involutive (chars s)), E. simpl. now rewrite <- !app_assoc.
Qed.

(** Every name ending in [".zip"] passes [/.zip$/]. *)
Lemma zip_test_dot_zip s : zip_test (s +:+ ".zip") = true.
Proof. unfold zip_test. rewrite chars_rev_app. reflexivity. Qed.

End JsString.
