(* ===== verification/JsNumber.v ===== *)
(** * [parseInt] (ECMAScript 2024, 19.2.5)

    [removeOldLocalBackups] reads its retention count with
    [parseInt(env.KEEP_LOCAL_BACKUPS_COUNT!) || 10] (run.ts line 75).
    [parseInt] is modelled as the specification writes it, with the radix
    argument absent: trim leading white space, read a sign, strip a [0x]
    prefix (radix 16) or use radix 10, read the longest prefix of digits.
    The result is [None] for NaN and [Some z] for the number [z]; numbers
    are kept exact in [Z] (a double rounds past 2^53, which only matters
    for counts no folder reaches).  The [!] of TypeScript is erased at run
    time, so an unset variable is passed as [undefined], which [parseInt]
    turns into the string ["undefined"]. *)

From S2P Require Import Prelude JsString.

Module JsNumber.
Import JsString.

(** White space and line terminators that an 8-bit string can hold: TAB,
    LF, VT, FF, CR, SPACE and NO-BREAK SPACE (U+00A0). *)
Definition is_js_space (c : ascii) : bool :=
  let n := nat_of_ascii c in
  ((9 <=? n) && (n <=? 13))%nat || (n =? 32)%nat || (n =? 160)%nat.

Fixpoint drop_while {A} (p : A -> bool) (l : list A) : list A :=
  match l with
  | [] => []
  | x :: r => if p x then drop_while p r else l
  end.

(** The value of a character as a digit of radix [r], if it is one. *)
Definition digit_value (r : nat) (c : ascii) : option nat :=
  let n := nat_of_ascii c in
  let v := if (48 <=? n) && (n <=? 57) then Some (n - 48)
           else if (97 <=? n) && (n <=? 122) then Some (n - 87)
           else if (65 <=? n) && (n <=? 90) then Some (n - 55)
           else None in
  match v with
  | Some d => if d <? r then Some d else None
  | None => None
  end%nat.

(** The longest prefix of radix-[r] digits, as digit values. *)
Fixpoint digit_prefix (r : nat) (l : list ascii) : list nat :=
  match l with
  | [] => []
  | c :: l' =>
      match digit_value r c with
      | Some d => d :: digit_prefix r l'
      | None => []
      end
  end.

Definition digits_to_Z (r : nat) (ds : list nat) : Z :=
  fold_left (fun acc d => acc * Z.of_nat r + Z.of_nat d)%Z ds 0%Z.

Definition parse_sign (l : list ascii) : Z * list ascii :=
  match l with
  | "-"%char :: l' => (-1, l')%Z
  | "+"%char :: l' => (1, l')%Z
  | _ => (1, l)%Z
  end.

Definition parse_radix (l : list ascii) : nat * list ascii :=
  match l with
  | "0"%char :: "x"%char :: l' => (16%nat, l')
  | "0"%char :: "X"%char :: l' => (16%nat, l')
  | _ => (10%nat, l)
  end.

Definition parseInt (s : string) : option Z :=
  let '(sign, l) := parse_sign (drop_while is_js_space (chars s)) in
  let '(r, l) := parse_radix l in
  match digit_prefix r l with
  | [] => None
  | ds => Some (sign * digits_to_Z r ds)%Z
  end.

(** [x || 10] on the number [parseInt] returns: NaN and (plus or minus)
    zero are falsy. *)
Definition or_default_number (n : option Z) (d : Z) : Z :=
  match n with
  | Some z => if Z.eqb z 0 then d else z
  | None => d
  end.

(** ** Printing a non-negative integer in decimal, for round trips *)

(** Little-endian decimal digits; [fuel] bounds the number of digits. *)
Fixpoint digits_le (fuel n : nat) : list nat :=
  match fuel with
  | O => []
  | S f => if (n <? 10)%nat then [n] else (n mod 10)%nat :: digits_le f (n / 10)
  end.

Definition digit_char (d : nat) : ascii := ascii_of_nat (48 + d).

Definition nat_to_decimal (n : nat) : string :=
  of_chars (map digit_char (rev (digits_le (S n) n))).

Fixpoint le_value (ds : list nat) : nat :=
  match ds with [] => 0 | d :: r => d + 10 * le_value r end%nat.

Example parseInt_cases :
  parseInt "3" = Some 3%Z /\ parseInt "  12abc" = Some 12%Z /\
  parseInt "0x1A" = Some 26%Z /\ parseInt "-2" = Some (-2)%Z /\
  parseInt "undefined" = None /\ parseInt "" = None /\ parseInt "-0" = Some 0%Z.
Proof. vm_compute. repeat split. Qed.

(** ** Lemmas *)

Lemma digits_le_spec fuel n :
  (n < fuel)%nat ->
  Forall (fun d => d < 10)%nat (digits_le fuel n) /\ le_value (digits_le fuel n) = n
  /\ digits_le fuel n <> [].
Proof.
  revert n. induction fuel as [|f IH]; intros n Hn; [lia|]. cbn [digits_le].
  destruct (Nat.ltb_spec n 10).
  - repeat split; [constructor; [lia|constructor] | cbn [le_value]; lia | discriminate].
  - destruct (IH (n / 10)%nat) as (Hf & Hv & _); [apply Nat.Div0.div_lt_upper_bound; lia|].
    repeat split; [constructor; [apply Nat.mod_upper_bound; lia | exact Hf] | | discriminate].
    cbn [le_value]. rewrite Hv. pose proof (Nat.div_mod n 10). lia.
Qed.

Lemma digit_value_char d : (d < 10)%nat -> digit_value 10 (digit_char d) = Some d.
Proof. intros H. do 10 (destruct d as [|d]; [reflexivity|]). lia. Qed.

Lemma is_js_space_digit d : (d < 10)%nat -> is_js_space (digit_char d) = false.
Proof. intros H. do 10 (destruct d as [|d]; [reflexivity|]). lia. Qed.

Lemma digit_prefix_chars ds :
  Forall (fun d => d < 10)%nat ds -> digit_prefix 10 (map digit_char ds) = ds.
Proof.
  induction 1 as [|d ds Hd _ IH]; cbn [map digit_prefix]; [reflexivity|].
  now rewrite digit_value_char, IH.
Qed.

Lemma digit_prefix_app ds rest :
  Forall (fun d => d < 10)%nat ds ->
  digit_prefix 10 (map digit_char ds ++ rest) = ds ++ digit_prefix 10 rest.
Proof.
  induction 1 as [|d ds Hd _ IH]; cbn [map app digit_prefix]; [reflexivity|].
  now rewrite digit_value_char, IH.
Qed.

Lemma parse_radix_digits ds :
  Forall (fun d => d < 10)%nat ds -> parse_radix (map digit_char ds) = (10%nat, map digit_char ds).
Proof.
  intros H. destruct ds as [|d [|d2 ds]]; [reflexivity| |].
  - inversion H as [|? ? Hd _]. do 10 (destruct d as [|d]; [reflexivity|]). lia.
  - inversion H as [|? ? Hd H']. inversion H' as [|? ? Hd2 _].
    do 10 (destruct d as [|d]; [do 10 (destruct d2 as [|d2]; [reflexivity|]); lia|]). lia.
Qed.

Lemma digits_to_Z_rev ds :
  digits_to_Z 10 (rev ds) = Z.of_nat (le_value ds).
Proof.
  assert (Hgen : forall acc l, fold_left (fun acc d => acc * 10 + Z.of_nat d)%Z l acc
                   = (acc * 10 ^ Z.of_nat (length l) + digits_to_Z 10 l)%Z).
  { intros acc l. revert acc. induction l as [|d l IH] using rev_ind; intros acc.
    - simpl. unfold digits_to_Z. simpl. lia.
    - unfold digits_to_Z. rewrite !fold_left_app, IH. simpl.
      rewrite length_app, Nat2Z.inj_add. simpl. rewrite Z.pow_add_r by lia.
      unfold digits_to_Z. lia. }
  induction ds as [|d ds IH]; [reflexivity|].
  simpl rev. unfold digits_to_Z in *. rewrite fold_left_app. simpl. rewrite IH. lia.
Qed.

Lemma parse_sign_digit d l :
  (d < 10)%nat -> parse_sign (digit_char d :: l) = (1%Z, digit_char d :: l).
Proof. intros H. do 10 (destruct d as [|d]; [reflexivity|]). lia. Qed.

Lemma nat_to_decimal_digits n :
  exists ds, chars (nat_to_decimal n) = map digit_char ds /\ Forall (fun d => d < 10)%nat ds
             /\ ds <> [] /\ digits_to_Z 10 ds = Z.of_nat n.
Proof.
  destruct (digits_le_spec (S n) n) as (Hf & Hv & Hne); [lia|].
  exists (rev (digits_le (S n) n)). split; [apply list_ascii_of_string_of_list_ascii|].
  split; [now apply Forall_rev|]. split.
  - intros Hr. apply Hne. apply (f_equal (@rev nat)) in Hr. now rewrite rev_involutive in Hr.
  - now rewrite digits_to_Z_rev, Hv.
Qed.

(** The digits after the sign: radix 10, all of them read. *)
Lemma parse_unsigned_digits ds :
  Forall (fun d => d < 10)%nat ds -> ds <> [] ->
  (let '(r, l) := parse_radix (map digit_char ds) in
   match digit_prefix r l with [] => None | ds' => Some (digits_to_Z r ds') end)
  = Some (digits_to_Z 10 ds).
Proof.
  intros Hf Hne. rewrite parse_radix_digits, digit_prefix_chars by exact Hf.
  destruct ds; [congruence | reflexivity].
Qed.

(** [parseInt] reads back the decimal rendering of any natural number. *)
Theorem parseInt_nat_to_decimal n :
  parseInt (nat_to_decimal n) = Some (Z.of_nat n).
Proof.
  destruct (nat_to_decimal_digits n) as (ds & Hc & Hf & Hne & Hv).
  unfold parseInt. rewrite Hc.
  destruct ds as [|d ds']; [congruence|]. inversion Hf as [|? ? Hd _]; subst.
  cbn [map drop_while]. rewrite is_js_space_digit, parse_sign_digit by exact Hd.
  pose proof (parse_unsigned_digits (d :: ds') Hf Hne) as Hu. cbn [map] in Hu.
  destruct (parse_radix _) as [r l]. destruct (digit_prefix r l) as [|x xs]; [discriminate|].
  injection Hu as Hu. rewrite Hu, Hv. f_equal. lia.
Qed.

(** A minus sign in front gives the negative number. *)
Theorem parseInt_neg_decimal n :
  parseInt ("-" +:+ nat_to_decimal n) = Some (- Z.of_nat n)%Z.
Proof.
  destruct (nat_to_decimal_digits n) as (ds & Hc & Hf & Hne & Hv).
  unfold parseInt. change (chars ("-" +:+ nat_to_decimal n)) with ("-"%char :: chars (nat_to_decimal n)).
  rewrite Hc. cbn [drop_while is_js_space]. simpl parse_sign. cbv beta iota.
  pose proof (parse_unsigned_digits ds Hf Hne) as Hu.
  destruct (parse_radix _) as [r l]. destruct (digit_prefix r l) as [|x xs]; [discriminate|].
  injection Hu as Hu. rewrite Hu, Hv. f_equal; lia.
Qed.

End JsNumber.
