(* ===== verification/JsDate.v ===== *)
(** * ECMAScript time values: [toISOString] and [new Date(string)]

    [run.ts] turns the start time into a file-name suffix with
    [new Date().toISOString()] (line 50) and, when it prunes, turns the
    suffix of every archive name back into a time with [new Date(...)]
    (line 77) and compares the [getTime()] results (line 82).  A time value
    is an integer number of milliseconds since 1970-01-01T00:00:00Z, as in
    the ECMAScript specification; an invalid date ([NaN]) is [None].

    The proleptic Gregorian calendar is computed by era (400 years, 146097
    days) as in Hinnant's [days_from_civil]/[civil_from_days]; the inverse
    property within one era is checked by evaluation over its 146097 days
    ([era_table_ok]) and lifted to every day by the era decomposition. *)

From S2P Require Import Prelude JsString JsNumber.

Module JsDate.
Import JsString JsNumber.

Open Scope Z_scope.

Definition ms_per_day : Z := 86400000.

(** Largest absolute time value ([TimeClip], ECMAScript 21.4.1.31). *)
Definition max_time : Z := 8640000000000000.

(** ** Calendar *)

(** Day of the era (0..146096) of year-of-era [yoe] (counted from March),
    month [m] (1..12) and day [d]. *)
Definition doe_of_civil (yoe m d : Z) : Z :=
  let mp := (m + 9) mod 12 in
  let doy := (153 * mp + 2) / 5 + d - 1 in
  yoe * 365 + yoe / 4 - yoe / 100 + doy.

(** Days since 1970-01-01 of a calendar date; [MakeDay(y, m - 1, d)] of
    ECMAScript 21.4.1.28 for [1 <= m <= 12]; a day beyond the month's
    length overflows into the next month, as [MakeDay] does. *)
Definition days_from_civil (y m d : Z) : Z :=
  let y' := if m <=? 2 then y - 1 else y in
  (y' / 400) * 146097 + doe_of_civil (y' mod 400) m d - 719468.

(** Year of era (counted from January), month and day of a day of era. *)
Definition civil_of_doe (doe : Z) : Z * Z * Z :=
  let yoe := (doe - doe / 1460 + doe / 36524 - doe / 146096) / 365 in
  let doy := doe - (365 * yoe + yoe / 4 - yoe / 100) in
  let mp := (5 * doy + 2) / 153 in
  let d := doy - (153 * mp + 2) / 5 + 1 in
  let m := if mp <? 10 then mp + 3 else mp - 9 in
  (yoe + (if m <=? 2 then 1 else 0), m, d).

(** [YearFromTime], [MonthFromTime] + 1 and [DateFromTime] of a day
    number (ECMAScript 21.4.1.3 to 21.4.1.5). *)
Definition civil_from_days (z : Z) : Z * Z * Z :=
  let z' := z + 719468 in
  let '(y, m, d) := civil_of_doe (z' mod 146097) in
  ((z' / 146097) * 400 + y, m, d).

(** The check that one era's table inverts [doe_of_civil]. *)
Definition doe_ok (doe : Z) : bool :=
  let '(y, m, d) := civil_of_doe doe in
  let yoe := y - (if m <=? 2 then 1 else 0) in
  (0 <=? yoe) && (yoe <? 400) && (doe_of_civil yoe m d =? doe)
  && (1 <=? m) && (m <=? 12) && (1 <=? d) && (d <=? 31).

(** [f] holds at [start], [start + 1], ..., [start + n - 1]. *)
Fixpoint all_from (f : Z -> bool) (start : Z) (n : nat) : bool :=
  match n with
  | O => true
  | S k => f start && all_from f (start + 1) k
  end.

(** ** [Date.prototype.toISOString] (ECMAScript 21.4.4.36) *)

(** The [w] decimal digits of [n], most significant first. *)
Fixpoint fixed_digits (w : nat) (n : Z) : list nat :=
  match w with
  | O => []
  | S w' => fixed_digits w' (n / 10) ++ [Z.to_nat (n mod 10)]
  end.

Definition pad (w : nat) (n : Z) : string := of_chars (map digit_char (fixed_digits w n)).

(** Four digits for years 0..9999, otherwise a sign and six digits. *)
Definition year_string (y : Z) : string :=
  if (0 <=? y) && (y <=? 9999) then pad 4 y
  else (if y <? 0 then "-" else "+") +:+ pad 6 (Z.abs y).

Definition toISOString (t : Z) : string :=
  let '(y, m, d) := civil_from_days (t / ms_per_day) in
  let tod := t mod ms_per_day in
  year_string y +:+ "-" +:+ pad 2 m +:+ "-" +:+ pad 2 d +:+ "T" +:+
  pad 2 (tod / 3600000) +:+ ":" +:+ pad 2 ((tod / 60000) mod 60) +:+ ":" +:+
  pad 2 ((tod / 1000) mod 60) +:+ "." +:+ pad 3 (tod mod 1000) +:+ "Z".

(** ** [new Date(string)]: the Date Time String Format (21.4.1.32)

    The parser follows V8's reading of the format: fields are maximal digit
    runs of exactly the format's length; month 1..12, day 1..31 (a day past
    the month's end overflows, as in [MakeDay]), hour 0..24 (24 only as
    24:00:00), minute and second 0..59.  A date-only form is UTC; a
    date-time form without offset is local time, [tza] milliseconds ahead
    of UTC.  A string outside the format is an invalid date here (V8 hands
    such strings to its legacy parser, which this model does not cover). *)

Definition in_range (lo hi x : Z) : bool := (lo <=? x) && (x <=? hi).

Definition fixed_num (k : nat) (l : list ascii) : option (Z * list ascii) :=
  let ds := digit_prefix 10 l in
  if Nat.eqb (length ds) k then Some (digits_to_Z 10 ds, drop k l) else None.

Definition parse_year (l : list ascii) : option (Z * list ascii) :=
  match l with
  | "+"%char :: r => fixed_num 6 r
  | "-"%char :: r =>
      let? (y, r') := fixed_num 6 r in
      if y =? 0 then None else Some (- y, r')
  | _ => fixed_num 4 l
  end.

Definition parse_date_part (l : list ascii) : option (Z * Z * Z * list ascii) :=
  let? (y, l1) := parse_year l in
  match l1 with
  | "-"%char :: r =>
      let? (m, l2) := fixed_num 2 r in
      if negb (in_range 1 12 m) then None else
      match l2 with
      | "-"%char :: r' =>
          let? (d, l3) := fixed_num 2 r' in
          if in_range 1 31 d then Some (y, m, d, l3) else None
      | _ => Some (y, m, 1, l2)
      end
  | _ => Some (y, 1, 1, l1)
  end.

(** Milliseconds of a fraction: its first three digits. *)
Definition fraction_ms (ds : list nat) : Z :=
  match ds with
  | [a] => Z.of_nat a * 100
  | [a; b] => Z.of_nat a * 100 + Z.of_nat b * 10
  | a :: b :: c :: _ => Z.of_nat a * 100 + Z.of_nat b * 10 + Z.of_nat c
  | [] => 0
  end.

Definition parse_seconds (l : list ascii) : option (Z * Z * list ascii) :=
  match l with
  | ":"%char :: r =>
      let? (s, l1) := fixed_num 2 r in
      if negb (in_range 0 59 s) then None else
      match l1 with
      | "."%char :: r' =>
          let ds := digit_prefix 10 r' in
          match ds with
          | [] => None
          | _ => Some (s, fraction_ms ds, drop (length ds) r')
          end
      | _ => Some (s, 0, l1)
      end
  | _ => Some (0, 0, l)
  end.

(** An explicit offset in minutes: [Z] or a sign, [HH], [:] and [mm]. *)
Definition parse_offset (l : list ascii) : option (option Z * list ascii) :=
  let signed sg r :=
    let? (hh, l1) := fixed_num 2 r in
    match l1 with
    | ":"%char :: r' =>
        let? (mm, l2) := fixed_num 2 r' in
        if in_range 0 23 hh && in_range 0 59 mm then Some (Some (sg * (hh * 60 + mm)), l2)
        else None
    | _ => None
    end in
  match l with
  | "Z"%char :: r => Some (Some 0, r)
  | "+"%char :: r => signed 1 r
  | "-"%char :: r => signed (-1) r
  | _ => Some (None, l)
  end.

(** [THH:mm[:ss[.sss]]] and an optional offset: the time of day in
    milliseconds and the offset. *)
Definition parse_time_part (l : list ascii) : option (Z * option Z * list ascii) :=
  let? (h, l1) := fixed_num 2 l in
  if negb (in_range 0 24 h) then None else
  match l1 with
  | ":"%char :: r =>
      let? (mi, l2) := fixed_num 2 r in
      if negb (in_range 0 59 mi) then None else
      let? (s, ms, l3) := parse_seconds l2 in
      if (h =? 24) && negb ((mi =? 0) && (s =? 0) && (ms =? 0)) then None else
      let? (off, l4) := parse_offset l3 in
      Some (h * 3600000 + mi * 60000 + s * 1000 + ms, off, l4)
  | _ => None
  end.

Definition time_clip (t : Z) : option Z :=
  if Z.abs t <=? max_time then Some t else None.

(** [new Date(s).getTime()]: [None] is [NaN]. *)
Definition date_parse (tza : Z) (s : string) : option Z :=
  let? (y, m, d, l) := parse_date_part (chars s) in
  let day := days_from_civil y m d * ms_per_day in
  match l with
  | [] => time_clip day
  | "T"%char :: r =>
      let? (tod, off, rest) := parse_time_part r in
      match rest with
      | [] =>
          match off with
          | Some o => time_clip (day + tod - o * 60000)
          | None => time_clip (day + tod - tza)
          end
      | _ => None
      end
  | _ => None
  end.

(** The part of the ISO string that [replace(/\..*$/, '')] keeps. *)
Definition iso_seconds (t : Z) : string :=
  let '(y, m, d) := civil_from_days (t / ms_per_day) in
  let tod := t mod ms_per_day in
  year_string y +:+ "-" +:+ pad 2 m +:+ "-" +:+ pad 2 d +:+ "T" +:+
  pad 2 (tod / 3600000) +:+ ":" +:+ pad 2 ((tod / 60000) mod 60) +:+ ":" +:+
  pad 2 ((tod / 1000) mod 60).

(** The characters of [iso_seconds]: digits, ['-'], ['T'] and [':']. *)
Definition iso_char (c : ascii) : bool :=
  is_digit c || bool_decide (c = "-"%char) || bool_decide (c = "T"%char) || bool_decide (c = ":"%char).

Lemma all_from_spec f n :
  forall start, all_from f start n = true ->
  forall k, start <= k < start + Z.of_nat n -> f k = true.
Proof.
  induction n as [|n IH]; simpl; intros start H k Hk; [lia|].
  apply andb_true_iff in H as [H1 H2].
  destruct (Z.eq_dec k start) as [->|Hne]; [exact H1|].
  apply (IH (start + 1)); [exact H2 | lia].
Qed.

Lemma era_table_ok : all_from doe_ok 0 (Z.to_nat 146097) = true.
Proof. vm_compute. reflexivity. Qed.

Lemma doe_ok_in_era doe : 0 <= doe < 146097 -> doe_ok doe = true.
Proof.
  intros H. apply (all_from_spec doe_ok _ 0 era_table_ok). rewrite Z2Nat.id; lia.
Qed.

(** [days_from_civil] inverts [civil_from_days] on every day number. *)
Lemma days_from_civil_from_days z :
  let '(y, m, d) := civil_from_days z in days_from_civil y m d = z.
Proof.
  unfold civil_from_days.
  pose proof (Z.mod_pos_bound (z + 719468) 146097 ltac:(lia)) as Hb.
  pose proof (Z.div_mod (z + 719468) 146097 ltac:(lia)) as Hdm.
  pose proof (doe_ok_in_era _ Hb) as Hok.
  unfold doe_ok in Hok.
  destruct (civil_of_doe ((z + 719468) mod 146097)) as [[y m] d].
  repeat rewrite andb_true_iff in Hok. rewrite !Z.leb_le, Z.ltb_lt, Z.eqb_eq in Hok.
  destruct Hok as ((((((Hy0 & Hy1) & Hdoe) & _) & _) & _) & _).
  unfold days_from_civil.
  set (era := (z + 719468) / 146097) in *.
  set (yoe := y - (if m <=? 2 then 1 else 0)) in *.
  assert (Hy' : (if m <=? 2 then era * 400 + y - 1 else era * 400 + y) = era * 400 + yoe).
  { subst yoe. destruct (m <=? 2); lia. }
  rewrite Hy'. destruct (Z_div_mod_decomp 400 era yoe) as [-> ->]; [lia|].
  rewrite Hdoe. lia.
Qed.

Example toISOString_epoch : toISOString 0 = "1970-01-01T00:00:00.000Z".
Proof. vm_compute. reflexivity. Qed.

Example toISOString_2024 : toISOString 1709210096789 = "2024-02-29T12:34:56.789Z".
Proof. vm_compute. reflexivity. Qed.

Example date_parse_cases :
  date_parse 0 "2024-02-29T12:34:56" = Some 1709210096000 /\
  date_parse 3600000 "2024-02-29T12:34:56" = Some 1709206496000 /\
  date_parse 3600000 "2024-02-29" = Some 1709164800000 /\
  date_parse 0 "2021-02-31T00:00" = date_parse 0 "2021-03-03T00:00:00" /\
  date_parse 0 "" = None /\ date_parse 0 "2024-13-01" = None.
Proof. vm_compute. repeat split. Qed.

(** ** Lemmas: printing and reading fixed-width fields *)

Lemma digits_to_Z_snoc ds d :
  digits_to_Z 10 (ds ++ [d]) = digits_to_Z 10 ds * 10 + Z.of_nat d.
Proof. unfold digits_to_Z. now rewrite fold_left_app. Qed.

Lemma fixed_digits_spec w n :
  0 <= n < 10 ^ Z.of_nat w ->
  Forall (fun d => d < 10)%nat (fixed_digits w n) /\ length (fixed_digits w n) = w
  /\ digits_to_Z 10 (fixed_digits w n) = n.
Proof.
  revert n. induction w as [|w IH]; intros n Hn; simpl.
  - repeat split; [constructor | ]. simpl in Hn. unfold digits_to_Z. simpl. lia.
  - rewrite Nat2Z.inj_succ, Z.pow_succ_r in Hn by lia.
    destruct (IH (n / 10)) as (Hf & Hl & Hv).
    { split; [apply Z.div_pos; lia | apply Z.div_lt_upper_bound; lia]. }
    pose proof (Z.mod_pos_bound n 10 ltac:(lia)).
    repeat split.
    + apply Forall_app. split; [exact Hf|]. constructor; [lia | constructor].
    + rewrite length_app, Hl. simpl. lia.
    + rewrite digits_to_Z_snoc, Hv, Z2Nat.id by lia. pose proof (Z.div_mod n 10). lia.
Qed.

Lemma chars_pad w n : chars (pad w n) = map digit_char (fixed_digits w n).
Proof. apply list_ascii_of_string_of_list_ascii. Qed.

(** A field printed by [pad] is read back by [fixed_num] when no digit
    follows it. *)
Lemma fixed_num_pad w n rest :
  0 <= n < 10 ^ Z.of_nat w -> digit_prefix 10 rest = [] ->
  fixed_num w (chars (pad w n) ++ rest) = Some (n, rest).
Proof.
  intros Hn Hr. destruct (fixed_digits_spec w n Hn) as (Hf & Hl & Hv).
  unfold fixed_num. rewrite chars_pad, digit_prefix_app, Hr, app_nil_r by exact Hf.
  rewrite Hl, Nat.eqb_refl, Hv. f_equal. f_equal.
  rewrite drop_app_length'; [reflexivity|]. now rewrite length_map.
Qed.

Lemma fixed_digits_lt10 w n : Forall (fun d => d < 10)%nat (fixed_digits w n).
Proof.
  revert n. induction w as [|w IH]; intros n; simpl; [constructor|].
  apply Forall_app. split; [apply IH|]. constructor; [|constructor].
  pose proof (Z.mod_pos_bound n 10 ltac:(lia)). lia.
Qed.

Lemma parse_year_digits ds r :
  Forall (fun d => d < 10)%nat ds -> ds <> [] ->
  parse_year (map digit_char ds ++ r) = fixed_num 4 (map digit_char ds ++ r).
Proof.
  intros Hf Hne. destruct ds as [|d ds]; [congruence|].
  inversion Hf as [|? ? Hd _]. do 10 (destruct d as [|d]; [reflexivity|]). lia.
Qed.

Lemma civil_from_days_range z :
  let '(y, m, d) := civil_from_days z in 1 <= m <= 12 /\ 1 <= d <= 31.
Proof.
  unfold civil_from_days.
  pose proof (Z.mod_pos_bound (z + 719468) 146097 ltac:(lia)) as Hb.
  pose proof (doe_ok_in_era _ Hb) as Hok. unfold doe_ok in Hok.
  destruct (civil_of_doe _) as [[y m] d].
  repeat rewrite andb_true_iff in Hok. rewrite !Z.leb_le in Hok. tauto.
Qed.

Lemma toISOString_split t :
  toISOString t = iso_seconds t +:+ String "." (pad 3 (t mod ms_per_day mod 1000) +:+ "Z").
Proof.
  unfold toISOString, iso_seconds. destruct (civil_from_days _) as [[y m] d].
  now rewrite !string_app_assoc.
Qed.

Lemma chars_app a b : chars (a +:+ b) = chars a ++ chars b.
Proof. apply list_ascii_of_string_app. Qed.

Lemma in_range_true lo hi x : lo <= x <= hi -> in_range lo hi x = true.
Proof. intros H. unfold in_range. apply andb_true_iff. split; apply Z.leb_le; lia. Qed.

Lemma length_fixed_digits w n : length (fixed_digits w n) = w.
Proof. revert n. induction w as [|w IH]; intros n; simpl; [reflexivity|]. rewrite length_app, IH. simpl. lia. Qed.

Lemma parse_year_pad y r : parse_year (chars (pad 4 y) ++ r) = fixed_num 4 (chars (pad 4 y) ++ r).
Proof.
  rewrite chars_pad. apply parse_year_digits; [apply fixed_digits_lt10|].
  intros H. apply (f_equal length) in H. rewrite length_fixed_digits in H. discriminate.
Qed.

(** Side conditions [0 <= n < 10 ^ w] of [fixed_num_pad]. *)
Ltac pad_range :=
  match goal with
  | |- context [10 ^ Z.of_nat ?w] =>
      let v := eval vm_compute in (10 ^ Z.of_nat w) in change (10 ^ Z.of_nat w) with v
  end; lia_div.

Lemma days_from_civil_bounds y m d :
  0 <= y <= 9999 -> 1 <= m <= 12 -> 1 <= d <= 31 ->
  -800000 <= days_from_civil y m d <= 3000000.
Proof. intros. unfold days_from_civil, doe_of_civil. destruct (m <=? 2); lia_div. Qed.

(** Where a date falls relative to the first and the last day of the
    four-digit years: 0000-01-01 is day -719528 and 9999-12-31 is day
    2932896. *)
Lemma days_year_bounds y m d :
  1 <= m <= 12 -> 1 <= d <= 31 ->
  (y <= -1 -> days_from_civil y m d <= -719529) /\
  (0 <= y -> -719528 <= days_from_civil y m d) /\
  (y <= 9999 -> days_from_civil y m d <= 2932896) /\
  (10000 <= y -> 2932897 <= days_from_civil y m d).
Proof.
  intros Hm Hd. unfold days_from_civil, doe_of_civil.
  destruct (m <=? 2) eqn:E; apply Z.leb_le in E || apply Z.leb_gt in E;
    repeat split; intros; lia_div.
Qed.

(** The date part of the ISO format, with fields printed by [pad]. *)
Lemma parse_date_part_pad y m d r :
  0 <= y <= 9999 -> 1 <= m <= 12 -> 1 <= d <= 31 -> digit_prefix 10 r = [] ->
  parse_date_part (chars (pad 4 y) ++ "-"%char :: chars (pad 2 m) ++ "-"%char :: chars (pad 2 d) ++ r)
  = Some (y, m, d, r).
Proof.
  intros Hy Hm Hd Hr. unfold parse_date_part.
  rewrite parse_year_pad, fixed_num_pad by (pad_range || reflexivity). cbv beta iota.
  rewrite fixed_num_pad by (pad_range || reflexivity).
  rewrite (in_range_true 1 12 m) by lia. cbn [negb]. cbv beta iota.
  rewrite fixed_num_pad by (pad_range || exact Hr).
  now rewrite (in_range_true 1 31 d) by lia.
Qed.

(** The time part [HH:mm] followed by what [parse_seconds] and
    [parse_offset] read. *)
Lemma parse_time_part_pad h mi l2 s ms l3 off rest :
  0 <= h < 24 -> 0 <= mi <= 59 -> digit_prefix 10 l2 = [] ->
  parse_seconds l2 = Some (s, ms, l3) -> parse_offset l3 = Some (off, rest) ->
  parse_time_part (chars (pad 2 h) ++ ":"%char :: chars (pad 2 mi) ++ l2)
  = Some (h * 3600000 + mi * 60000 + s * 1000 + ms, off, rest).
Proof.
  intros Hh Hmi Hl2 Hs Ho. unfold parse_time_part.
  rewrite fixed_num_pad by (pad_range || reflexivity).
  rewrite (in_range_true 0 24) by lia. cbn [negb]. cbv beta iota.
  rewrite fixed_num_pad by (pad_range || exact Hl2).
  rewrite (in_range_true 0 59) by lia. cbn [negb]. cbv beta iota.
  rewrite Hs. rewrite (proj2 (Z.eqb_neq h 24)) by lia. cbn [andb]. cbv beta iota.
  now rewrite Ho.
Qed.

(** The seconds field, alone or with a three-digit fraction. *)
Lemma parse_seconds_pad s r :
  0 <= s <= 59 -> (r = [] \/ exists r', r = "Z"%char :: r') ->
  parse_seconds (":"%char :: chars (pad 2 s) ++ r) = Some (s, 0, r).
Proof.
  intros Hs Hr. unfold parse_seconds.
  rewrite fixed_num_pad by (pad_range || (destruct Hr as [->|[r' ->]]; reflexivity)).
  rewrite (in_range_true 0 59) by lia. cbn [negb]. cbv beta iota.
  destruct Hr as [->|[r' ->]]; reflexivity.
Qed.

Lemma parse_seconds_pad_frac s n r :
  0 <= s <= 59 -> 0 <= n < 1000 -> digit_prefix 10 r = [] ->
  parse_seconds (":"%char :: chars (pad 2 s) ++ "."%char :: chars (pad 3 n) ++ r) = Some (s, n, r).
Proof.
  intros Hs Hn Hr. unfold parse_seconds.
  rewrite fixed_num_pad by (pad_range || reflexivity).
  rewrite (in_range_true 0 59) by lia. cbn [negb]. cbv beta iota.
  destruct (fixed_digits_spec 3 n ltac:(pad_range)) as (Hf & Hl & Hv).
  rewrite chars_pad, digit_prefix_app, Hr, app_nil_r by exact Hf.
  destruct (fixed_digits 3 n) as [|a [|b [|c [|? ?]]]] eqn:E; try discriminate Hl.
  simpl. rewrite <- Hv. unfold digits_to_Z. simpl. do 3 f_equal. lia.
Qed.

(** The fields of the ISO string of a time with a four-digit year. *)
Lemma iso_fields t :
  (let '(y, _, _) := civil_from_days (t / ms_per_day) in 0 <= y <= 9999) ->
  let tod := t mod ms_per_day in
  0 <= tod / 3600000 < 24 /\ 0 <= (tod / 60000) mod 60 <= 59 /\
  0 <= (tod / 1000) mod 60 <= 59 /\ 0 <= tod mod 1000 < 1000 /\
  t = t / ms_per_day * ms_per_day + (tod / 3600000 * 3600000 + (tod / 60000) mod 60 * 60000
        + (tod / 1000) mod 60 * 1000 + tod mod 1000).
Proof.
  intros _ tod. pose proof (Z.mod_pos_bound t ms_per_day ltac:(unfold ms_per_day; lia)).
  pose proof (Z.div_mod t ms_per_day ltac:(unfold ms_per_day; lia)).
  subst tod. unfold ms_per_day in *. repeat split; lia_div.
Qed.

(** A time value of the four-digit years is within [TimeClip]'s range. *)
Lemma four_digit_time_clip t :
  (let '(y, _, _) := civil_from_days (t / ms_per_day) in 0 <= y <= 9999) ->
  forall x, -1000 * ms_per_day <= x - t <= 1000 * ms_per_day -> time_clip x = Some x.
Proof.
  intros Hy x Hx. pose proof (days_from_civil_from_days (t / ms_per_day)) as Hdc.
  pose proof (civil_from_days_range (t / ms_per_day)) as Hr.
  destruct (civil_from_days (t / ms_per_day)) as [[y m] d]. destruct Hr as [Hm Hd].
  pose proof (days_from_civil_bounds y m d Hy Hm Hd) as Hb. rewrite Hdc in Hb.
  unfold time_clip. unfold ms_per_day, max_time in *.
  rewrite (proj2 (Z.leb_le _ _)) by lia_div. reflexivity.
Qed.

(** [new Date(s)] reads back the seconds-precision ISO prefix of a time
    whose year has four digits, as a local time [tza] ahead of UTC. *)
Lemma date_parse_iso_seconds tza t :
  (let '(y, _, _) := civil_from_days (t / ms_per_day) in 0 <= y <= 9999) ->
  Z.abs tza <= ms_per_day ->
  date_parse tza (iso_seconds t) = Some (t - t mod 1000 - tza).
Proof.
  intros Hy Htza. destruct (iso_fields t Hy) as (Hh & Hmi & Hs & Hms & Ht).
  pose proof (civil_from_days_range (t / ms_per_day)) as Hr.
  pose proof (days_from_civil_from_days (t / ms_per_day)) as Hdc.
  pose proof (four_digit_time_clip t Hy) as Hclip.
  unfold iso_seconds. destruct (civil_from_days (t / ms_per_day)) as [[y m] d]. destruct Hr.
  unfold year_string. rewrite (proj2 (andb_true_iff _ _)) by (split; apply Z.leb_le; lia).
  unfold date_parse. rewrite !chars_app. cbn [chars list_ascii_of_string app].
  rewrite parse_date_part_pad by (lia || reflexivity). cbv beta iota.
  rewrite <- (app_nil_r (chars (pad 2 ((t mod ms_per_day / 1000) mod 60)))).
  erewrite parse_time_part_pad; [| lia | lia | reflexivity | apply parse_seconds_pad; [lia | now left] | reflexivity].
  cbv beta iota. rewrite Hdc, Hclip; unfold ms_per_day in *; [f_equal|]; lia_div.
Qed.

Lemma is_digit_char d : (d < 10)%nat -> is_digit (digit_char d) = true.
Proof. intros H. do 10 (destruct d as [|d]; [reflexivity|]). lia. Qed.

Lemma pad_digits w n : Forall (fun c => is_digit c = true) (chars (pad w n)).
Proof.
  rewrite chars_pad. apply Forall_map. eapply Forall_impl; [apply fixed_digits_lt10|].
  intros d Hd. now apply is_digit_char.
Qed.

Lemma pad_iso_chars w n : Forall (fun c => iso_char c = true) (chars (pad w n)).
Proof.
  eapply Forall_impl; [apply pad_digits|]. intros c Hc. unfold iso_char. now rewrite Hc.
Qed.

Lemma iso_seconds_chars t :
  (let '(y, _, _) := civil_from_days (t / ms_per_day) in 0 <= y <= 9999) ->
  Forall (fun c => iso_char c = true) (chars (iso_seconds t)).
Proof.
  intros Hy. unfold iso_seconds. destruct (civil_from_days _) as [[y m] d].
  unfold year_string. rewrite (proj2 (andb_true_iff _ _)) by (split; apply Z.leb_le; lia).
  rewrite !chars_app. repeat (apply Forall_app; split); first [apply pad_iso_chars | repeat constructor].
Qed.

Lemma toISOString_tail_chars t :
  Forall (fun c => is_line_terminator c = false) (chars (pad 3 (t mod ms_per_day mod 1000) +:+ "Z")).
Proof.
  rewrite chars_app. apply Forall_app. split; [|repeat constructor].
  eapply Forall_impl; [apply pad_digits|]. intros c Hc.
  unfold is_line_terminator. repeat case_bool_decide; subst; easy.
Qed.

End JsDate.
