(* ===== verification/NodePath.v ===== *)
(** * Node's POSIX [path] module: [join], [normalize], [basename]

    [removeOldLocalBackups] builds every path it removes with
    [join(backupFolder, name)] (run.ts line 86) and [uploadBackupToS3]
    names the S3 object with [basename(path)] (line 68).  Both are
    modelled after [lib/path.js] of Node: [join] glues its non-empty
    arguments with ['/'] and normalises the result; [normalize] resolves
    empty, ['.'] and ['..'] segments and keeps a trailing slash. *)

From S2P Require Import Prelude JsString JsNumber.

Module NodePath.
Import JsString JsNumber.

(** One iteration of the loop of [normalizeString] in Node's POSIX
    [path]: skip empty and ['.'] segments, let ['..'] cancel the previous
    segment, keep a leading ['..'] only for relative paths.  The
    accumulator holds the kept segments, last first. *)
Definition normalize_step (allow_above_root : bool) (acc : list string) (seg : string) : list string :=
  if bool_decide (seg = "") || bool_decide (seg = ".") then acc
  else if bool_decide (seg = "..") then
    match acc with
    | x :: acc' => if bool_decide (x = "..")
                   then (if allow_above_root then ".." :: acc else acc) else acc'
    | [] => if allow_above_root then [".."] else []
    end
  else seg :: acc.

(** [normalizeString]: the loop over the segments. *)
Definition normalize_segments (allow_above_root : bool) (segs : list string) : list string :=
  rev (fold_left (normalize_step allow_above_root) segs []).

(** [path.posix.normalize]. *)
Definition normalize (p : string) : string :=
  if bool_decide (p = "") then "." else
  let cs := chars p in
  let is_abs := bool_decide (head cs = Some "/"%char) in
  let trailing := bool_decide (last cs = Some "/"%char) in
  let body := js_join "/" (normalize_segments (negb is_abs) (js_split "/" p)) in
  if bool_decide (body = "") then (if is_abs then "/" else if trailing then "./" else ".")
  else let body := if trailing then body +:+ "/" else body in
       if is_abs then "/" +:+ body else body.

(** [path.posix.join(a, b)]. *)
Definition path_join (a b : string) : string :=
  match filter (fun s => s <> "") [a; b] with
  | [] => "."
  | parts => normalize (js_join "/" parts)
  end.

(** [path.basename] of Node's POSIX [path] module without an extension
    argument: trailing slashes are dropped, then the last segment kept. *)
Definition basename (p : string) : string :=
  let l := rev (drop_while (fun c => bool_decide (c = "/"%char)) (rev (chars p))) in
  of_chars (rev (take_while (fun c => negb (bool_decide (c = "/"%char))) (rev l))).

(** A segment that [normalize] keeps as it is. *)
Definition plain_segment (s : string) : Prop := s <> "" /\ s <> "." /\ s <> "..".

(** A relative folder path made of plain segments, such as the default
    ["backup"]: no leading, doubled or trailing ['/'], no ['.'] or ['..']. *)
Definition plain_folder (f : string) : Prop := Forall plain_segment (js_split "/" f).

Example path_join_cases :
  path_join "backup" "a.b*" = "backup/a.b*" /\
  path_join "./backup/" "x*" = "backup/x*" /\
  path_join "/data/../backup" "x*" = "/backup/x*" /\
  path_join "" "x" = "x".
Proof. vm_compute. repeat split. Qed.

(** ** Lemmas *)

Lemma fold_normalize_plain b l acc :
  Forall plain_segment l -> fold_left (normalize_step b) l acc = rev l ++ acc.
Proof.
  intros H. revert acc. induction H as [|s l (Hs1 & Hs2 & Hs3) _ IH]; intros acc; [reflexivity|].
  cbn [fold_left]. rewrite IH. unfold normalize_step.
  rewrite !bool_decide_false by assumption. simpl. now rewrite <- app_assoc.
Qed.

Lemma normalize_segments_plain b l :
  Forall plain_segment l -> normalize_segments b l = l.
Proof.
  intros H. unfold normalize_segments. rewrite fold_normalize_plain, app_nil_r by exact H.
  apply rev_involutive.
Qed.

Lemma plain_folder_head f :
  plain_folder f -> exists c r, f = String c r /\ c <> "/"%char.
Proof.
  unfold plain_folder. destruct f as [|c r]; simpl; intros H.
  - inversion H as [|? ? [Hne _]]. congruence.
  - exists c, r. split; [reflexivity|]. intros ->. rewrite bool_decide_true in H by reflexivity.
    inversion H as [|? ? [Hne _]]. congruence.
Qed.

Lemma last_chars_app_nonempty a b :
  b <> "" -> last (chars (a +:+ b)) = last (chars b).
Proof.
  intros Hb. unfold chars. rewrite list_ascii_of_string_app.
  destruct b as [|c r]; [congruence|]. simpl. apply last_app_cons.
Qed.

Lemma last_not_in {A} (l : list A) x : x ∉ l -> last l <> Some x.
Proof. intros Hn Hl. apply Hn. apply last_Some_elem_of. exact Hl. Qed.

Lemma drop_while_stop {A} (p : A -> bool) x l :
  p x = false -> drop_while p (x :: l) = x :: l.
Proof. simpl. now intros ->. Qed.

(** The last segment of a path that ends in a name without ['/']. *)
Lemma basename_after_slash a b :
  b <> "" -> "/"%char ∉ chars b -> basename (a +:+ "/" +:+ b) = b.
Proof.
  intros Hb Hs. unfold basename.
  rewrite !chars_rev_app, <- app_assoc. change (rev (chars "/") ++ ?l) with ("/"%char :: l).
  assert (Hn : Forall (fun c => negb (bool_decide (c = "/"%char)) = true) (rev (chars b))).
  { apply Forall_forall. intros c Hc. apply list_elem_of_In, in_rev, list_elem_of_In in Hc.
    rewrite bool_decide_false; [reflexivity|]. intros ->. exact (Hs Hc). }
  destruct (rev (chars b)) as [|x r] eqn:Er.
  - apply (f_equal (@rev _)) in Er. rewrite rev_involutive in Er.
    destruct b; [congruence | discriminate].
  - inversion Hn as [|? ? Hx _]; subst.
    rewrite <- app_comm_cons, drop_while_stop by now destruct (bool_decide (x = "/"%char)).
    rewrite rev_involutive, app_comm_cons, take_while_app_all by exact Hn.
    rewrite take_while_stop by reflexivity. rewrite app_nil_r, <- Er, rev_involutive.
    apply of_chars_chars.
Qed.

(** [join] of a plain folder and a plain name is concatenation. *)
Lemma path_join_concat f n :
  plain_folder f -> plain_segment n -> "/"%char ∉ chars n ->
  path_join f n = f +:+ "/" +:+ n.
Proof.
  intros Hf Hn Hsl. destruct (plain_folder_head f Hf) as (c & r & Ef & Hc).
  assert (Hn0 : n <> "") by apply Hn.
  assert (Hsn : "/" +:+ n = String "/" n) by now rewrite string_app_cons, string_app_empty.
  unfold path_join. rewrite filter_cons_True by (rewrite Ef; discriminate).
  rewrite filter_cons_True, filter_nil by exact Hn0. cbn [js_join].
  unfold normalize. rewrite Hsn.
  rewrite bool_decide_false by (rewrite Ef, string_app_cons; discriminate).
  rewrite (bool_decide_false (head _ = _)) by (rewrite Ef, string_app_cons; simpl; congruence).
  rewrite last_chars_app_nonempty by discriminate.
  rewrite (bool_decide_false (last _ = _)).
  2:{ destruct n as [|x n']; [congruence|]. unfold chars in *; simpl in *.
      apply last_not_in. exact Hsl. }
  rewrite js_split_app_sep, (js_split_no_sep _ n) by exact Hsl.
  rewrite normalize_segments_plain by (apply Forall_app; split; [exact Hf | now constructor]).
  rewrite js_join_app by (apply js_split_nonempty || discriminate).
  rewrite js_join_split. cbn [js_join]. rewrite Hsn.
  rewrite bool_decide_false by (rewrite Ef, string_app_cons; discriminate).
  reflexivity.
Qed.

End NodePath.
