(* ===== verification/Config.v ===== *)
(** * Configuration: [EnvParams] and the constants derived from it

    [run.ts] reads its whole configuration from [process.env] (lines 5-31)
    and derives, once at start-up (lines 49-59), the date suffix, the
    backup folder, the backup name and the archive paths.  The record
    [Env] has the fields of [EnvParams] in the source's order, each
    [string | undefined]; [now] is the time value of [new Date()]. *)

From S2P Require Import Prelude JsString JsNumber JsDate.

Record Env := mkEnv {
  MONGO_URI : js_value;
  HOST : js_value;
  PORT : js_value;
  USERNAME : js_value;
  PASSWORD : js_value;
  DB : js_value;
  COLLECTION : js_value;
  EXCLUDE_COLLECTIONS : js_value;
  BACKUP_NAME : js_value;
  BACKUP_LOCAL_FOLDER : js_value;
  AWS_ACCESS_KEY_ID : js_value;
  AWS_SECRET_ACCESS_KEY : js_value;
  AWS_DEFAULT_REGION : js_value;
  AWS_BUCKET : js_value;
  EMAIL_TO : js_value;
  EMAIL_FROM : js_value;
  EMAIL_ONLY_ON_ERROR : js_value;
  KEEP_LOCAL_BACKUPS_COUNT : js_value;
  KEEP_REMOTE_BACKUPS_COUNT : js_value;
  ARCHIVE : js_value;
  EXTRA_OPTIONS : js_value
}.

(** The empty environment: every variable unset. *)
Definition empty_env : Env :=
  mkEnv None None None None None None None None None None None None None None
        None None None None None None None.

(** Two environments used as concrete inputs: a connection URI with
    S3, e-mail and a retention count of 3; and discrete credentials with
    archive mode on. *)
Definition sample_uri_env : Env :=
  mkEnv (Some "mongodb://u:p@host/db") None None None None None None (Some "sessions,logs")
        (Some "test") (Some "backup") None None None (Some "bucket/some") (Some "to@example.org")
        (Some "from@example.org") None (Some "3") None None None.

Definition sample_host_env : Env :=
  mkEnv None (Some "db.local") (Some "27017") (Some "admin") (Some "pw") (Some "shop") None None
        None None None None None None None None None None None (Some "1") None.

(** Only the retention count set. *)
Definition keep_env (k : string) : Env :=
  mkEnv None None None None None None None None None None None None None None None None None
        (Some k) None None None.

Module Config.
Import JsString JsDate.

(** [currentDateSufix] (lines 50-51): the ISO string without its
    fraction and zone, colons replaced by underscores. *)
Definition currentDateSufix (now : Z) : string :=
  replace_all_char ":" "_" (strip_dot_tail (toISOString now)).

(** [backupFolder] (line 52). *)
Definition backupFolder (env : Env) : string :=
  js_or_str (BACKUP_LOCAL_FOLDER env) "backup".

(** [backupName] (lines 53-54). *)
Definition backupName (env : Env) : string :=
  js_or_str (js_or (BACKUP_NAME env) (DB env)) "mongodump"
  +:+ (if truthy (ARCHIVE env) then ".archive" else "").

(** [checkDateSufix] (line 55); it is never read. *)
Definition checkDateSufix (now : Z) : string :=
  first_piece (js_split ":" (currentDateSufix now)).

(** [bakcupArchiveName] (lines 56-57), names as spelled in the source. *)
Definition bakcupArchiveName (env : Env) (now : Z) : string :=
  js_join "." [backupName env; currentDateSufix now].

(** [bakcupArchiveFolderPath] (line 58). *)
Definition bakcupArchiveFolderPath (env : Env) (now : Z) : string :=
  js_join "/" [backupFolder env; bakcupArchiveName env now].

(** [bakcupArchiveFilePath] (line 59). *)
Definition bakcupArchiveFilePath (env : Env) (now : Z) : string :=
  bakcupArchiveFolderPath env now +:+ ".zip".

(** The year of [now] has four digits: [toISOString] has its short form. *)
Definition four_digit_year (now : Z) : Prop :=
  let '(y, _, _) := civil_from_days (now / ms_per_day) in (0 <= y <= 9999)%Z.

Example derived_names :
  let env := {| MONGO_URI := None; HOST := None; PORT := None; USERNAME := None;
                PASSWORD := None; DB := Some "shop"; COLLECTION := None;
                EXCLUDE_COLLECTIONS := None; BACKUP_NAME := None;
                BACKUP_LOCAL_FOLDER := None; AWS_ACCESS_KEY_ID := None;
                AWS_SECRET_ACCESS_KEY := None; AWS_DEFAULT_REGION := None;
                AWS_BUCKET := None; EMAIL_TO := None; EMAIL_FROM := None;
                EMAIL_ONLY_ON_ERROR := None; KEEP_LOCAL_BACKUPS_COUNT := None;
                KEEP_REMOTE_BACKUPS_COUNT := None; ARCHIVE := Some "1";
                EXTRA_OPTIONS := None |} in
  bakcupArchiveFilePath env 1709210096789
  = "backup/shop.archive.2024-02-29T12_34_56.zip".
Proof. vm_compute. reflexivity. Qed.

(** ** Lemmas *)

Lemma four_digit_year_of_bool now :
  (let '(y, _, _) := civil_from_days (now / ms_per_day) in (0 <=? y) && (y <=? 9999))%Z = true ->
  four_digit_year now.
Proof.
  unfold four_digit_year. destruct (civil_from_days _) as [[y m] d].
  rewrite andb_true_iff, !Z.leb_le. tauto.
Qed.

Lemma currentDateSufix_iso now :
  four_digit_year now ->
  currentDateSufix now = replace_all_char ":" "_" (iso_seconds now).
Proof.
  intros Hy. unfold currentDateSufix. rewrite toISOString_split, strip_dot_tail_app.
  - reflexivity.
  - intros Hin. apply iso_seconds_chars in Hy. rewrite Forall_forall in Hy.
    specialize (Hy _ Hin). discriminate.
  - apply toISOString_tail_chars.
Qed.

Lemma iso_char_date_class c :
  iso_char c = true -> date_class (if bool_decide (c = ":"%char) then "_"%char else c) = true.
Proof. destruct c as [[] [] [] [] [] [] [] []]; vm_compute; intros H; first [reflexivity | discriminate H]. Qed.

Lemma currentDateSufix_date_class now :
  four_digit_year now ->
  Forall (fun c => date_class c = true) (chars (currentDateSufix now)).
Proof.
  intros Hy. rewrite currentDateSufix_iso, chars_replace_all_char by exact Hy.
  apply Forall_map. eapply Forall_impl; [exact (iso_seconds_chars now Hy)|].
  apply iso_char_date_class.
Qed.

Lemma underscore_not_in_iso_seconds now :
  four_digit_year now -> "_"%char ∉ chars (iso_seconds now).
Proof.
  intros Hy Hin. apply iso_seconds_chars in Hy. rewrite Forall_forall in Hy.
  specialize (Hy _ Hin). discriminate.
Qed.

Lemma bakcupArchiveFilePath_unfold env now :
  bakcupArchiveFilePath env now
  = backupFolder env +:+ "/" +:+ backupName env +:+ "." +:+ currentDateSufix now +:+ ".zip".
Proof.
  unfold bakcupArchiveFilePath, bakcupArchiveFolderPath, bakcupArchiveName. simpl.
  now rewrite !string_app_assoc.
Qed.

End Config.
