(* ===== verification/Exec.v ===== *)
(** * The effect model: a world, a state-and-exception monad, [exec]

    [run.ts] acts on the world only through [console.log], [existsSync] and
    [mkdirSync] on the backup folder, [readdirSync] of that folder, and
    [execSync] of shell commands.  A [world] holds what these observe and
    produce: whether the folder exists, its listing, and the trace of
    events in order.  An exception is a value of [exn]; unlike a plain
    error monad, a computation that throws keeps the world it reached, so
    the commands run before a failure stay in the trace.

    The external programs ([mongodump], [tar], [aws], [rm]) are not part
    of the repository.  They are the [Shell] interface: a command and the
    folder listing give an exit status and the new listing; the same
    interface says whether [mkdirSync] can create a missing folder.  Every theorem
    of the later files holds for every [Shell] instance unless it names
    its hypotheses on the shell explicitly. *)

From S2P Require Import Prelude JsString.

Module Exec.

(** Observable events, in the order they happen. *)
Inductive event :=
| ELog (msg : string)                       (** [console.log(msg)] *)
| ELogList (msg : string) (items : list string)
                                            (** [console.log(msg, array)] *)
| EExec (cmd : string)                      (** [execSync(cmd)] started *)
| EMkdir (path : string).                   (** [mkdirSync(path)] *)

#[export] Instance event_eq_dec : EqDecision event.
Proof. solve_decision. Defined.

(** The exceptions the code can raise.  [ECommandFailed cmd] is the
    [Error] that [execSync] throws for a non-zero exit status;
    [ENullIndex] is the [TypeError] of [null[1]] (line 77); [EFsError msg]
    is the system error [mkdirSync] throws (line 61), with Node's message
    such as [EACCES: permission denied, mkdir 'backup']. *)
Inductive exn :=
| ECommandFailed (cmd : string)
| ENullIndex
| EFsError (msg : string).

#[export] Instance exn_eq_dec : EqDecision exn.
Proof. solve_decision. Defined.

(** [err.message]: Node's [checkExecSyncError] message (with [stdio:
    'inherit'] there is no captured stderr to append), and V8's message
    for reading a property of [null]. *)
Definition err_message (e : exn) : string :=
  match e with
  | ECommandFailed cmd => "Command failed: " +:+ cmd
  | ENullIndex => "Cannot read properties of null (reading '1')"
  | EFsError msg => msg
  end.

Record world := mkWorld {
  w_folder_exists : bool;
  w_dir : list string;
  w_trace : list event
}.

(** The environment the code acts on: the external commands, and whether
    [mkdirSync] can create a missing folder ([None]) or throws, with its
    message ([Some msg]: a missing parent, no permission). *)
Class Shell := {
  sh_run : string -> list string -> bool * list string;
  sh_mkdir : string -> option string
}.

Inductive result (A : Type) :=
| Ok (a : A)
| Throw (e : exn).
Arguments Ok {A} a.
Arguments Throw {A} e.

Definition M (A : Type) := world -> result A * world.

Definition ret {A} (a : A) : M A := fun w => (Ok a, w).

Definition bind {A B} (m : M A) (k : A -> M B) : M B :=
  fun w => match m w with
           | (Ok a, w') => k a w'
           | (Throw e, w') => (Throw e, w')
           end.

Definition throw {A} (e : exn) : M A := fun w => (Throw e, w).

(** [try { m } catch (err) { h(err) }]. *)
Definition try_catch {A} (m : M A) (h : exn -> M A) : M A :=
  fun w => match m w with
           | (Ok a, w') => (Ok a, w')
           | (Throw e, w') => h e w'
           end.

(** A pure computation that may throw, lifted into [M]. *)
Definition of_result {A} (r : result A) : M A := fun w => (r, w).

Declare Scope exec_scope.
Delimit Scope exec_scope with exec.
Notation "x <- m ;; k" := (bind m (fun x => k))
  (at level 100, m at next level, right associativity) : exec_scope.
Notation "m ;; k" := (bind m (fun _ => k))
  (at level 100, right associativity) : exec_scope.
Open Scope exec_scope.

Definition emit (ev : event) : M unit :=
  fun w => (Ok tt, mkWorld (w_folder_exists w) (w_dir w) (w_trace w ++ [ev])).

Definition log (msg : string) : M unit := emit (ELog msg).

Definition readdir : M (list string) := fun w => (Ok (w_dir w), w).

Definition folder_exists : M bool := fun w => (Ok (w_folder_exists w), w).

(** A shell whose commands succeed or fail by name and leave the folder
    as it is, and on which [mkdirSync] succeeds: the concrete shells of
    the examples. *)
Definition fixed_shell (ok : string -> bool) : Shell :=
  {| sh_run := fun cmd dir => (ok cmd, dir); sh_mkdir := fun _ => None |}.

Section WithShell.
Context `{Shell}.

(** [mkdirSync(path)]: Node throws [EEXIST] when the path exists, and the
    environment's error when it cannot create it. *)
Definition mkdir (path : string) : M unit :=
  fun w =>
    if w_folder_exists w then (Throw (EFsError ("EEXIST: file already exists, mkdir '" +:+ path +:+ "'")), w)
    else match sh_mkdir path with
         | None => (Ok tt, mkWorld true (w_dir w) (w_trace w ++ [EMkdir path]))
         | Some msg => (Throw (EFsError msg), w)
         end.

(** [exec] (lines 33-36): log the command, run it, throw on failure. *)
Definition run_shell (cmd : string) : M bool :=
  fun w => let '(ok, dir') := sh_run cmd (w_dir w) in
           (Ok ok, mkWorld (w_folder_exists w) dir' (w_trace w ++ [EExec cmd])).

Definition exec (cmd : string) : M unit :=
  log ("Executing " +:+ cmd) ;;
  ok <- run_shell cmd ;;
  if ok then ret tt else throw (ECommandFailed cmd).

(** ** The commands a trace ran, in order *)

Definition exec_cmds (tr : list event) : list string :=
  omap (fun ev => match ev with EExec c => Some c | _ => None end) tr.

(** ** Worlds only move forward

    [world_le w w']: [w'] extends the trace of [w] and keeps the backup
    folder if [w] had it.  [grows m]: running [m] moves the world forward,
    whether [m] returns or throws.  Every operation of the script grows. *)
Definition world_le (w w' : world) : Prop :=
  prefix (w_trace w) (w_trace w') /\
  (w_folder_exists w = true -> w_folder_exists w' = true).

Definition grows {A} (m : M A) : Prop := forall w, world_le w (snd (m w)).

(** [fails_on_last m]: when [m] throws [ECommandFailed c], [c] is the
    last command of the trace it leaves, so the error names the command
    that just failed. *)
Definition fails_on_last {A} (m : M A) : Prop :=
  forall w c w', m w = (Throw (ECommandFailed c), w') -> last (exec_cmds (w_trace w')) = Some c.

(** A well-formed trace: every [execSync] event comes right after the
    [console.log] of line 34 that announces its command. *)
Inductive announced : list event -> Prop :=
| announced_nil : announced []
| announced_event tr ev : announced tr -> (forall c, ev <> EExec c) -> announced (tr ++ [ev])
| announced_exec tr c :
    announced tr -> announced (tr ++ [ELog ("Executing " +:+ c); EExec c]).

Definition keeps_announced {A} (m : M A) : Prop :=
  forall w, announced (w_trace w) -> announced (w_trace (snd (m w))).

(** One call of [exec], whatever the shell answers. *)
Lemma exec_spec cmd w :
  exec cmd w =
  let '(ok, dir') := sh_run cmd (w_dir w) in
  ((if ok then Ok tt else Throw (ECommandFailed cmd)),
   mkWorld (w_folder_exists w) dir' (w_trace w ++ [ELog ("Executing " +:+ cmd); EExec cmd])).
Proof.
  unfold exec, bind, log, emit, run_shell. simpl.
  destruct (sh_run cmd (w_dir w)) as [[|] d']; simpl; now rewrite <- app_assoc.
Qed.

End WithShell.

Lemma exec_cmds_app tr1 tr2 : exec_cmds (tr1 ++ tr2) = exec_cmds tr1 ++ exec_cmds tr2.
Proof. apply omap_app. Qed.

Lemma bind_Ok {A B} (m : M A) (k : A -> M B) w a w' :
  m w = (Ok a, w') -> bind m k w = k a w'.
Proof. intros Hm. unfold bind. now rewrite Hm. Qed.

Lemma bind_Throw {A B} (m : M A) (k : A -> M B) w e w' :
  m w = (Throw e, w') -> bind m k w = (Throw e, w').
Proof. intros Hm. unfold bind. now rewrite Hm. Qed.

(** The monad laws, pointwise. *)
Lemma bind_assoc {A B C} (m : M A) (k : A -> M B) (k' : B -> M C) w :
  bind (bind m k) k' w = bind m (fun a => bind (k a) k') w.
Proof. unfold bind. destruct (m w) as [[a|e] w1]; reflexivity. Qed.

Lemma bind_ret_l {A B} (a : A) (k : A -> M B) w : bind (ret a) k w = k a w.
Proof. reflexivity. Qed.

Lemma bind_ext {A B} (m : M A) (k k' : A -> M B) w :
  (forall a w', k a w' = k' a w') -> bind m k w = bind m k' w.
Proof. intros Hk. unfold bind. destruct (m w) as [[a|e] w1]; [apply Hk | reflexivity]. Qed.

Lemma bind_ret_unit (m : M unit) w : bind m (fun _ => ret tt) w = m w.
Proof. unfold bind, ret. destruct (m w) as [[[]|e] w1]; reflexivity. Qed.

#[export] Instance world_le_preorder : PreOrder world_le.
Proof.
  split; [intros w; split; [reflexivity | tauto]|].
  intros w1 w2 w3 [H12 F12] [H23 F23]. split; [etrans; eassumption | tauto].
Qed.

Lemma world_le_snoc w ev :
  world_le w (mkWorld (w_folder_exists w) (w_dir w) (w_trace w ++ [ev])).
Proof. split; [by eexists | tauto]. Qed.

Lemma grows_ret {A} (a : A) : grows (ret a).
Proof. intros w. reflexivity. Qed.

Lemma grows_throw {A} e : grows (A := A) (throw e).
Proof. intros w. reflexivity. Qed.

Lemma grows_of_result {A} (r : result A) : grows (of_result r).
Proof. intros w. reflexivity. Qed.

Lemma grows_bind {A B} (m : M A) (k : A -> M B) :
  grows m -> (forall a, grows (k a)) -> grows (bind m k).
Proof.
  intros Hm Hk w. specialize (Hm w). unfold bind.
  destruct (m w) as [[a|e] w']; simpl in *; [etrans; [exact Hm | apply Hk] | exact Hm].
Qed.

Lemma grows_try_catch {A} (m : M A) h :
  grows m -> (forall e, grows (h e)) -> grows (try_catch m h).
Proof.
  intros Hm Hh w. specialize (Hm w). unfold try_catch.
  destruct (m w) as [[a|e] w']; simpl in *; [exact Hm | etrans; [exact Hm | apply Hh]].
Qed.

Lemma grows_emit ev : grows (emit ev).
Proof. intros w. apply world_le_snoc. Qed.

Lemma grows_log msg : grows (log msg).
Proof. apply grows_emit. Qed.

Lemma grows_readdir : grows readdir.
Proof. intros w. reflexivity. Qed.

Lemma grows_folder_exists : grows folder_exists.
Proof. intros w. reflexivity. Qed.

Lemma grows_mkdir `{Shell} path : grows (mkdir path).
Proof.
  intros w. unfold mkdir. destruct (w_folder_exists w); [reflexivity|].
  destruct (sh_mkdir path); [reflexivity|]. split; [by eexists | reflexivity].
Qed.

Lemma grows_run_shell `{Shell} cmd : grows (run_shell cmd).
Proof.
  intros w. unfold run_shell. destruct (sh_run cmd (w_dir w)).
  split; [by eexists | tauto].
Qed.

Lemma grows_exec `{Shell} cmd : grows (exec cmd).
Proof.
  unfold exec. apply grows_bind; [apply grows_log|]. intros _.
  apply grows_bind; [apply grows_run_shell|]. intros [|]; [apply grows_ret | apply grows_throw].
Qed.

#[export] Hint Resolve grows_ret grows_throw grows_of_result grows_emit grows_log
  grows_readdir grows_folder_exists grows_mkdir grows_run_shell grows_exec : backup.

(** Split a composite operation into the operations it runs. *)
Ltac grows_tac :=
  repeat first
    [ progress (intros; cbv beta zeta)
    | apply grows_bind
    | apply grows_try_catch
    | match goal with |- grows (if ?b then _ else _) => destruct b end
    | solve [eauto with backup] ].

Lemma fails_on_last_ret {A} (a : A) : fails_on_last (ret a).
Proof. intros w c w' H. discriminate. Qed.

Lemma fails_on_last_emit ev : fails_on_last (emit ev).
Proof. intros w c w' H. discriminate. Qed.

Lemma fails_on_last_log msg : fails_on_last (log msg).
Proof. apply fails_on_last_emit. Qed.

Lemma fails_on_last_readdir : fails_on_last readdir.
Proof. intros w c w' H. discriminate. Qed.

Lemma fails_on_last_folder_exists : fails_on_last folder_exists.
Proof. intros w c w' H. discriminate. Qed.

Lemma fails_on_last_mkdir `{Shell} path : fails_on_last (mkdir path).
Proof.
  intros w c w' Hm. unfold mkdir in Hm. destruct (w_folder_exists w); [discriminate|].
  destruct (sh_mkdir path); discriminate.
Qed.

Lemma fails_on_last_exec `{Shell} cmd : fails_on_last (exec cmd).
Proof.
  intros w c w' Hx. rewrite exec_spec in Hx. destruct (sh_run cmd (w_dir w)) as [[|] d]; [discriminate|].
  injection Hx as <- <-. simpl. rewrite exec_cmds_app. apply last_snoc.
Qed.

Lemma fails_on_last_of_result {A} (r : result A) :
  (forall c, r <> Throw (ECommandFailed c)) -> fails_on_last (of_result r).
Proof. intros Hr w c w' Hx. injection Hx as Hx _. now destruct (Hr c). Qed.

Lemma fails_on_last_bind {A B} (m : M A) (k : A -> M B) :
  fails_on_last m -> (forall a, fails_on_last (k a)) -> fails_on_last (bind m k).
Proof.
  intros Hm Hk w c w' Hx. unfold bind in Hx. destruct (m w) as [[a|e] w1] eqn:E.
  - exact (Hk a w1 c w' Hx).
  - injection Hx as -> <-. exact (Hm w c w1 E).
Qed.

#[export] Hint Resolve fails_on_last_ret fails_on_last_emit fails_on_last_log fails_on_last_readdir
  fails_on_last_folder_exists fails_on_last_mkdir fails_on_last_exec : backup.

(** Split a composite operation into the operations it runs. *)
Ltac fails_on_last_tac :=
  repeat first
    [ progress (intros; cbv beta zeta)
    | solve [eauto with backup]
    | apply fails_on_last_bind
    | match goal with |- fails_on_last (if ?b then _ else _) => destruct b end ].

Lemma keeps_announced_ret {A} (a : A) : keeps_announced (ret a).
Proof. intros w Hw. exact Hw. Qed.

Lemma keeps_announced_throw {A} e : keeps_announced (A := A) (throw e).
Proof. intros w Hw. exact Hw. Qed.

Lemma keeps_announced_of_result {A} (r : result A) : keeps_announced (of_result r).
Proof. intros w Hw. exact Hw. Qed.

Lemma keeps_announced_emit ev : (forall c, ev <> EExec c) -> keeps_announced (emit ev).
Proof. intros Hev w Hw. now apply announced_event. Qed.

Lemma keeps_announced_log msg : keeps_announced (log msg).
Proof. apply keeps_announced_emit. discriminate. Qed.

Lemma keeps_announced_readdir : keeps_announced readdir.
Proof. intros w Hw. exact Hw. Qed.

Lemma keeps_announced_folder_exists : keeps_announced folder_exists.
Proof. intros w Hw. exact Hw. Qed.

Lemma keeps_announced_mkdir `{Shell} path : keeps_announced (mkdir path).
Proof.
  intros w Hw. unfold mkdir. destruct (w_folder_exists w); [exact Hw|].
  destruct (sh_mkdir path); [exact Hw|]. simpl. apply announced_event; [exact Hw | discriminate].
Qed.

Lemma keeps_announced_exec `{Shell} cmd : keeps_announced (exec cmd).
Proof.
  intros w Hw. rewrite exec_spec. destruct (sh_run cmd (w_dir w)) as [ok d].
  now apply announced_exec.
Qed.

Lemma keeps_announced_bind {A B} (m : M A) (k : A -> M B) :
  keeps_announced m -> (forall a, keeps_announced (k a)) -> keeps_announced (bind m k).
Proof.
  intros Hm Hk w Hw. specialize (Hm w Hw). unfold bind.
  destruct (m w) as [[a|e] w1]; [apply Hk|]; exact Hm.
Qed.

Lemma keeps_announced_try_catch {A} (m : M A) h :
  keeps_announced m -> (forall e, keeps_announced (h e)) -> keeps_announced (try_catch m h).
Proof.
  intros Hm Hh w Hw. specialize (Hm w Hw). unfold try_catch.
  destruct (m w) as [[a|e] w1]; [|apply Hh]; exact Hm.
Qed.

#[export] Hint Resolve keeps_announced_ret keeps_announced_throw keeps_announced_of_result
  keeps_announced_log keeps_announced_readdir keeps_announced_folder_exists
  keeps_announced_mkdir keeps_announced_exec : backup.

(** Split a composite operation into the operations it runs. *)
Ltac keeps_announced_tac :=
  repeat first
    [ progress (intros; cbv beta zeta)
    | solve [eauto with backup]
    | apply keeps_announced_bind
    | apply keeps_announced_try_catch
    | solve [apply keeps_announced_emit; discriminate]
    | match goal with |- keeps_announced (if ?b then _ else _) => destruct b end ].

(** What a well-formed trace guarantees: the event before every command
    is its announcement. *)
Lemma announced_exec_logged tr pre c post :
  announced tr -> tr = pre ++ EExec c :: post ->
  exists pre', pre = pre' ++ [ELog ("Executing " +:+ c)].
Proof.
  intros Ha. revert pre post. induction Ha as [|tr ev Ha IH Hev|tr c' Ha IH]; intros pre post E.
  - destruct pre; discriminate.
  - induction post as [|x post _] using rev_ind.
    + apply app_inj_tail in E as [_ ->]. now destruct (Hev c).
    + rewrite app_comm_cons, app_assoc in E. apply app_inj_tail in E as [E _]. exact (IH _ _ E).
  - change [ELog ("Executing " +:+ c'); EExec c'] with ([ELog ("Executing " +:+ c')] ++ [EExec c']) in E.
    rewrite app_assoc in E. induction post as [|x post _] using rev_ind.
    + apply app_inj_tail in E as [E1 E2]. injection E2 as ->. now exists tr.
    + rewrite app_comm_cons, app_assoc in E. apply app_inj_tail in E as [E _].
      induction post as [|y post _] using rev_ind.
      * apply app_inj_tail in E as [_ E]. discriminate.
      * rewrite app_comm_cons, app_assoc in E. apply app_inj_tail in E as [E _].
        exact (IH _ _ E).
Qed.

#[export] Hint Rewrite exec_cmds_app : backup_rw.

(** Normalise the command list of a trace. *)
Ltac cmds_simpl :=
  repeat (rewrite ?exec_cmds_app; simpl; rewrite ?app_nil_r, <- ?app_assoc).

End Exec.
