(* ===== verification/JsArray.v ===== *)
(** * The array built-ins of [removeOldLocalBackups]

    [Array.prototype.slice] with one negative end (run.ts line 83) and
    [Array.prototype.map] with a callback that may throw (line 81). *)

From S2P Require Import Prelude Exec.

Module JsArray.
Import Exec.

(** [Array.prototype.slice(0, e)] (ECMAScript 23.1.3.28). *)
Definition js_slice_end {A} (l : list A) (e : Z) : list A :=
  let len := Z.of_nat (length l) in
  let final := if (e <? 0)%Z then Z.max (len + e) 0 else Z.min e len in
  take (Z.to_nat final) l.

(** JavaScript's [map] with a callback that may throw: the first
    exception propagates. *)
Fixpoint map_result {A B} (f : A -> result B) (l : list A) : result (list B) :=
  match l with
  | [] => Ok []
  | x :: r =>
      match f x with
      | Throw e => Throw e
      | Ok y => match map_result f r with Throw e => Throw e | Ok ys => Ok (y :: ys) end
      end
  end.

Example slice_cases :
  js_slice_end [1;2;3;4;5] (-2) = [1;2;3] /\ js_slice_end [1;2] (-5) = [] /\
  js_slice_end [1;2;3] 2 = [1;2].
Proof. repeat split. Qed.

(** ** Lemmas *)

Lemma js_slice_end_neg {A} (l : list A) k :
  (0 < k)%Z -> js_slice_end l (- k) = take (length l - Z.to_nat k) l.
Proof.
  intros Hk. unfold js_slice_end. rewrite (proj2 (Z.ltb_lt _ _)) by lia.
  f_equal. lia.
Qed.

Lemma js_slice_end_pos {A} (l : list A) k :
  (0 <= k)%Z -> js_slice_end l k = take (Z.to_nat k) l.
Proof.
  intros Hk. unfold js_slice_end. rewrite (proj2 (Z.ltb_ge _ _)) by lia.
  destruct (Z.le_ge_cases k (Z.of_nat (length l))).
  - rewrite Z.min_l by lia. reflexivity.
  - rewrite Z.min_r by lia. rewrite Nat2Z.id, !take_ge; [reflexivity| |reflexivity]. lia.
Qed.

Lemma js_slice_end_sub {A} (l : list A) e x : x ∈ js_slice_end l e -> x ∈ l.
Proof. apply elem_of_take_sub. Qed.

Lemma map_result_length {A B} (f : A -> result B) l ys :
  map_result f l = Ok ys -> length ys = length l.
Proof.
  revert ys. induction l as [|x l IH]; simpl; intros ys H; [now injection H as <-|].
  destruct (f x); [|discriminate]. destruct (map_result f l) eqn:E; [|discriminate].
  injection H as <-. simpl. now rewrite (IH _ eq_refl).
Qed.

End JsArray.
