(* ===== verification/Commands.v ===== *)
(** * The command lines [run.ts] builds

    Pure string builders: the credential arguments of [getCredParams]
    (lines 92-100), the [mongodump] line of [backupMongo] (lines 102-115),
    the [tar] line (line 120), the S3 path and copy command of
    [uploadBackupToS3] (lines 68-69), the [aws ses] line of [sendEmail]
    (lines 42-46), and the source description of the success message
    (lines 128-132).  A double quote is written [dq]. *)

From S2P Require Import Prelude JsString JsNumber JsDate NodePath Config.

Module Commands.
Import JsString NodePath Config.

Definition dq : string := String (ascii_of_nat 34) "".

(** Wrap in double quotes, as the template literals do. *)
Definition quoted (s : string) : string := dq +:+ s +:+ dq.

(** [getCredParams] (lines 92-100). *)
Definition getCredParams (env : Env) : string :=
  if truthy (MONGO_URI env) then "--uri " +:+ quoted (js_str (MONGO_URI env))
  else js_join " "
    (["--host " +:+ js_str (HOST env)] ++
     (if truthy (PORT env) then ["--port " +:+ js_str (PORT env)] else []) ++
     ["--db " +:+ js_str (DB env);
      "--username " +:+ js_str (USERNAME env);
      "--password " +:+ js_str (PASSWORD env)]).

(** [excludeCollections] (lines 104-105): split on commas, drop the
    empty (falsy) entries. *)
Definition excludeCollections (env : Env) : list string :=
  filter (fun c => c <> "") (js_split "," (js_or_str (EXCLUDE_COLLECTIONS env) "")).

(** The output argument of the dump (lines 111-113). *)
Definition outputArg (env : Env) (now : Z) : string :=
  if truthy (ARCHIVE env)
  then "--archive=" +:+ quoted (bakcupArchiveFilePath env now) +:+ " --gzip"
  else "--out=" +:+ quoted (bakcupArchiveFolderPath env now).

(** [mongoCmd] (lines 107-115). *)
Definition mongoCmd (env : Env) (now : Z) : string :=
  js_join " "
    (["mongodump"; getCredParams env] ++
     (if truthy (COLLECTION env) then ["--collection " +:+ js_str (COLLECTION env)] else []) ++
     map (fun col => "--excludeCollection " +:+ col) (excludeCollections env) ++
     [outputArg env now; js_or_str (EXTRA_OPTIONS env) ""]).

(** The packing command (line 120). *)
Definition tarCmd (env : Env) (now : Z) : string :=
  "tar -cvf " +:+ bakcupArchiveFilePath env now +:+ " " +:+ bakcupArchiveFolderPath env now.

(** [s3Path] and [s3cmd] (lines 68-69). *)
Definition s3Path (env : Env) (path : string) : string :=
  "s3://" +:+ js_str (AWS_BUCKET env) +:+ "/" +:+ basename path.

Definition s3cmd (env : Env) (path : string) : string :=
  "aws s3 cp " +:+ path +:+ " " +:+ s3Path env path.

(** The [aws ses send-email] line of [sendEmail] (lines 42-46). *)
Definition emailCmd (env : Env) (subject message : string) : string :=
  js_join " "
    ["aws ses send-email";
     "--destination ToAddresses=" +:+ quoted (js_str (EMAIL_TO env));
     "--message Subject={Data=" +:+ quoted subject +:+ ",Charset=" +:+ quoted "UTF-8"
       +:+ "},Body={Text={" +:+ quoted ("Data=" +:+ message) +:+ ",Charset="
       +:+ quoted "UTF-8" +:+ "}}";
     "--from " +:+ quoted (js_str (EMAIL_FROM env))].

(** [mongoMessageUri] (lines 128-130): the part of the URI before its
    first ['@'], or a URI built from the discrete settings. *)
Definition mongoMessageUri (env : Env) : string :=
  if truthy (MONGO_URI env) then first_piece (js_split "@" (js_str (MONGO_URI env)))
  else "mongodb://" +:+ js_str (HOST env)
       +:+ (if truthy (PORT env) then ":" +:+ js_str (PORT env) else "")
       +:+ "/" +:+ js_str (DB env).

(** The success message (line 132) and the two subjects (lines 134, 141). *)
Definition successMessage (env : Env) : string :=
  "Backup of " +:+ mongoMessageUri env +:+ " completed and uploaded.".

Definition successSubject (env : Env) : string :=
  "Mongo backup (" +:+ backupName env +:+ ") completed.".

Definition errorSubject (env : Env) : string :=
  "Error occurred while mongo backup (" +:+ backupName env +:+ ").".

(** ** Properties *)

(** C18: With a connection URI, the [mongodump] command does not depend on
    HOST, PORT, USERNAME or PASSWORD: two environments that agree on every
    other setting the command reads build the same command. *)
Theorem mongoCmd_uri_ignores_discrete env env' now :
  truthy (MONGO_URI env) = true -> MONGO_URI env' = MONGO_URI env ->
  DB env' = DB env -> COLLECTION env' = COLLECTION env ->
  EXCLUDE_COLLECTIONS env' = EXCLUDE_COLLECTIONS env -> BACKUP_NAME env' = BACKUP_NAME env ->
  BACKUP_LOCAL_FOLDER env' = BACKUP_LOCAL_FOLDER env -> ARCHIVE env' = ARCHIVE env ->
  EXTRA_OPTIONS env' = EXTRA_OPTIONS env ->
  mongoCmd env' now = mongoCmd env now.
Proof.
  intros Hu Hm Hdb Hc Hx Hn Hf Ha Ho.
  unfold mongoCmd, getCredParams, excludeCollections, outputArg, bakcupArchiveFilePath,
    bakcupArchiveFolderPath, bakcupArchiveName, backupFolder, backupName.
  rewrite Hm, Hdb, Hc, Hx, Hn, Hf, Ha, Ho, Hu. reflexivity.
Qed.

(** C30: A comma-separated list of non-empty names without commas is read back
    as the list itself; the empty setting gives no exclusion. *)
Theorem excludeCollections_join env l :
  EXCLUDE_COLLECTIONS env = Some (js_join "," l) ->
  Forall (fun c => c <> "" /\ ","%char ∉ chars c) l ->
  excludeCollections env = l.
Proof.
  intros He Hl. unfold excludeCollections. destruct l as [|x r].
  - rewrite He. reflexivity.
  - assert (Hne : js_join "," (x :: r) <> "").
    { destruct r; simpl; [inversion Hl; tauto|].
      destruct x; [inversion Hl; tauto|]. discriminate. }
    rewrite (js_or_str_truthy _ _ _ He Hne).
    rewrite js_split_join; [| discriminate | eapply Forall_impl; [exact Hl | now intros ? []]].
    apply filter_all. eapply Forall_impl; [exact Hl|]. now intros ? [].
Qed.

(** C29: The success message names the URI up to its first ['@']: the scheme,
    user name and password, not the host. *)
Theorem mongoMessageUri_uri env a b :
  MONGO_URI env = Some (a +:+ String "@" b) -> "@"%char ∉ chars a ->
  mongoMessageUri env = a.
Proof.
  intros Hu Ha. unfold mongoMessageUri. rewrite Hu.
  assert (Ht : truthy (Some (a +:+ String "@" b)) = true).
  { apply truthy_Some_iff. eexists; split; [reflexivity|].
    destruct a; discriminate. }
  rewrite Ht. simpl. now rewrite js_split_app.
Qed.

Example mongoMessageUri_spec_example :
  mongoMessageUri (mkEnv (Some "mongodb://u:p@host/db") None None None None None None None
                          None None None None None None None None None None None None None)
  = "mongodb://u:p".
Proof. reflexivity. Qed.

(** ** Witnesses *)

(** C16: The object [uploadBackupToS3] writes to S3 is named after the
    archive the run has just produced: for a backup name without ['/'],
    [basename] of the archive path is the archive's name, so the key is
    [<bucket>/<backupName>.<date>.zip]. *)
Theorem s3Path_archive_name env now :
  four_digit_year now -> "/"%char ∉ chars (backupName env) ->
  s3Path env (bakcupArchiveFilePath env now) =
  "s3://" +:+ js_str (AWS_BUCKET env) +:+ "/" +:+ bakcupArchiveName env now +:+ ".zip".
Proof.
  intros Hy Hn. unfold s3Path. rewrite bakcupArchiveFilePath_unfold.
  replace (bakcupArchiveName env now +:+ ".zip")
    with (backupName env +:+ "." +:+ currentDateSufix now +:+ ".zip")
    by (unfold bakcupArchiveName; cbn [js_join]; now rewrite !string_app_assoc).
  rewrite basename_after_slash; [reflexivity | destruct (backupName env); discriminate |].
  unfold chars. rewrite !list_ascii_of_string_app, !elem_of_app.
  intros [H|[H|[H|H]]]; [exact (Hn H) | revert H; decide_closed | | revert H; decide_closed].
  pose proof (currentDateSufix_date_class now Hy) as Hd. rewrite Forall_forall in Hd.
  specialize (Hd _ H). discriminate.
Qed.

Lemma excludeCollections_join_witness :
  excludeCollections sample_uri_env = ["sessions"; "logs"].
Proof.
  apply excludeCollections_join; [reflexivity|].
  forall_list ltac:(split; [discriminate | decide_closed]).
Defined.

Lemma mongoMessageUri_uri_witness :
  mongoMessageUri sample_uri_env = "mongodb://u:p".
Proof.
  apply (mongoMessageUri_uri sample_uri_env "mongodb://u:p" "host/db"); [reflexivity|].
  decide_closed.
Defined.

Lemma mongoCmd_uri_ignores_discrete_witness :
  mongoCmd (mkEnv (Some "mongodb://u:p@host/db") (Some "other") (Some "27018") (Some "admin")
                  (Some "secret") None None (Some "sessions,logs") (Some "test") (Some "backup")
                  None None None (Some "bucket/some") (Some "to@example.org")
                  (Some "from@example.org") None (Some "3") None None None) 1709210096789
  = mongoCmd sample_uri_env 1709210096789.
Proof. apply mongoCmd_uri_ignores_discrete; reflexivity. Defined.

Lemma s3Path_archive_name_witness :
  s3Path sample_uri_env (bakcupArchiveFilePath sample_uri_env 1709210096789) =
  "s3://" +:+ js_str (AWS_BUCKET sample_uri_env) +:+ "/"
  +:+ bakcupArchiveName sample_uri_env 1709210096789 +:+ ".zip".
Proof.
  apply s3Path_archive_name; [apply four_digit_year_of_bool; vm_compute; reflexivity | decide_closed].
Defined.

(** A backup name with a ['/'] loses its directory part in the S3 key:
    ["team/shop"] is uploaded as [shop.<date>.zip]. *)
Example s3Path_nested_name :
  let env := mkEnv None None None None None None None None (Some "team/shop") None None None None
                   (Some "bkt") None None None None None None None in
  s3Path env (bakcupArchiveFilePath env 1709210096789) = "s3://bkt/shop.2024-02-29T12_34_56.zip".
Proof. vm_compute. reflexivity. Qed.

End Commands.
