(* ===== verification/Sorting.v ===== *)
(** * [Array.prototype.sort] with the date comparator of line 82

    The array sorted by [removeOldLocalBackups] holds pairs of a name and
    a time value, compared by [(a, b) => a.date.getTime() - b.date.getTime()].
    An invalid date gives [NaN], which [SortCompare] treats as [+0]: the
    comparator [cmp_time] says [Eq] as soon as one side is [None].

    ECMAScript fixes the result of [sort] when the comparator is consistent
    (every date valid): a stably sorted permutation.  V8 computes it with
    TimSort; the model computes it with an insertion sort.  The theorem
    [sort_by_date_correct] states the order against the integer order of
    the time values ([le_date]), not against the comparator, so it is a
    property of the comparator of line 82 as much as of the sort.
    With invalid dates the order is implementation-defined; the insertion
    sort then fixes one admissible order. *)

From S2P Require Import Prelude.
From Stdlib Require Import Sorted.

Module Sorting.

Abbreviation entry := (string * option Z)%type.

(** The sign of [a.date.getTime() - b.date.getTime()]; [NaN] is [+0].  A
    double subtraction of two time values keeps the sign of the exact
    difference. *)
Definition cmp_time (a b : option Z) : comparison :=
  match a, b with
  | Some x, Some y => Z.compare x y
  | _, _ => Eq
  end.

Definition valid (e : entry) : Prop := is_Some (snd e).

(** Insert [x] before the first element that is not smaller: [x] comes
    from earlier in the input than every element of [l]. *)
Fixpoint insert_by (x : entry) (l : list entry) : list entry :=
  match l with
  | [] => [x]
  | y :: l' => if cmp_time (snd x) (snd y) is Gt then y :: insert_by x l' else x :: y :: l'
  end.

Definition sort_by_date (l : list entry) : list entry := fold_right insert_by [] l.

(** Two valid entries in order. *)
Definition le_entry (a b : entry) : Prop := cmp_time (snd a) (snd b) <> Gt.

(** The order of the time values themselves, without the comparator:
    both dates valid and the first no later than the second. *)
Definition le_date (a b : entry) : Prop :=
  exists x y, snd a = Some x /\ snd b = Some y /\ (x <= y)%Z.

(** The entries whose date is [k], in their order. *)
Definition same_date (k : option Z) (l : list entry) : list entry :=
  filter (fun e => snd e = k) l.

(** ** Lemmas *)

Lemma insert_by_perm x l : insert_by x l ≡ₚ x :: l.
Proof.
  induction l as [|y l IH]; simpl; [reflexivity|].
  destruct (cmp_time _ _); [reflexivity|reflexivity|].
  rewrite IH. apply Permutation_swap.
Qed.

Lemma sort_by_date_perm l : sort_by_date l ≡ₚ l.
Proof.
  induction l as [|x l IH]; simpl; [reflexivity|].
  now rewrite insert_by_perm, IH.
Qed.

Lemma cmp_time_Gt_Lt a b : cmp_time a b = Gt -> cmp_time b a = Lt.
Proof. destruct a, b; simpl; try discriminate. rewrite Z.compare_gt_iff, Z.compare_lt_iff. lia. Qed.

Lemma cmp_time_trans a b c :
  is_Some a -> is_Some b -> is_Some c ->
  cmp_time a b <> Gt -> cmp_time b c <> Gt -> cmp_time a c <> Gt.
Proof.
  intros [x ->] [y ->] [z ->]. simpl. rewrite !Z.compare_gt_iff. lia.
Qed.

Lemma insert_by_sorted x l :
  valid x -> Forall valid l -> Sorted le_entry l -> Sorted le_entry (insert_by x l).
Proof.
  intros Hx Hl Hs. induction Hs as [|y l Hs IH Hhd]; simpl.
  - repeat constructor.
  - inversion Hl as [|? ? Hy Hl']; subst.
    destruct (cmp_time (snd x) (snd y)) eqn:E.
    + constructor; [constructor; assumption|]. constructor. unfold le_entry. congruence.
    + constructor; [constructor; assumption|]. constructor. unfold le_entry. congruence.
    + constructor; [now apply IH|].
      destruct l as [|z l]; simpl.
      * constructor. unfold le_entry. apply cmp_time_Gt_Lt in E. congruence.
      * inversion Hhd; subst. apply cmp_time_Gt_Lt in E.
        destruct (cmp_time (snd x) (snd z)); constructor; try assumption;
          unfold le_entry; congruence.
Qed.

Lemma sort_by_date_sorted l : Forall valid l -> Sorted le_entry (sort_by_date l).
Proof.
  induction 1 as [|x l Hx Hl IH]; simpl; [constructor|].
  apply insert_by_sorted; [exact Hx| |exact IH].
  eapply Permutation_Forall; [symmetry; apply sort_by_date_perm | exact Hl].
Qed.

Lemma cmp_time_refl a : cmp_time a a = Eq.
Proof. destruct a; simpl; [apply Z.compare_refl | reflexivity]. Qed.

Lemma same_date_insert_by k x s :
  same_date k (insert_by x s) =
  if decide (snd x = k) then x :: same_date k s else same_date k s.
Proof.
  unfold same_date. induction s as [|y s IH]; simpl.
  - now rewrite filter_cons, filter_nil.
  - destruct (cmp_time (snd x) (snd y)) eqn:E; rewrite ?filter_cons, ?IH;
      repeat case_decide; subst; try reflexivity.
    all: exfalso; match goal with
                  | H1 : snd ?a = snd ?b |- _ => rewrite H1, cmp_time_refl in E
                  end; congruence.
Qed.

(** Stability: entries with the same date keep their input order. *)
Lemma sort_by_date_stable k l : same_date k (sort_by_date l) = same_date k l.
Proof.
  induction l as [|x l IH]; [reflexivity|]. simpl sort_by_date.
  rewrite same_date_insert_by, IH. unfold same_date. rewrite filter_cons.
  reflexivity.
Qed.

Lemma Sorted_le_head y l :
  Forall valid (y :: l) -> Sorted le_entry (y :: l) -> forall w, w ∈ l -> le_entry y w.
Proof.
  revert y. induction l as [|z l IH]; intros y Hv Hs w Hw; [now apply not_elem_of_nil in Hw|].
  inversion Hv as [|? ? Hy Hv']; inversion Hv' as [|? ? Hz Hl]; subst.
  apply Sorted_inv in Hs as [Hs Hhd]. inversion Hhd as [|? ? Hyz]; subst.
  apply elem_of_cons in Hw as [->|Hw]; [exact Hyz|].
  eapply cmp_time_trans; [exact Hy | exact Hz | | exact Hyz | apply IH; assumption].
  rewrite Forall_forall in Hl. now apply Hl.
Qed.

(** On valid entries the comparator's order is the order of the dates. *)
Lemma le_entry_date a b : valid a -> valid b -> le_entry a b -> le_date a b.
Proof.
  intros [x Ha] [y Hb] H. unfold le_entry in H. rewrite Ha, Hb in H. simpl in H.
  exists x, y. repeat split; [exact Ha | exact Hb|]. apply Z.nlt_ge. now rewrite <- Z.compare_gt_iff.
Qed.

Lemma sorted_le_date l : Forall valid l -> Sorted le_entry l -> Sorted le_date l.
Proof.
  induction 1 as [|x l Hx Hl IH]; intros Hs; [constructor|].
  apply Sorted_inv in Hs as [Hs Hhd]. constructor; [now apply IH|].
  destruct l as [|y l]; constructor. inversion Hhd; subst. inversion Hl; subst.
  now apply le_entry_date.
Qed.

(** In a sorted list of valid entries, every entry of a prefix is no
    later than every entry of the rest. *)
Lemma sorted_take_drop l k a b :
  Forall valid l -> Sorted le_entry l -> a ∈ take k l -> b ∈ drop k l -> le_entry a b.
Proof.
  revert k. induction l as [|x r IH]; intros k Hv Hs Ha Hb; [destruct k; simpl in *; easy|].
  destruct k as [|k]; [simpl in Ha; now apply not_elem_of_nil in Ha|].
  simpl in Ha, Hb. apply elem_of_cons in Ha as [->|Ha].
  - eapply Sorted_le_head; [exact Hv | exact Hs | eapply elem_of_drop_sub; exact Hb].
  - inversion Hv; subst. apply Sorted_inv in Hs as [Hs _]. eapply IH; eassumption.
Qed.

Lemma cmp_time_Lt_Gt a b : cmp_time a b = Lt -> cmp_time b a = Gt.
Proof. destruct a, b; simpl; try discriminate. intros H. now rewrite Z.compare_antisym, H. Qed.

(** An entry strictly later than every other entry of a sorted list with
    distinct names is in no proper prefix of it. *)
Lemma strict_max_not_in_prefix l k e :
  Forall valid l -> Sorted le_entry l -> NoDup (map fst l) -> (k < length l)%nat ->
  (forall y, y ∈ l -> fst y <> fst e -> cmp_time (snd y) (snd e) = Lt) ->
  e ∉ take k l.
Proof.
  intros Hv Hs Hnd Hk Hmax He.
  destruct (drop k l) as [|y r] eqn:Ed.
  { apply (f_equal length) in Ed. rewrite length_drop in Ed. simpl in Ed. lia. }
  assert (Hy : y ∈ drop k l) by (rewrite Ed; apply list_elem_of_here).
  assert (Hne : fst y <> fst e).
  { intros Heq. rewrite <- (take_drop k l), map_app in Hnd. apply NoDup_app in Hnd as (_ & Hdis & _).
    apply (Hdis (fst e)); [now apply elem_of_map | rewrite <- Heq; now apply elem_of_map]. }
  apply (sorted_take_drop l k e y Hv Hs He Hy).
  apply cmp_time_Lt_Gt, Hmax; [eapply elem_of_drop_sub; exact Hy | exact Hne].
Qed.

(** C2: The sort of line 82 puts valid dates in ascending order of their
    time values: its result is a permutation of the input whose dates,
    read as integers, never decrease (oldest first), and entries with the
    same date keep their input order. *)
Theorem sort_by_date_correct l :
  Forall valid l ->
  sort_by_date l ≡ₚ l /\ Sorted le_date (sort_by_date l) /\
  (forall k, same_date k (sort_by_date l) = same_date k l).
Proof.
  intros Hv. split; [apply sort_by_date_perm|]. split.
  - apply sorted_le_date; [|now apply sort_by_date_sorted].
    eapply Permutation_Forall; [symmetry; apply sort_by_date_perm | exact Hv].
  - intros k. apply sort_by_date_stable.
Qed.

Lemma sort_by_date_correct_witness :
  let l := [("b", Some 2%Z); ("a", Some 1%Z); ("c", Some 2%Z)] in
  sort_by_date l ≡ₚ l /\ Sorted le_date (sort_by_date l) /\
  (forall k, same_date k (sort_by_date l) = same_date k l).
Proof.
  intros l. apply (sort_by_date_correct l).
  forall_list ltac:(eexists; reflexivity).
Defined.

End Sorting.
