(* ===== verification/Retention.v ===== *)
(** * [removeOldLocalBackups] (run.ts lines 73-90)

    The pruner lists the backup folder, keeps the names that pass
    [/.zip$/], reads the retention count, and when there are at least that
    many archives it parses the date of every one, sorts them by date,
    keeps all but the newest [maxBackupsCount] with [slice(0, -max)], logs
    them and removes each with [rm -rf folder/<name with .zip -> *>].

    The definitions follow the source's constants: [backupArchives],
    [maxBackupsCount], [getDateFromArchiveName], [sortedBackups] and
    [toRemove].  [path.join] is in [NodePath], [slice] and [map] in
    [JsArray].  Besides the functional behaviour on every branch, two
    safety properties: the archive a run writes is not removed by its own
    pruning, and the removal command stays inside the backup folder. *)

From S2P Require Import Prelude JsString JsNumber JsDate NodePath Config Exec JsArray Sorting.

Module Retention.
Import JsString JsNumber JsDate NodePath Config Exec JsArray Sorting.

(** ** The pruner's constants *)

(** [backupArchives] (line 74). *)
Definition backupArchives (names : list string) : list string :=
  filter (fun f => zip_test f = true) names.

(** [maxBackupsCount] (line 75). *)
Definition maxBackupsCount (env : Env) : Z :=
  or_default_number (parseInt (js_str (KEEP_LOCAL_BACKUPS_COUNT env))) 10.

(** [getDateFromArchiveName] (lines 76-78): a [null] match throws when
    its [[1]] is read; otherwise the capture, underscores turned back into
    colons, goes to [new Date] ([tza]: the local zone's offset). *)
Definition getDateFromArchiveName (tza : Z) (name : string) : result (option Z) :=
  match archive_date_capture name with
  | None => Throw ENullIndex
  | Some c => Ok (date_parse tza (replace_all_char "_" ":" c))
  end.

(** [sortedBackups] (lines 81-83): the names to remove, oldest first. *)
Definition sortedBackups (tza max : Z) (archives : list string) : result (list string) :=
  match map_result (getDateFromArchiveName tza) archives with
  | Throw e => Throw e
  | Ok dates =>
      Ok (js_slice_end (map fst (sort_by_date (zip archives dates))) (- max))
  end.

(** [toRemove] (lines 85-87). *)
Definition toRemove (env : Env) (names : list string) : string :=
  js_join " " (map (fun f => path_join (backupFolder env) (replace_first ".zip" "*" f)) names).

(** [removeOldLocalBackups] (lines 73-90). *)
Definition removeOldLocalBackups `{Shell} (env : Env) (tza : Z) : M unit :=
  names <- readdir ;;
  let archives := backupArchives names in
  let max := maxBackupsCount env in
  if (max <=? Z.of_nat (length archives))%Z then
    sorted <- of_result (sortedBackups tza max archives) ;;
    emit (ELogList "Removing old backups" sorted) ;;
    exec ("rm -rf " +:+ toRemove env sorted)
  else ret tt.

(** The date an archive name gives, when it has one. *)
Definition date_of (tza : Z) (name : string) : option Z :=
  match archive_date_capture name with
  | Some c => date_parse tza (replace_all_char "_" ":" c)
  | None => None
  end.

(** The entries the pruner sorts. *)
Definition entries_of (tza : Z) (archives : list string) : list entry :=
  map (fun n => (n, date_of tza n)) archives.

(** Three archive names as a run writes them, not in date order. *)
Definition sample_archives : list string :=
  ["test.2024-01-03T00_00_00.zip"; "test.2024-01-01T00_00_00.zip"; "test.2024-01-02T00_00_00.zip"].

(** ** Lemmas *)

Lemma map_result_getDate_ok tza l :
  Forall (fun n => is_Some (archive_date_capture n)) l ->
  map_result (getDateFromArchiveName tza) l = Ok (map (date_of tza) l).
Proof.
  induction 1 as [|n l [c Hc] _ IH]; simpl; [reflexivity|].
  unfold getDateFromArchiveName at 1. rewrite Hc, IH. unfold date_of. now rewrite Hc.
Qed.

Lemma map_result_getDate_null tza l :
  Exists (fun n => archive_date_capture n = None) l ->
  map_result (getDateFromArchiveName tza) l = Throw ENullIndex.
Proof.
  induction 1 as [n l Hn|n l _ IH]; simpl; unfold getDateFromArchiveName at 1.
  - now rewrite Hn.
  - destruct (archive_date_capture n); [|reflexivity]. now rewrite IH.
Qed.

Lemma sortedBackups_ok tza max archives :
  Forall (fun n => is_Some (archive_date_capture n)) archives ->
  sortedBackups tza max archives
  = Ok (js_slice_end (map fst (sort_by_date (entries_of tza archives))) (- max)).
Proof.
  intros H. unfold sortedBackups. rewrite map_result_getDate_ok by exact H.
  now rewrite zip_map_self.
Qed.

Lemma length_sort_entries tza archives :
  length (sort_by_date (entries_of tza archives)) = length archives.
Proof. unfold entries_of. now rewrite (Permutation_length (sort_by_date_perm _)), length_map. Qed.

Lemma date_of_capture tza n : is_Some (date_of tza n) -> is_Some (archive_date_capture n).
Proof. unfold date_of. destruct (archive_date_capture n); [eauto | intros []; discriminate]. Qed.

(** The run of the pruner on a world, by its two decisions. *)
Lemma removeOld_spec `{Shell} env tza w :
  removeOldLocalBackups env tza w =
  if (maxBackupsCount env <=? Z.of_nat (length (backupArchives (w_dir w))))%Z then
    match sortedBackups tza (maxBackupsCount env) (backupArchives (w_dir w)) with
    | Throw e => (Throw e, w)
    | Ok sorted =>
        exec ("rm -rf " +:+ toRemove env sorted)
          (mkWorld (w_folder_exists w) (w_dir w) (w_trace w ++ [ELogList "Removing old backups" sorted]))
    end
  else (Ok tt, w).
Proof.
  unfold removeOldLocalBackups, bind, readdir, of_result, emit, ret. simpl.
  destruct (_ <=? _)%Z; [|reflexivity].
  destruct (sortedBackups _ _ _); reflexivity.
Qed.

Lemma grows_removeOldLocalBackups `{Shell} env tza : grows (removeOldLocalBackups env tza).
Proof. unfold removeOldLocalBackups. grows_tac. Qed.

#[export] Hint Resolve grows_removeOldLocalBackups : backup.

Lemma keeps_announced_removeOldLocalBackups `{Shell} env tza :
  keeps_announced (removeOldLocalBackups env tza).
Proof. unfold removeOldLocalBackups. keeps_announced_tac. Qed.

#[export] Hint Resolve keeps_announced_removeOldLocalBackups : backup.

Lemma map_result_getDate_throw tza l e :
  map_result (getDateFromArchiveName tza) l = Throw e -> e = ENullIndex.
Proof.
  induction l as [|n l IH]; cbn [map_result]; [discriminate|].
  unfold getDateFromArchiveName at 1. destruct (archive_date_capture n); [|congruence].
  destruct (map_result _ l); [discriminate | exact IH].
Qed.

Lemma fails_on_last_removeOldLocalBackups `{Shell} env tza :
  fails_on_last (removeOldLocalBackups env tza).
Proof.
  unfold removeOldLocalBackups. fails_on_last_tac.
  apply fails_on_last_of_result. intros c. unfold sortedBackups.
  destruct (map_result _ _) eqn:E; [discriminate|]. apply map_result_getDate_throw in E. congruence.
Qed.

#[export] Hint Resolve fails_on_last_removeOldLocalBackups : backup.

Lemma entries_valid tza archives :
  Forall (fun n => is_Some (date_of tza n)) archives -> Forall valid (entries_of tza archives).
Proof. intros H. apply Forall_map. exact H. Qed.

Lemma captures_of_dates tza archives :
  Forall (fun n => is_Some (date_of tza n)) archives ->
  Forall (fun n => is_Some (archive_date_capture n)) archives.
Proof. intros H. eapply Forall_impl; [exact H|]. apply date_of_capture. Qed.

Lemma map_result_getDate_captures tza l ds :
  map_result (getDateFromArchiveName tza) l = Ok ds ->
  Forall (fun n => is_Some (archive_date_capture n)) l.
Proof.
  revert ds. induction l as [|n l IH]; intros ds H; [constructor|]. cbn [map_result] in H.
  unfold getDateFromArchiveName at 1 in H. destruct (archive_date_capture n) eqn:E; [|discriminate].
  destruct (map_result _ l) eqn:E'; [|discriminate]. constructor; [rewrite E; now eexists | exact (IH _ eq_refl)].
Qed.

(** What the pruner selects comes from its input, and a selection
    exists only when every input name has a date capture. *)
Lemma sortedBackups_sub tza max archives sorted :
  sortedBackups tza max archives = Ok sorted ->
  Forall (fun n => is_Some (archive_date_capture n)) archives /\ Forall (fun n => n ∈ archives) sorted.
Proof.
  unfold sortedBackups. destruct (map_result _ archives) as [ds|] eqn:E; [|discriminate].
  intros H. injection H as <-. split; [exact (map_result_getDate_captures _ _ _ E)|].
  assert (Hp : map fst (sort_by_date (zip archives ds)) ≡ₚ archives).
  { etrans; [apply Permutation_map, sort_by_date_perm|].
    rewrite map_fst_zip; [reflexivity|]. rewrite (map_result_length _ _ _ E). lia. }
  apply Forall_forall. intros x Hx. apply js_slice_end_sub in Hx. now rewrite Hp in Hx.
Qed.

(** The glob that replaces an archive name: a plain segment with no ['/']
    and no space when the name has none. *)
Lemma rm_glob_word n :
  is_Some (archive_date_capture n) -> "/"%char ∉ chars n -> " "%char ∉ chars n ->
  plain_segment (replace_first ".zip" "*" n) /\
  ("/"%char ∉ chars (replace_first ".zip" "*" n)) /\ (" "%char ∉ chars (replace_first ".zip" "*" n)).
Proof.
  intros [t Ht] Hs Hsp. set (r := replace_first ".zip" "*" n).
  assert (Hr : chars r = replace_first_l (chars ".zip") (chars "*") (chars n))
    by apply list_ascii_of_string_of_list_ascii.
  assert (Hno : forall c, c <> "*"%char -> c ∉ chars n -> c ∉ chars r).
  { intros c Hc Hn Hin. rewrite Hr in Hin. apply replace_first_l_chars in Hin as [?|Hin]; [contradiction|].
    apply Hc. cbn in Hin. now apply list_elem_of_singleton in Hin. }
  split; [|split; apply Hno; (discriminate || assumption)].
  destruct (archive_date_capture_ends _ _ Ht) as [a Ha].
  destruct (replace_first_l_occurs (chars ".zip") (chars "*") a []) as (a' & b' & Ho).
  rewrite app_nil_r, <- Ha in Ho.
  assert (Hstar : "*"%char ∈ chars r).
  { rewrite Hr, Ho. apply elem_of_app. right. apply elem_of_app. left. apply list_elem_of_here. }
  unfold plain_segment. repeat split; intros Er; rewrite Er in Hstar; revert Hstar; decide_closed.
Qed.

(** The names [sortedBackups] selects come from the listing: they have a
    date, pass the filter and keep what holds of every listed name. *)
Lemma sortedBackups_from_names tza max names sorted (P : string -> Prop) :
  sortedBackups tza max (backupArchives names) = Ok sorted -> Forall P names ->
  Forall (fun n => is_Some (archive_date_capture n) /\ P n /\ n ∈ backupArchives names) sorted.
Proof.
  intros Hs Hn. destruct (sortedBackups_sub _ _ _ _ Hs) as [Hc Hsub].
  rewrite Forall_forall in Hsub, Hc, Hn |- *. intros x Hx. specialize (Hsub x Hx).
  split; [now apply Hc|]. split; [|exact Hsub]. apply Hn. unfold backupArchives in Hsub.
  now apply list_elem_of_filter in Hsub as [_ ?].
Qed.

(** The words of the [rm] command: one [<folder>/<stem>*] per selected
    archive, when no name or folder has a space. *)
Lemma toRemove_words env sorted :
  plain_folder (backupFolder env) -> " "%char ∉ chars (backupFolder env) ->
  Forall (fun n => is_Some (archive_date_capture n) /\
                   ("/"%char ∉ chars n) /\ (" "%char ∉ chars n)) sorted ->
  sorted <> [] ->
  js_split " " (toRemove env sorted)
  = map (fun n => backupFolder env +:+ "/" +:+ replace_first ".zip" "*" n) sorted.
Proof.
  intros Hf Hfs Hw Hne. unfold toRemove. erewrite map_ext_Forall; [|exact Hw|].
  2:{ intros x (Hc' & Hs' & Hsp'). destruct (rm_glob_word x Hc' Hs' Hsp') as (Hp & Hs2 & _).
      apply path_join_concat; assumption. }
  apply js_split_join; [now destruct sorted|].
  apply List.Forall_map. eapply Forall_impl; [exact Hw|]. intros x (Hc' & Hs' & Hsp').
  destruct (rm_glob_word x Hc' Hs' Hsp') as (_ & _ & Hsp2).
  rewrite !chars_app. rewrite !not_elem_of_app. repeat split; [exact Hfs | decide_closed | exact Hsp2].
Qed.

(** The pruner's selection when every name has a date capture and the
    count is positive: the names of a prefix of the sorted entries. *)
Lemma sortedBackups_take tza max archives :
  (0 < max)%Z -> Forall (fun n => is_Some (archive_date_capture n)) archives ->
  sortedBackups tza max archives =
  Ok (map fst (take (length archives - Z.to_nat max) (sort_by_date (entries_of tza archives)))).
Proof.
  intros Hm Hc. rewrite sortedBackups_ok by exact Hc.
  rewrite js_slice_end_neg by exact Hm. rewrite length_map, length_sort_entries.
  f_equal. apply firstn_map.
Qed.

Lemma date_of_getDate tza n d : getDateFromArchiveName tza n = Ok d -> date_of tza n = d.
Proof. unfold getDateFromArchiveName, date_of. destruct (archive_date_capture n); congruence. Qed.

(** The date the pruner reads back from the archive name of a run. *)
Lemma getDate_own_archive env now tza :
  four_digit_year now -> (Z.abs tza <= ms_per_day)%Z ->
  getDateFromArchiveName tza (bakcupArchiveName env now +:+ ".zip")
  = Ok (Some (now - now mod 1000 - tza))%Z.
Proof.
  intros Hy Htza.
  assert (Hn : bakcupArchiveName env now +:+ ".zip"
               = (backupName env +:+ ".") +:+ currentDateSufix now +:+ ".zip").
  { unfold bakcupArchiveName. simpl js_join. now rewrite !string_app_assoc. }
  unfold getDateFromArchiveName. rewrite Hn, archive_date_capture_app.
  - rewrite currentDateSufix_iso, replace_all_char_roundtrip by
      (exact Hy || now apply underscore_not_in_iso_seconds).
    now rewrite date_parse_iso_seconds.
  - now apply currentDateSufix_date_class.
  - right. exists (backupName env), "."%char. split; reflexivity.
Qed.

Lemma elem_of_entries_of tza archives e :
  e ∈ entries_of tza archives -> fst e ∈ archives /\ snd e = date_of tza (fst e).
Proof. unfold entries_of. intros He. apply elem_of_map_inv in He as (n & -> & Hn). now split. Qed.

(** An entry of the sorted list carries the date of its name. *)
Lemma sorted_entry_date tza archives e :
  e ∈ sort_by_date (entries_of tza archives) -> snd e = date_of tza (fst e).
Proof. intros He. rewrite sort_by_date_perm in He. now apply elem_of_entries_of in He as [_ ?]. Qed.

Lemma map_fst_sort_entries tza archives :
  map fst (sort_by_date (entries_of tza archives)) ≡ₚ archives.
Proof.
  rewrite (Permutation_map fst (sort_by_date_perm _)).
  unfold entries_of. rewrite map_map. simpl. now rewrite map_id.
Qed.

Lemma sort_entries_nodup tza archives :
  NoDup archives -> NoDup (map fst (sort_by_date (entries_of tza archives))).
Proof.
  intros Hnd. now rewrite (map_fst_sort_entries tza archives).
Qed.

(** ** Properties *)

(** C1: With a positive count [max] and at least [max] archives whose names
    carry a valid date, the pruner selects [N - max] archives and keeps the
    other [max], and every selected archive is dated no later than every
    kept one: the dates are compared as integers, so the oldest go. *)
Theorem prune_removes_oldest tza max archives :
  (0 < max)%Z -> (Z.to_nat max <= length archives)%nat ->
  Forall (fun n => is_Some (date_of tza n)) archives ->
  exists del kept,
    sortedBackups tza max archives = Ok del /\ del ++ kept ≡ₚ archives /\
    length kept = Z.to_nat max /\
    (forall a b ta tb, a ∈ del -> b ∈ kept ->
       date_of tza a = Some ta -> date_of tza b = Some tb -> (ta <= tb)%Z).
Proof.
  intros Hm HN Hd. set (s := sort_by_date (entries_of tza archives)).
  assert (Hs : length s = length archives) by apply length_sort_entries.
  assert (Hv : Forall valid s)
    by (eapply Permutation_Forall; [symmetry; apply sort_by_date_perm | now apply entries_valid]).
  set (k := (length archives - Z.to_nat max)%nat).
  exists (map fst (take k s)), (map fst (drop k s)).
  split; [apply sortedBackups_take; [exact Hm | eapply captures_of_dates; exact Hd]|].
  split; [rewrite <- map_app, take_drop; apply map_fst_sort_entries|].
  split; [rewrite length_map, length_drop; lia|].
  intros a b ta tb Ha Hb Hta Htb.
  apply elem_of_map_inv in Ha as (ea & -> & Ha). apply elem_of_map_inv in Hb as (eb & -> & Hb).
  destruct (le_entry_date ea eb) as (x & y & Hx & Hy & Hxy).
  - rewrite Forall_forall in Hv. apply Hv. eapply elem_of_take_sub. exact Ha.
  - rewrite Forall_forall in Hv. apply Hv. eapply elem_of_drop_sub. exact Hb.
  - eapply sorted_take_drop; [exact Hv | apply sort_by_date_sorted; now apply entries_valid | exact Ha | exact Hb].
  - rewrite (sorted_entry_date tza archives ea) in Hx by (eapply elem_of_take_sub; exact Ha).
    rewrite (sorted_entry_date tza archives eb) in Hy by (eapply elem_of_drop_sub; exact Hb).
    congruence.
Qed.

(** C19: Below the count the pruner does nothing: no log, no command. *)
Theorem removeOld_below `{Shell} env tza w :
  (Z.of_nat (length (backupArchives (w_dir w))) < maxBackupsCount env)%Z ->
  removeOldLocalBackups env tza w = (Ok tt, w).
Proof.
  intros Hlt. rewrite removeOld_spec. now rewrite (proj2 (Z.leb_gt _ _)) by exact Hlt.
Qed.

(** C20: At the count exactly, nothing is selected, yet [rm -rf] still runs
    with an empty argument list. *)
Theorem removeOld_boundary `{Shell} env tza w :
  let archives := backupArchives (w_dir w) in
  (0 < maxBackupsCount env)%Z -> Z.of_nat (length archives) = maxBackupsCount env ->
  Forall (fun n => is_Some (archive_date_capture n)) archives ->
  exec_cmds (w_trace (snd (removeOldLocalBackups env tza w))) = exec_cmds (w_trace w) ++ ["rm -rf "].
Proof.
  intros archives Hm Heq Hc. rewrite removeOld_spec. fold archives.
  rewrite (proj2 (Z.leb_le _ _)) by lia. rewrite sortedBackups_ok by exact Hc.
  rewrite js_slice_end_neg by exact Hm. rewrite length_map, length_sort_entries.
  replace (length archives - Z.to_nat (maxBackupsCount env))%nat with O by lia.
  simpl take. rewrite exec_spec. destruct (sh_run _ _). simpl.
  rewrite !exec_cmds_app. simpl. now rewrite app_nil_r, string_app_nil_r.
Qed.

(** C21: A name that passes [/.zip$/] but does not end in [".zip"] (such as
    ["notes.gzip"]) makes the pruner throw, once the count is reached,
    before anything is logged or removed. *)
Theorem removeOld_null_match `{Shell} env tza w :
  (maxBackupsCount env <= Z.of_nat (length (backupArchives (w_dir w))))%Z ->
  Exists (fun n => archive_date_capture n = None) (backupArchives (w_dir w)) ->
  removeOldLocalBackups env tza w = (Throw ENullIndex, w).
Proof.
  intros Hle Hex. rewrite removeOld_spec, (proj2 (Z.leb_le _ _)) by exact Hle.
  unfold sortedBackups. now rewrite map_result_getDate_null.
Qed.

(** C23: The retention count: unset, unparsable or zero gives 10; a decimal
    [n] gives [n]; a negative decimal is taken as it is. *)
Theorem maxBackupsCount_cases env n :
  (KEEP_LOCAL_BACKUPS_COUNT env = None -> maxBackupsCount env = 10%Z) /\
  (KEEP_LOCAL_BACKUPS_COUNT env = Some (nat_to_decimal n) ->
     maxBackupsCount env = if (n =? 0)%nat then 10%Z else Z.of_nat n) /\
  (KEEP_LOCAL_BACKUPS_COUNT env = Some ("-" +:+ nat_to_decimal n) ->
     maxBackupsCount env = if (n =? 0)%nat then 10%Z else (- Z.of_nat n)%Z).
Proof.
  unfold maxBackupsCount. split; [|split]; intros ->.
  - reflexivity.
  - simpl. rewrite parseInt_nat_to_decimal. simpl.
    destruct n; reflexivity.
  - simpl. rewrite parseInt_neg_decimal. simpl.
    destruct n; reflexivity.
Qed.

(** C22: A negative count [-k] passes the threshold whatever the number of
    archives, and [slice(0, k)] then selects the first [k] archives of
    the sorted order (all of them when there are at most [k]); that this
    order is oldest first is what [prune_removes_oldest] shows. *)
Theorem prune_negative_count tza env k archives :
  (0 < k)%nat -> KEEP_LOCAL_BACKUPS_COUNT env = Some ("-" +:+ nat_to_decimal k) ->
  Forall (fun n => is_Some (archive_date_capture n)) archives ->
  (maxBackupsCount env <= Z.of_nat (length archives))%Z /\
  sortedBackups tza (maxBackupsCount env) archives
  = Ok (take k (map fst (sort_by_date (entries_of tza archives)))).
Proof.
  intros Hk Hkeep Hc. unfold maxBackupsCount. rewrite Hkeep. simpl.
  rewrite parseInt_neg_decimal. destruct k as [|k]; [lia|]. simpl. split; [lia|].
  rewrite sortedBackups_ok by exact Hc. rewrite Z.opp_involutive, js_slice_end_pos by lia.
  do 2 f_equal. lia.
Qed.

(** C3: The archive a run creates passes the filter, and its name gives back
    the start time truncated to the second and shifted by [- tza]: the
    name holds the UTC digits without a zone, and [new Date] reads them as
    a local time [tza] ahead of UTC. *)
Theorem own_archive_date env now tza :
  four_digit_year now -> (Z.abs tza <= ms_per_day)%Z ->
  let name := bakcupArchiveName env now +:+ ".zip" in
  zip_test name = true /\
  getDateFromArchiveName tza name = Ok (Some (now - now mod 1000 - tza))%Z.
Proof.
  intros Hy Htza name. split; [apply zip_test_dot_zip | now apply getDate_own_archive].
Qed.

(** C12: Every word of the removal command names a glob inside the backup
    folder, one per selected archive, and every selected archive is an
    archive of the listing: when the folder is a plain relative path and
    no name has a space, [rm -rf] touches nothing outside the folder. *)
Theorem rm_words_in_folder env tza names sorted :
  plain_folder (backupFolder env) -> " "%char ∉ chars (backupFolder env) ->
  Forall (fun n => ("/"%char ∉ chars n) /\ (" "%char ∉ chars n)) names ->
  sortedBackups tza (maxBackupsCount env) (backupArchives names) = Ok sorted -> sorted <> [] ->
  Forall (fun n => n ∈ backupArchives names) sorted /\
  js_split " " (toRemove env sorted)
  = map (fun n => backupFolder env +:+ "/" +:+ replace_first ".zip" "*" n) sorted.
Proof.
  intros Hf Hfs Hn Hs Hne. pose proof (sortedBackups_from_names _ _ _ _ _ Hs Hn) as Hw.
  split; [eapply Forall_impl; [exact Hw | intros x (_ & _ & Hx); exact Hx]|].
  apply toRemove_words; [exact Hf | exact Hfs | | exact Hne].
  eapply Forall_impl; [exact Hw | intros x (Hx & Hp & _); exact (conj Hx Hp)].
Qed.

(** C7: The archive a run has just written survives the pruning of the
    same run when the count is positive, the listing has no duplicate and
    every other archive is dated strictly before the run: it is the
    newest entry, and [slice(0, -max)] never selects the last one. *)
Theorem own_archive_kept env now tza names sorted :
  four_digit_year now -> (Z.abs tza <= ms_per_day)%Z -> (0 < maxBackupsCount env)%Z ->
  NoDup names -> bakcupArchiveName env now +:+ ".zip" ∈ names ->
  (forall n, n ∈ backupArchives names -> n <> bakcupArchiveName env now +:+ ".zip" ->
     exists t, date_of tza n = Some t /\ (t < now - now mod 1000 - tza)%Z) ->
  sortedBackups tza (maxBackupsCount env) (backupArchives names) = Ok sorted ->
  bakcupArchiveName env now +:+ ".zip" ∉ sorted.
Proof.
  intros Hy Htza Hm Hnd Hown Hold Hs Hin.
  set (own := bakcupArchiveName env now +:+ ".zip") in *.
  set (archives := backupArchives names) in *.
  assert (HT : date_of tza own = Some (now - now mod 1000 - tza)%Z)
    by (apply date_of_getDate, getDate_own_archive; assumption).
  assert (Ha : own ∈ archives) by (apply list_elem_of_filter; split; [apply zip_test_dot_zip | exact Hown]).
  assert (Hd : Forall (fun n => is_Some (date_of tza n)) archives).
  { apply Forall_forall. intros n Hn. destruct (decide (n = own)) as [->|Hne]; [rewrite HT; eauto|].
    destruct (Hold n Hn Hne) as (t & -> & _). eauto. }
  rewrite sortedBackups_take in Hs by (exact Hm || (eapply captures_of_dates; exact Hd)).
  injection Hs as <-. apply elem_of_map_inv in Hin as (e & He & Hek).
  assert (He' : e ∈ entries_of tza archives).
  { rewrite <- sort_by_date_perm. eapply elem_of_take_sub. exact Hek. }
  eapply (strict_max_not_in_prefix _ _ e); [| | | | |exact Hek].
  - eapply Permutation_Forall; [symmetry; apply sort_by_date_perm | now apply entries_valid].
  - apply sort_by_date_sorted. now apply entries_valid.
  - apply sort_entries_nodup, NoDup_filter, Hnd.
  - rewrite length_sort_entries. pose proof (elem_of_length_pos _ _ Ha). lia.
  - intros y Hy' Hne. rewrite sort_by_date_perm in Hy'.
    destruct (elem_of_entries_of _ _ _ Hy') as [Hya Hyd].
    destruct (elem_of_entries_of _ _ _ He') as [_ Hed].
    rewrite <- He in Hne, Hed. destruct (Hold _ Hya Hne) as (t & Ht & Hlt).
    rewrite Hyd, Hed, Ht, HT. simpl. now apply Z.compare_lt_iff.
Qed.

(** ** Witnesses *)

Lemma prune_removes_oldest_witness :
  exists del kept,
    sortedBackups 0 2 sample_archives = Ok del /\ del ++ kept ≡ₚ sample_archives /\
    length kept = Z.to_nat 2 /\
    (forall a b ta tb, a ∈ del -> b ∈ kept ->
       date_of 0 a = Some ta -> date_of 0 b = Some tb -> (ta <= tb)%Z).
Proof.
  apply prune_removes_oldest; [lia | vm_compute; lia |].
  forall_list ltac:(vm_compute; eexists; reflexivity).
Defined.

Lemma removeOld_below_witness :
  @removeOldLocalBackups (fixed_shell (fun _ => true)) empty_env 0 (mkWorld true ["a.zip"] [])
  = (Ok tt, mkWorld true ["a.zip"] []).
Proof. apply removeOld_below. vm_compute. reflexivity. Defined.

Lemma removeOld_boundary_witness :
  let w := mkWorld true (take 2 sample_archives) [] in
  exec_cmds (w_trace (snd (@removeOldLocalBackups (fixed_shell (fun _ => true)) (keep_env "2") 0 w)))
  = exec_cmds (w_trace w) ++ ["rm -rf "].
Proof.
  intros w. apply removeOld_boundary; [vm_compute; reflexivity | vm_compute; reflexivity |].
  forall_list ltac:(vm_compute; eexists; reflexivity).
Defined.

Lemma removeOld_null_match_witness :
  @removeOldLocalBackups (fixed_shell (fun _ => true)) (keep_env "1") 0
    (mkWorld true ["notes.gzip"] []) = (Throw ENullIndex, mkWorld true ["notes.gzip"] []).
Proof.
  apply removeOld_null_match; [vm_compute; discriminate|].
  apply List.Exists_cons_hd. vm_compute. reflexivity.
Defined.

Lemma prune_negative_count_witness :
  (maxBackupsCount (keep_env "-2") <= Z.of_nat (length sample_archives))%Z /\
  sortedBackups 0 (maxBackupsCount (keep_env "-2")) sample_archives
  = Ok (take 2 (map fst (sort_by_date (entries_of 0 sample_archives)))).
Proof.
  apply prune_negative_count; [lia | vm_compute; reflexivity |].
  forall_list ltac:(vm_compute; eexists; reflexivity).
Defined.

Lemma own_archive_date_witness :
  let name := bakcupArchiveName sample_uri_env 1709210096789 +:+ ".zip" in
  zip_test name = true /\
  getDateFromArchiveName 0 name = Ok (Some (1709210096789 - 1709210096789 mod 1000 - 0))%Z.
Proof.
  apply own_archive_date.
  - apply four_digit_year_of_bool. vm_compute. reflexivity.
  - unfold ms_per_day. lia.
Defined.

Lemma rm_words_in_folder_witness :
  Forall (fun n => n ∈ backupArchives sample_archives)
    ["test.2024-01-01T00_00_00.zip"; "test.2024-01-02T00_00_00.zip"] /\
  js_split " " (toRemove (keep_env "1")
    ["test.2024-01-01T00_00_00.zip"; "test.2024-01-02T00_00_00.zip"])
  = map (fun n => backupFolder (keep_env "1") +:+ "/" +:+ replace_first ".zip" "*" n)
    ["test.2024-01-01T00_00_00.zip"; "test.2024-01-02T00_00_00.zip"].
Proof.
  apply (rm_words_in_folder (keep_env "1") 0 sample_archives).
  - unfold plain_folder, plain_segment. decide_closed.
  - decide_closed.
  - forall_list ltac:(split; decide_closed).
  - vm_compute. reflexivity.
  - discriminate.
Defined.

Lemma own_archive_kept_witness :
  bakcupArchiveName (keep_env "1") 1709210096789 +:+ ".zip"
  ∉ ["mongodump.2024-01-01T00_00_00.zip"].
Proof.
  apply (own_archive_kept (keep_env "1") 1709210096789 0
           ["mongodump.2024-02-29T12_34_56.zip"; "mongodump.2024-01-01T00_00_00.zip"]).
  - apply four_digit_year_of_bool. vm_compute. reflexivity.
  - unfold ms_per_day. lia.
  - vm_compute. reflexivity.
  - decide_closed.
  - decide_closed.
  - intros n Hn Hne. vm_compute in Hn, Hne.
    apply elem_of_cons in Hn as [->|Hn]; [now contradiction Hne|].
    apply elem_of_cons in Hn as [->|Hn]; [|now apply not_elem_of_nil in Hn].
    eexists. split; [vm_compute; reflexivity | vm_compute; reflexivity].
  - vm_compute. reflexivity.
Defined.

(** The paths are not quoted: an archive whose name has a space (here
    from [BACKUP_NAME="my db"] in archive mode) is removed as two shell
    words, the second one relative to the working directory. *)
Example rm_space_splits_path :
  js_split " " (toRemove empty_env ["my db.archive.2024-01-01T00_00_00.zip"])
  = ["backup/my"; "db.archive.2024-01-01T00_00_00*"].
Proof. vm_compute. reflexivity. Qed.

End Retention.
