(* ===== verification/Glob.v ===== *)
(** * The shell's pathname expansion of the [rm] words

    The pruner hands [rm -rf <words>] to the shell (run.ts lines 86-88),
    each word [<backupFolder>/<name with .zip replaced by *>].  The shell
    expands such a word to the existing paths it matches, where ['*']
    stands for any string without ['/'].  [glob] models that matching for
    patterns whose only special character is ['*']; it is the semantics of
    the shell, not code of the repository.  The theorem of this file says
    which paths the word built for an archive designates: exactly the
    paths that extend the archive's dump folder within the backup folder,
    the archive and the dump folder among them, as the specification
    promises, provided the backup name has no [".zip"] of its own. *)

From S2P Require Import Prelude JsString JsNumber JsDate NodePath Config Exec JsArray Commands Sorting Retention.

Module Glob.
Import JsString JsDate NodePath Config.

(** Matching of a pattern with ['*'] against a path, character by
    character; a ['*'] tries every split of the rest of the path. *)
Fixpoint glob_l (p s : list ascii) {struct p} : bool :=
  match p with
  | [] => match s with [] => true | _ => false end
  | c :: p' =>
      if bool_decide (c = "*"%char) then
        existsb (fun k => forallb (fun x => negb (bool_decide (x = "/"%char))) (take k s)
                          && glob_l p' (drop k s))
                (seq 0 (S (length s)))
      else match s with
           | [] => false
           | d :: s' => bool_decide (c = d) && glob_l p' s'
           end
  end.

Definition glob (pat path : string) : bool := glob_l (chars pat) (chars path).

(** No [".zip"] starts at any position of [s]. *)
Definition zip_free (s : string) : bool :=
  forallb (fun i => negb (is_prefix (chars ".zip") (drop i (chars s)))) (seq 0 (length (chars s))).

(** ** Lemmas *)

Lemma forallb_no_slash l :
  forallb (fun x => negb (bool_decide (x = "/"%char))) l = true <-> "/"%char ∉ l.
Proof.
  rewrite forallb_forall. split.
  - intros H Hin. apply list_elem_of_In in Hin. specialize (H _ Hin).
    now rewrite bool_decide_true in H.
  - intros H x Hx. apply list_elem_of_In in Hx.
    rewrite bool_decide_false; [reflexivity|]. now intros ->.
Qed.

(** A trailing ['*'] matches every rest without ['/']. *)
Lemma glob_l_star_end s : glob_l ["*"%char] s = true <-> "/"%char ∉ s.
Proof.
  cbn [glob_l]. rewrite bool_decide_true by reflexivity. rewrite existsb_exists. split.
  - intros (k & Hk & Hb). apply andb_true_iff in Hb as [Hf Hd].
    destruct (drop k s) eqn:E; [|discriminate].
    rewrite take_ge in Hf by (apply length_zero_iff_nil in E; rewrite length_drop in E; lia).
    now apply forallb_no_slash.
  - intros Hs. exists (length s). split; [apply in_seq; lia|].
    rewrite take_ge, drop_ge by lia. apply andb_true_iff. split; [now apply forallb_no_slash | reflexivity].
Qed.

(** A literal prefix without ['*'] matches itself. *)
Lemma glob_l_literal a p s :
  "*"%char ∉ a -> glob_l (a ++ p) s = true <-> exists s', s = a ++ s' /\ glob_l p s' = true.
Proof.
  revert s. induction a as [|c a IH]; intros s Ha.
  - split; [intros H; now exists s | now intros (s' & -> & H)].
  - apply not_elem_of_cons in Ha as [Hc Ha]. cbn [glob_l app].
    rewrite bool_decide_false by congruence. destruct s as [|d s].
    + split; [discriminate | now intros (s' & ? & _)].
    + rewrite andb_true_iff, IH by exact Ha. split.
      * intros [Hcd (s' & -> & H)]. apply bool_decide_eq_true in Hcd as ->. now exists s'.
      * intros (s' & E & H). injection E as -> ->.
        split; [now apply bool_decide_eq_true | now exists s'].
Qed.

(** A pattern [a*] designates the paths that extend [a] without ['/']. *)
Lemma glob_l_prefix_star a s :
  "*"%char ∉ a -> glob_l (a ++ ["*"%char]) s = true <-> exists x, s = a ++ x /\ "/"%char ∉ x.
Proof.
  intros Ha. rewrite glob_l_literal by exact Ha.
  split; intros (x & -> & H); exists x; split; try reflexivity; now apply glob_l_star_end.
Qed.

(** [replace] of the first [".zip"] when the only one ends the name. *)
Lemma replace_first_l_end pat rep s :
  (forall i, (i < length s)%nat -> is_prefix pat (drop i (s ++ pat)) = false) ->
  replace_first_l pat rep (s ++ pat) = s ++ rep.
Proof.
  induction s as [|x s IH]; intros H.
  - pose proof (is_prefix_app pat []) as Hp. rewrite app_nil_r in Hp. cbn [app].
    destruct pat as [|y p]; [simpl; apply app_nil_r|]. cbn [replace_first_l]. rewrite Hp.
    now rewrite drop_all, app_nil_r.
  - assert (H0 : is_prefix pat (x :: s ++ pat) = false) by exact (H 0%nat ltac:(simpl; lia)).
    cbn [app replace_first_l]. rewrite H0. f_equal.
    apply IH. intros i Hi. apply (H (S i)). simpl. lia.
Qed.

Lemma is_prefix_app_inv p l r :
  is_prefix p (l ++ r) = true -> is_prefix p l = true \/ exists p2, p = l ++ p2 /\ is_prefix p2 r = true.
Proof.
  revert l. induction p as [|y p IH]; intros l H; [now left|].
  destruct l as [|z l]; [right; now exists (y :: p)|].
  cbn [app is_prefix] in H |- *. apply andb_true_iff in H as [Hyz H].
  apply bool_decide_eq_true in Hyz as ->. rewrite bool_decide_true by reflexivity.
  destruct (IH l H) as [H1|(p2 & -> & H2)]; [now left | right; now exists p2].
Qed.

(** A [".zip"] cannot straddle a ['.']: its dot is its first character. *)
Lemma zip_not_before_dot l r :
  l <> [] -> is_prefix (chars ".zip") l = false -> is_prefix (chars ".zip") (l ++ "."%char :: r) = false.
Proof.
  intros Hl Hf. destruct (is_prefix _ (l ++ _)) eqn:E; [|reflexivity]. exfalso.
  apply is_prefix_app_inv in E as [E|(p2 & Ep & E)]; [congruence|].
  change (chars ".zip") with ["."; "z"; "i"; "p"]%char in Ep, Hf.
  destruct l as [|c1 [|c2 [|c3 [|c4 l]]]]; [congruence| | | |]; simpl in Ep;
    injection Ep; intros; subst; try (vm_compute in E; discriminate).
Qed.

Lemma date_class_excludes c :
  date_class c = true -> c <> "."%char /\ c <> "z"%char /\ c <> "*"%char /\ c <> "/"%char.
Proof. intros H. repeat split; intros ->; vm_compute in H; discriminate. Qed.

(** In a stem [<backupName>.<date>] whose name is [zip_free], the only
    [".zip"] of [<stem>.zip] is the last one. *)
Lemma stem_zip_positions bn d :
  zip_free bn = true -> Forall (fun c => date_class c = true) (chars d) ->
  forall i, (i < length (chars (bn +:+ "." +:+ d)))%nat ->
  is_prefix (chars ".zip") (drop i (chars (bn +:+ "." +:+ d) ++ chars ".zip")) = false.
Proof.
  intros Hz Hd i Hi. rewrite !chars_app in *. change (chars ".") with ["."%char] in *.
  rewrite length_app in Hi. rewrite <- app_assoc.
  destruct (decide (i < length (chars bn))%nat) as [Hlt|Hge].
  - rewrite drop_app_le by lia. apply zip_not_before_dot.
    + intros E. apply (f_equal length) in E. rewrite length_drop in E. simpl in E. lia.
    + unfold zip_free in Hz. rewrite forallb_forall in Hz.
      specialize (Hz i (proj2 (in_seq _ _ _) (conj (Nat.le_0_l _) Hlt))).
      now apply negb_true_iff in Hz.
  - rewrite drop_app_ge by lia. destruct (i - length (chars bn))%nat as [|j] eqn:Ej.
    + cbn [app drop]. destruct (chars d) as [|c r] eqn:Ed; [reflexivity|].
      inversion Hd as [|? ? Hc _]; subst. destruct (date_class_excludes c Hc) as (_ & Hcz & _).
      simpl. now rewrite (bool_decide_false (_ = c)) by congruence.
    + simpl in Hi |- *. rewrite drop_app_le by lia.
      destruct (drop j (chars d)) as [|c r] eqn:Ed.
      * apply (f_equal length) in Ed. rewrite length_drop in Ed. simpl in Ed. lia.
      * assert (Hc : c ∈ chars d) by (eapply elem_of_drop_sub; rewrite Ed; apply list_elem_of_here).
        rewrite Forall_forall in Hd. destruct (date_class_excludes c (Hd c Hc)) as (Hcd & _).
        simpl. now rewrite (bool_decide_false (_ = c)) by congruence.
Qed.

Lemma star_suffix_plain s : plain_segment (s +:+ "*").
Proof.
  unfold plain_segment. repeat split; intros E;
    destruct s as [|c [|c' [|c'' s]]]; simpl in E; discriminate.
Qed.

(** A character that neither the name, the dot nor the date holds is not
    in the stem [<name>.<date>]. *)
Lemma not_in_stem c bn d :
  c ∉ chars bn -> c <> "."%char -> (forall x, date_class x = true -> x <> c) ->
  Forall (fun x => date_class x = true) (chars d) ->
  c ∉ chars (bn +:+ "." +:+ d).
Proof.
  intros Hb Hdot Hx Hd. rewrite !chars_app, !not_elem_of_app. split; [exact Hb|]. split.
  - change (chars ".") with ["."%char]. rewrite list_elem_of_singleton. congruence.
  - intros Hin. rewrite Forall_forall in Hd. exact (Hx c (Hd c Hin) eq_refl).
Qed.

(** C13: The [rm] word the pruner builds for an archive written at time [t]
    designates, after the shell's pathname expansion, exactly the paths
    that extend the archive's dump folder inside the backup folder: both
    the archive [<folder>/<name>.<date>.zip] and its uncompressed dump
    folder [<folder>/<name>.<date>], as the specification promises.  This
    holds when the folder is plain, neither the folder nor the name has a
    ['*'], the name has no ['/'] and no [".zip"] of its own. *)
Theorem rm_glob_archive_and_dump env t :
  plain_folder (backupFolder env) -> "*"%char ∉ chars (backupFolder env) ->
  "/"%char ∉ chars (backupName env) -> "*"%char ∉ chars (backupName env) ->
  zip_free (backupName env) = true -> four_digit_year t ->
  let word := path_join (backupFolder env) (replace_first ".zip" "*" (bakcupArchiveName env t +:+ ".zip")) in
  (forall p, glob word p = true <->
             exists x, chars p = chars (bakcupArchiveFolderPath env t) ++ x /\ "/"%char ∉ x) /\
  glob word (bakcupArchiveFilePath env t) = true /\ glob word (bakcupArchiveFolderPath env t) = true.
Proof.
  intros Hf Hfs Hns Hnst Hz Hy word.
  pose proof (currentDateSufix_date_class t Hy) as Hd.
  assert (Hstem : chars (bakcupArchiveName env t) = chars (backupName env +:+ "." +:+ currentDateSufix t))
    by reflexivity.
  assert (Hrep : replace_first ".zip" "*" (bakcupArchiveName env t +:+ ".zip") = bakcupArchiveName env t +:+ "*").
  { unfold replace_first. rewrite chars_app, replace_first_l_end.
    - now rewrite <- chars_app, of_chars_chars.
    - rewrite Hstem. now apply stem_zip_positions. }
  assert (Hw : chars word = chars (bakcupArchiveFolderPath env t) ++ ["*"%char]).
  { unfold word. rewrite Hrep, path_join_concat.
    - unfold bakcupArchiveFolderPath. cbn [js_join]. rewrite !chars_app, <- !app_assoc. reflexivity.
    - exact Hf.
    - apply star_suffix_plain.
    - rewrite chars_app, not_elem_of_app, Hstem. split; [|decide_closed].
      apply not_in_stem; [exact Hns | discriminate | | exact Hd].
      intros x Hx. apply date_class_excludes in Hx. tauto. }
  assert (Hiff : forall p, glob word p = true <->
                   exists x, chars p = chars (bakcupArchiveFolderPath env t) ++ x /\ "/"%char ∉ x).
  { intros p. unfold glob. rewrite Hw. apply glob_l_prefix_star.
    unfold bakcupArchiveFolderPath. cbn [js_join].
    rewrite (chars_app (backupFolder env)), (chars_app "/"), !not_elem_of_app, Hstem.
    split; [exact Hfs|]. split; [decide_closed|].
    apply not_in_stem; [exact Hnst | discriminate | | exact Hd].
    intros x Hx. apply date_class_excludes in Hx. tauto. }
  split; [exact Hiff|]. split; apply Hiff.
  - exists (chars ".zip"). split; [apply chars_app | decide_closed].
  - exists []. split; [now rewrite app_nil_r | apply not_elem_of_nil].
Qed.

Lemma rm_glob_archive_and_dump_witness :
  glob (path_join (backupFolder sample_host_env)
          (replace_first ".zip" "*" (bakcupArchiveName sample_host_env 1709210096789 +:+ ".zip")))
       (bakcupArchiveFolderPath sample_host_env 1709210096789) = true.
Proof.
  refine (proj2 (proj2 (rm_glob_archive_and_dump sample_host_env 1709210096789 _ _ _ _ _ _))).
  - unfold plain_folder, plain_segment. decide_closed.
  - decide_closed.
  - decide_closed.
  - decide_closed.
  - vm_compute. reflexivity.
  - apply four_digit_year_of_bool. vm_compute. reflexivity.
Defined.

(** A name with [".zip"] inside, such as [my.zipdb]: [replace] turns its
    own [".zip"] into the ['*'], the word no longer matches the dump
    folder, and the folder of every pruned backup stays on disk. *)
Example rm_glob_zip_in_name :
  let env := mkEnv None None None None None None None None (Some "my.zipdb") None None None None
                   None None None None None None None None in
  let word := path_join (backupFolder env)
                (replace_first ".zip" "*" (bakcupArchiveName env 1709210096789 +:+ ".zip")) in
  word = "backup/my*db.2024-02-29T12_34_56.zip" /\
  glob word (bakcupArchiveFilePath env 1709210096789) = true /\
  glob word (bakcupArchiveFolderPath env 1709210096789) = false.
Proof. vm_compute. repeat split. Qed.

End Glob.
