(* ===== verification/FsPrune.v ===== *)
(** * Pruning on a file-system shell

    The pruner of [run.ts] (lines 73-90) decides what to delete, but the
    deletion itself is done by the shell: [rm -rf] with one glob word per
    selected archive.  [fs_shell folder] is a [Shell] that gives [rm -rf]
    its meaning on the listing of the backup folder: the arguments are
    split into words, every word is expanded with [Glob.glob], and an
    entry [n] of the listing is removed when a word matches the path
    [folder/n].  Every other command succeeds and leaves the listing as it
    is, and [mkdirSync] succeeds; this shell is a model of the environment, not code of the
    repository.

    On this shell the whole of [removeOldLocalBackups] is stated end to
    end: the archives left in the folder are exactly those the pruner did
    not select, and the dump folder of every selected archive is gone. *)

From S2P Require Import Prelude JsString JsNumber JsDate NodePath Config Exec JsArray Commands Sorting Retention Glob.

Module FsPrune.
Import JsString JsDate NodePath Config Exec Retention Glob.

(** The arguments of an [rm -rf] command. *)
Definition rm_args (c : string) : option string :=
  if is_prefix (chars "rm -rf ") (chars c) then Some (of_chars (drop 7 (chars c))) else None.

(** Whether an entry [n] of [folder] survives the words of an [rm -rf]. *)
Definition survives (folder : string) (words : list string) (n : string) : bool :=
  negb (existsb (fun w => glob w (folder +:+ "/" +:+ n)) words).

(** The shell over the listing of [folder]. *)
Definition fs_shell (folder : string) : Shell :=
  {| sh_run := fun c d =>
       match rm_args c with
       | Some args => (true, List.filter (survives folder (js_split " " args)) d)
       | None => (true, d)
       end;
     sh_mkdir := fun _ => None |}.

(** A backup folder with three archives, the first two with their dump
    folders. *)
Definition fs_sample_world : world :=
  mkWorld true ["test.2024-01-01T00_00_00.zip"; "test.2024-01-01T00_00_00";
                "test.2024-01-02T00_00_00.zip"; "test.2024-01-02T00_00_00";
                "test.2024-01-03T00_00_00.zip"] [].

(** ** Lemmas *)

Lemma rm_args_cmd s : rm_args ("rm -rf " +:+ s) = Some s.
Proof.
  unfold rm_args. rewrite chars_app, is_prefix_app. f_equal.
  change 7%nat with (length (chars "rm -rf ")). rewrite drop_app_length. apply of_chars_chars.
Qed.

(** A name without [".zip"] before its extension. *)
Lemma zip_free_end s :
  zip_free s = true ->
  forall i, (i < length (chars s))%nat -> is_prefix (chars ".zip") (drop i (chars s ++ chars ".zip")) = false.
Proof.
  intros Hz i Hi. rewrite drop_app_le by lia. apply zip_not_before_dot.
  - intros E. apply (f_equal length) in E. rewrite length_drop in E. simpl in E. lia.
  - unfold zip_free in Hz. rewrite forallb_forall in Hz.
    specialize (Hz i (proj2 (in_seq _ _ _) (conj (Nat.le_0_l _) Hi))).
    now apply negb_true_iff in Hz.
Qed.

Lemma replace_zip_stem s : zip_free s = true -> replace_first ".zip" "*" (s +:+ ".zip") = s +:+ "*".
Proof.
  intros Hz. unfold replace_first. rewrite chars_app, replace_first_l_end by now apply zip_free_end.
  now rewrite <- chars_app, of_chars_chars.
Qed.

(** The word [folder/stem*] matches the entry [folder/n] exactly when [n]
    extends the stem. *)
Lemma glob_word_entry f s n :
  "*"%char ∉ chars f -> "*"%char ∉ chars s -> "/"%char ∉ chars n ->
  glob (f +:+ "/" +:+ s +:+ "*") (f +:+ "/" +:+ n) = true <-> exists x, chars n = chars s ++ x.
Proof.
  intros Hf Hs Hn. unfold glob.
  replace (chars (f +:+ "/" +:+ s +:+ "*")) with ((chars f ++ "/"%char :: chars s) ++ ["*"%char])
    by (rewrite !chars_app, <- !app_assoc; reflexivity).
  rewrite glob_l_prefix_star.
  2:{ rewrite not_elem_of_app, not_elem_of_cons. split; [exact Hf|]. split; [discriminate | exact Hs]. }
  replace (chars (f +:+ "/" +:+ n)) with (chars f ++ "/"%char :: chars n)
    by (rewrite !chars_app; reflexivity).
  split.
  - intros (x & E & _). exists x. rewrite <- app_assoc in E. apply app_inv_head in E.
    now injection E.
  - intros (x & E). exists x. split; [now rewrite E, <- app_assoc|].
    intros Hx. apply Hn. rewrite E. apply elem_of_app. now right.
Qed.

(** The listing filtered by [keep] has as archives the archives that
    satisfy [P], when [keep] decides [P] on the archives. *)
Lemma backupArchives_filter (keep : string -> bool) (P : string -> Prop) `{forall x, Decision (P x)} d :
  (forall n, n ∈ d -> zip_test n = true -> keep n = true <-> P n) ->
  backupArchives (List.filter keep d) = filter P (backupArchives d).
Proof.
  unfold backupArchives. induction d as [|a d IH]; intros Hk; [reflexivity|].
  assert (IH' : filter (fun f => zip_test f = true) (List.filter keep d) =
                filter P (filter (fun f => zip_test f = true) d))
    by (apply IH; intros n Hn; apply Hk; now apply elem_of_cons; right).
  cbn [List.filter]. destruct (decide (zip_test a = true)) as [Ha|Ha].
  - pose proof (Hk a (list_elem_of_here _ _) Ha) as Hka.
    rewrite (filter_cons_True (fun f => zip_test f = true) a d) by exact Ha.
    destruct (keep a) eqn:Ek.
    + rewrite filter_cons_True by exact Ha. rewrite filter_cons_True by now apply Hka. now f_equal.
    + rewrite filter_cons_False by (intros Hp; apply Hka in Hp; discriminate). exact IH'.
  - rewrite (filter_cons_False (fun f => zip_test f = true) a d) by exact Ha.
    destruct (keep a); [rewrite filter_cons_False by exact Ha|]; exact IH'.
Qed.

Lemma string_app_inj_r a b t : a +:+ t = b +:+ t -> a = b.
Proof.
  intros E. apply (f_equal chars) in E. rewrite !chars_app in E. apply app_inv_tail in E.
  rewrite <- (of_chars_chars a), <- (of_chars_chars b). now f_equal.
Qed.

(** An entry is removed by the [rm] of the pruner exactly when it extends
    the stem of a selected archive. *)
Lemma survives_toRemove env sorted n :
  plain_folder (backupFolder env) -> " "%char ∉ chars (backupFolder env) ->
  "*"%char ∉ chars (backupFolder env) -> "/"%char ∉ chars n ->
  Forall (fun k => is_Some (archive_date_capture k) /\ ("/"%char ∉ chars k) /\ (" "%char ∉ chars k) /\
                   exists s, k = s +:+ ".zip" /\ zip_free s = true /\ ("*"%char ∉ chars s)) sorted ->
  survives (backupFolder env) (js_split " " (toRemove env sorted)) n = false <->
  exists s x, s +:+ ".zip" ∈ sorted /\ chars n = chars s ++ x.
Proof.
  intros Hf Hfs Hfst Hn Hk. destruct sorted as [|k0 r].
  - unfold survives. cbn. rewrite chars_app. split; [|intros (s & x & Hin & _); now apply not_elem_of_nil in Hin].
    destruct (chars (backupFolder env)); discriminate.
  - rewrite toRemove_words; [| exact Hf | exact Hfs | | discriminate].
    2:{ eapply Forall_impl; [exact Hk | intros k (Hc & Hs & Hsp & _); now repeat split]. }
    unfold survives. rewrite negb_false_iff, existsb_exists. split.
    + intros (wd & Hin & Hg). apply in_map_iff in Hin as (k & <- & Hin). apply list_elem_of_In in Hin.
      rewrite Forall_forall in Hk. destruct (Hk k Hin) as (_ & _ & _ & s & -> & Hz & Hst).
      rewrite replace_zip_stem in Hg by exact Hz. apply glob_word_entry in Hg as (x & Hx); [|assumption..].
      now exists s, x.
    + intros (s & x & Hin & Hx). rewrite Forall_forall in Hk.
      destruct (Hk _ Hin) as (_ & _ & _ & s' & Es & Hz & Hst). apply string_app_inj_r in Es. subst s'.
      exists (backupFolder env +:+ "/" +:+ s +:+ "*"). split.
      * apply in_map_iff. exists (s +:+ ".zip"). rewrite replace_zip_stem by exact Hz.
        split; [reflexivity | now apply list_elem_of_In].
      * apply glob_word_entry; [assumption.. | now exists x].
Qed.

(** The archives the pruner selects, with the facts of the listing. *)
Lemma selected_facts env tza d sorted :
  Forall (fun n => ("/"%char ∉ chars n) /\ (" "%char ∉ chars n) /\ ("*"%char ∉ chars n)) d ->
  Forall (fun n => exists s, n = s +:+ ".zip" /\ zip_free s = true) (backupArchives d) ->
  sortedBackups tza (maxBackupsCount env) (backupArchives d) = Ok sorted ->
  Forall (fun k => k ∈ backupArchives d) sorted /\
  Forall (fun k => is_Some (archive_date_capture k) /\ ("/"%char ∉ chars k) /\ (" "%char ∉ chars k) /\
                   exists s, k = s +:+ ".zip" /\ zip_free s = true /\ ("*"%char ∉ chars s)) sorted.
Proof.
  intros Hn Hz Hs. pose proof (sortedBackups_from_names _ _ _ _ _ Hs Hn) as Hw.
  rewrite Forall_forall in Hw, Hz. split; apply Forall_forall; intros k Hk;
    destruct (Hw k Hk) as (Hc & (Hsl & Hsp & Hst) & Hin); [exact Hin|].
  repeat split; try assumption. destruct (Hz k Hin) as (s & -> & Hzs).
  exists s. repeat split; [exact Hzs|]. intros Hx. apply Hst. rewrite chars_app. apply elem_of_app. now left.
Qed.

(** C10: Pruning on a file system: when the shell deletes what the [rm]
    words designate, a pruning that reaches its [rm] returns normally and
    leaves in the folder exactly the archives it did not select, and the
    dump folder of every selected archive is gone.  This holds for a plain
    folder, names without ['/'], space or ['*'], archive names whose only
    [".zip"] is their extension, and no archive name extending the stem of
    another. *)
Theorem prune_on_fs_shell env tza w sorted :
  plain_folder (backupFolder env) -> " "%char ∉ chars (backupFolder env) ->
  "*"%char ∉ chars (backupFolder env) ->
  Forall (fun n => ("/"%char ∉ chars n) /\ (" "%char ∉ chars n) /\ ("*"%char ∉ chars n)) (w_dir w) ->
  Forall (fun n => exists s, n = s +:+ ".zip" /\ zip_free s = true) (backupArchives (w_dir w)) ->
  (forall s m x, s +:+ ".zip" ∈ backupArchives (w_dir w) -> m ∈ backupArchives (w_dir w) ->
     chars m = chars s ++ x -> m = s +:+ ".zip") ->
  (maxBackupsCount env <= Z.of_nat (length (backupArchives (w_dir w))))%Z ->
  sortedBackups tza (maxBackupsCount env) (backupArchives (w_dir w)) = Ok sorted ->
  let r := @removeOldLocalBackups (fs_shell (backupFolder env)) env tza w in
  fst r = Ok tt /\
  backupArchives (w_dir (snd r)) = filter (fun n => n ∉ sorted) (backupArchives (w_dir w)) /\
  (forall s, s +:+ ".zip" ∈ sorted -> s ∉ w_dir (snd r)).
Proof.
  intros Hf Hfs Hfst Hn Hz Hpf Hc Hs r.
  destruct (selected_facts env tza _ _ Hn Hz Hs) as [Hsub Hk].
  pose proof (@removeOld_spec (fs_shell (backupFolder env)) env tza w) as E.
  rewrite (proj2 (Z.leb_le _ _) Hc), Hs, exec_spec in E. cbn [sh_run fs_shell w_dir] in E.
  rewrite rm_args_cmd in E. fold r in E. rewrite E. cbn [fst snd w_dir].
  pose proof (proj1 (Forall_forall _ _) Hk) as Hk'. rewrite Forall_forall in Hn, Hsub.
  split; [reflexivity|]. split.
  - apply backupArchives_filter. intros n Hnd Hzt.
    assert (Hna : n ∈ backupArchives (w_dir w)) by (now apply list_elem_of_filter).
    destruct (survives _ _ n) eqn:Es; split; intros H; try reflexivity; try discriminate.
    + intros Hin. destruct (Hk' n Hin) as (_ & _ & _ & s & En & _).
      enough (survives (backupFolder env) (js_split " " (toRemove env sorted)) n = false) by congruence.
      apply survives_toRemove; [assumption.. | exact (proj1 (Hn _ Hnd)) | exact Hk |].
      exists s, (chars ".zip"). rewrite En at 1. split; [now rewrite <- En | apply chars_app].
    + exfalso. apply H. apply survives_toRemove in Es as (s & x & Hin & Hx);
        [| assumption.. | exact (proj1 (Hn _ Hnd)) | exact Hk].
      now rewrite (Hpf s n x (Hsub _ Hin) Hna Hx).
  - intros s Hin Hd. apply list_elem_of_In, filter_In in Hd as [Hd Hsv]. apply list_elem_of_In in Hd.
    enough (survives (backupFolder env) (js_split " " (toRemove env sorted)) s = false) by congruence.
    apply survives_toRemove; [assumption.. | exact (proj1 (Hn _ Hd)) | exact Hk |].
    exists s, []. split; [exact Hin | now rewrite app_nil_r].
Qed.

Lemma prune_on_fs_shell_witness :
  backupArchives (w_dir (snd (@removeOldLocalBackups (fs_shell (backupFolder (keep_env "1")))
                               (keep_env "1") 0 fs_sample_world))) =
  filter (fun n => n ∉ ["test.2024-01-01T00_00_00.zip"; "test.2024-01-02T00_00_00.zip"])
    (backupArchives (w_dir fs_sample_world)).
Proof.
  refine (proj1 (proj2 (prune_on_fs_shell (keep_env "1") 0 fs_sample_world
            ["test.2024-01-01T00_00_00.zip"; "test.2024-01-02T00_00_00.zip"] _ _ _ _ _ _ _ _))).
  - unfold plain_folder, plain_segment. decide_closed.
  - decide_closed.
  - decide_closed.
  - forall_list ltac:(split; [decide_closed | split; decide_closed]).
  - change (backupArchives (w_dir fs_sample_world)) with
      ["test.2024-01-01T00_00_00.zip"; "test.2024-01-02T00_00_00.zip"; "test.2024-01-03T00_00_00.zip"].
    repeat constructor;
      match goal with |- exists s, ?n = _ /\ _ =>
        exists (substring 0 (String.length n - 4) n); split; vm_compute; reflexivity end.
  - change (backupArchives (w_dir fs_sample_world)) with
      ["test.2024-01-01T00_00_00.zip"; "test.2024-01-02T00_00_00.zip"; "test.2024-01-03T00_00_00.zip"].
    intros s m x Hs Hm Hx. apply list_elem_of_In in Hs, Hm. simpl in Hs, Hm.
    destruct Hs as [Hs|[Hs|[Hs|[]]]];
      match type of Hs with ?n = _ =>
        change n with (substring 0 (String.length n - 4) n +:+ ".zip") in Hs end;
      apply string_app_inj_r in Hs; subst s;
      destruct Hm as [<-|[<-|[<-|[]]]]; first [reflexivity | vm_compute in Hx; simplify_eq].
  - decide_closed.
  - vm_compute. reflexivity.
Defined.

(** The whole pruning on the sample folder with a count of 1: the two
    older archives and their dump folders are removed. *)
Example prune_fs_sample :
  w_dir (snd (@removeOldLocalBackups (fs_shell "backup") (keep_env "1") 0 fs_sample_world))
  = ["test.2024-01-03T00_00_00.zip"].
Proof. vm_compute. reflexivity. Qed.

End FsPrune.
