(* ===== verification/Run.v ===== *)
(** * The orchestration of [run.ts]: backup, upload, prune, notify

    [sendEmail] (lines 38-47), [uploadBackupToS3] (lines 63-71),
    [backupMongo] (lines 102-122) and the module's top level: the folder
    creation of line 61 and the [try]/[catch] of lines 124-144.  The
    success part of the [try] block after the pruning (lines 128-138) is
    [notifySuccess].

    Whole runs are stated against the plan of a run: the commands of the
    backup stage ([backup_cmds]), of the pruning on a given listing
    ([prune_cmds]) and of the success notification
    ([success_email_cmds]); [runs m w cs] says that [m] returns normally
    from [w] having issued exactly [cs].  Every theorem holds for any
    [Shell] unless it states a hypothesis on it. *)

From S2P Require Import Prelude JsString JsNumber JsDate Config Exec Commands Sorting Retention.

Module Run.
Import JsString Config Exec Commands Retention.

(** Concrete shells: every command fails; every command succeeds; only
    [aws ses] fails. *)
Definition failing_shell : Shell := fixed_shell (fun _ => false).
Definition ok_shell : Shell := fixed_shell (fun _ => true).
Definition ses_down_shell : Shell := fixed_shell (fun c => negb (String.prefix "aws ses" c)).

(** Commands succeed, but [mkdirSync] is refused. *)
Definition no_mkdir_shell : Shell :=
  {| sh_run := fun _ d => (true, d);
     sh_mkdir := fun p => Some ("EACCES: permission denied, mkdir '" +:+ p +:+ "'") |}.

(** The world of the examples: the folder exists and is empty. *)
Definition start_world : world := mkWorld true [] [].

Section WithShell.
Context `{Shell}.

(** [sendEmail] (lines 38-47). *)
Definition sendEmail (env : Env) (subject message : string) : M unit :=
  if negb (truthy (EMAIL_FROM env)) || negb (truthy (EMAIL_TO env)) then ret tt
  else exec (emailCmd env subject message).

(** [uploadBackupToS3] (lines 63-71). *)
Definition uploadBackupToS3 (env : Env) (path : string) : M unit :=
  if negb (truthy (AWS_BUCKET env)) then log "No AWS_BUCKET set."
  else exec (s3cmd env path).

(** [backupMongo] (lines 102-122). *)
Definition backupMongo (env : Env) (now : Z) : M unit :=
  exec (mongoCmd env now) ;;
  if negb (truthy (ARCHIVE env)) then exec (tarCmd env now) else ret tt.

(** Lines 128-138: the message, the success e-mail unless
    [EMAIL_ONLY_ON_ERROR] is set, and the final log line. *)
Definition notifySuccess (env : Env) : M unit :=
  let message := successMessage env in
  (if negb (truthy (EMAIL_ONLY_ON_ERROR env))
   then sendEmail env (successSubject env) message else ret tt) ;;
  log message.

(** The body of the [try] (lines 125-138). *)
Definition mainBody (env : Env) (now tza : Z) : M unit :=
  backupMongo env now ;;
  uploadBackupToS3 env (bakcupArchiveFilePath env now) ;;
  removeOldLocalBackups env tza ;;
  notifySuccess env.

(** Line 61: create the backup folder when it is missing. *)
Definition ensureFolder (env : Env) : M unit :=
  ex <- folder_exists ;;
  if ex then ret tt else mkdir (backupFolder env).

(** The whole script: start-up, then [try { ... } catch (err) { ... }].
    A [Throw] result is an exception that escapes: [mkdirSync] failing at
    start-up, outside the [try], or the failure e-mail itself failing in
    the [catch]; the process then exits with an error. *)
Definition main (env : Env) (now tza : Z) : M unit :=
  ensureFolder env ;;
  try_catch (mainBody env now tza)
    (fun err => sendEmail env (errorSubject env) (err_message err)).

(** Start-up gets past line 61: the folder is there, or [mkdirSync] can
    create it. *)
Definition startup_ok (env : Env) (w : world) : Prop :=
  w_folder_exists w = true \/ sh_mkdir (backupFolder env) = None.

(** ** The plan of a run

    The commands a run issues when nothing fails, stage by stage: the
    backup stage (dump, packing unless archive mode, upload when a bucket
    is set), the pruning on the listing the backup stage left, and the
    success e-mail. *)
Definition backup_cmds (env : Env) (now : Z) : list string :=
  mongoCmd env now :: (if truthy (ARCHIVE env) then [] else [tarCmd env now]) ++
  (if truthy (AWS_BUCKET env) then [s3cmd env (bakcupArchiveFilePath env now)] else []).

(** The folder listing after the shell ran [cmds] in order. *)
Definition listing_after (cmds : list string) (dir : list string) : list string :=
  fold_left (fun d c => snd (sh_run c d)) cmds dir.

Definition prune_cmds (env : Env) (tza : Z) (dir : list string) : list string :=
  let archives := backupArchives dir in
  if (maxBackupsCount env <=? Z.of_nat (length archives))%Z then
    match sortedBackups tza (maxBackupsCount env) archives with
    | Ok sorted => ["rm -rf " +:+ toRemove env sorted]
    | Throw _ => []
    end
  else [].

Definition success_email_cmds (env : Env) : list string :=
  if truthy (EMAIL_FROM env) && truthy (EMAIL_TO env) && negb (truthy (EMAIL_ONLY_ON_ERROR env))
  then [emailCmd env (successSubject env) (successMessage env)] else [].

(** [m] returns normally from [w], runs exactly [cs] in order, and leaves
    the listing the shell gives after [cs]. *)
Definition runs (m : M unit) (w : world) (cs : list string) : Prop :=
  exists w', m w = (Ok tt, w') /\ w_dir w' = listing_after cs (w_dir w) /\
             exec_cmds (w_trace w') = exec_cmds (w_trace w) ++ cs.

(** [m] issues, from [w], a prefix of [cs] in order, whatever the shell
    answers; when it returns normally it has issued all of [cs] and left
    the listing the shell gives after [cs]. *)
Definition runs_upto (m : M unit) (w : world) (cs : list string) : Prop :=
  exists pre, pre `prefix_of` cs /\
    exec_cmds (w_trace (snd (m w))) = exec_cmds (w_trace w) ++ pre /\
    (fst (m w) = Ok tt -> pre = cs /\ w_dir (snd (m w)) = listing_after cs (w_dir w)).

(** ** Properties *)

(** The commands [m] adds to the trace. *)
Definition cmds_of {A} (m : M A) (w : world) : list string :=
  exec_cmds (w_trace (snd (m w))).

(** C5: Archive mode selects exactly one way of producing the archive: the
    dump alone writes the compressed stream, otherwise the directory dump
    is followed by [tar] when it succeeded. *)
Theorem backupMongo_archive_mode env now w :
  cmds_of (backupMongo env now) w =
  exec_cmds (w_trace w) ++ mongoCmd env now ::
    (if negb (truthy (ARCHIVE env)) && fst (sh_run (mongoCmd env now) (w_dir w))
     then [tarCmd env now] else []).
Proof.
  unfold cmds_of, backupMongo, bind at 1. rewrite exec_spec.
  destruct (sh_run (mongoCmd env now) (w_dir w)) as [[|] d]; simpl; cmds_simpl;
    [|now rewrite andb_false_r].
  rewrite andb_true_r. destruct (truthy (ARCHIVE env)); simpl; cmds_simpl; [reflexivity|].
  rewrite exec_spec. destruct (sh_run _ _). simpl. now cmds_simpl.
Qed.

(** C15: The upload runs [aws s3 cp] if and only if [AWS_BUCKET] is set;
    otherwise it only logs and succeeds. *)
Theorem upload_iff_bucket env path w :
  cmds_of (uploadBackupToS3 env path) w =
  exec_cmds (w_trace w) ++ (if truthy (AWS_BUCKET env) then [s3cmd env path] else []) /\
  (truthy (AWS_BUCKET env) = false ->
   uploadBackupToS3 env path w
   = (Ok tt, mkWorld (w_folder_exists w) (w_dir w) (w_trace w ++ [ELog "No AWS_BUCKET set."]))).
Proof.
  unfold cmds_of, uploadBackupToS3. destruct (truthy (AWS_BUCKET env)); simpl.
  - split; [|discriminate]. rewrite exec_spec. destruct (sh_run _ _). simpl. now cmds_simpl.
  - split; [now cmds_simpl | reflexivity].
Qed.

(** C17: The success e-mail is sent exactly when both addresses are set and
    [EMAIL_ONLY_ON_ERROR] is not. *)
Theorem notifySuccess_iff env w :
  cmds_of (notifySuccess env) w =
  exec_cmds (w_trace w) ++
    (if truthy (EMAIL_FROM env) && truthy (EMAIL_TO env) && negb (truthy (EMAIL_ONLY_ON_ERROR env))
     then [emailCmd env (successSubject env) (successMessage env)] else []).
Proof.
  unfold cmds_of, notifySuccess, sendEmail, bind, log, emit, ret.
  destruct (truthy (EMAIL_ONLY_ON_ERROR env)), (truthy (EMAIL_FROM env)), (truthy (EMAIL_TO env));
    simpl; cmds_simpl; try reflexivity;
    rewrite exec_spec; destruct (sh_run _ _) as [[|] d]; simpl; now cmds_simpl.
Qed.

Lemma ensureFolder_spec env w :
  ensureFolder env w =
  if w_folder_exists w then (Ok tt, w)
  else match sh_mkdir (backupFolder env) with
       | None => (Ok tt, mkWorld true (w_dir w) (w_trace w ++ [EMkdir (backupFolder env)]))
       | Some msg => (Throw (EFsError msg), w)
       end.
Proof.
  unfold ensureFolder, bind, folder_exists, ret, mkdir. cbn.
  destruct (w_folder_exists w) eqn:E; [reflexivity|]. now rewrite E.
Qed.

Lemma ensureFolder_ok env w : startup_ok env w -> fst (ensureFolder env w) = Ok tt.
Proof.
  rewrite ensureFolder_spec. intros [H1|H1]; rewrite H1; [reflexivity|].
  now destruct (w_folder_exists w).
Qed.

(** A start-up that fails leaves the world as it was. *)
Lemma ensureFolder_throw env w e w' :
  ensureFolder env w = (Throw e, w') ->
  w' = w /\ w_folder_exists w = false /\ sh_mkdir (backupFolder env) = Some (err_message e).
Proof.
  rewrite ensureFolder_spec. destruct (w_folder_exists w); [discriminate|].
  destruct (sh_mkdir _); [|discriminate]. intros Ht. now injection Ht as <- <-.
Qed.

(** [ensureFolder] touches neither the listing nor the commands. *)
Lemma ensureFolder_keeps env w :
  w_dir (snd (ensureFolder env w)) = w_dir w /\
  exec_cmds (w_trace (snd (ensureFolder env w))) = exec_cmds (w_trace w).
Proof.
  rewrite ensureFolder_spec. destruct (w_folder_exists w); [split; reflexivity|].
  destruct (sh_mkdir _); simpl; split; try reflexivity. now cmds_simpl.
Qed.

(** [main] on every world: the start-up, then the body and its [catch]. *)
Lemma main_cases env now tza w :
  main env now tza w =
  match ensureFolder env w with
  | (Throw e, w') => (Throw e, w')
  | (Ok _, w0) =>
      match mainBody env now tza w0 with
      | (Ok a, w') => (Ok a, w')
      | (Throw e, w') => sendEmail env (errorSubject env) (err_message e) w'
      end
  end.
Proof.
  unfold main, bind at 1, try_catch. destruct (ensureFolder env w) as [[[]|e] w0]; [|reflexivity].
  destruct (mainBody env now tza _) as [[] ?]; reflexivity.
Qed.

Lemma main_spec env now tza w :
  startup_ok env w ->
  let w0 := snd (ensureFolder env w) in
  main env now tza w =
  match mainBody env now tza w0 with
  | (Ok a, w') => (Ok a, w')
  | (Throw e, w') => sendEmail env (errorSubject env) (err_message e) w'
  end.
Proof.
  intros Hs w0. rewrite main_cases. pose proof (ensureFolder_ok env w Hs) as Hok.
  subst w0. destruct (ensureFolder env w) as [[[]|] w0]; [reflexivity | discriminate].
Qed.

Lemma sendEmail_spec env subject message w :
  sendEmail env subject message w =
  if truthy (EMAIL_FROM env) && truthy (EMAIL_TO env) then exec (emailCmd env subject message) w
  else (Ok tt, w).
Proof. unfold sendEmail. now destruct (truthy (EMAIL_FROM env)), (truthy (EMAIL_TO env)). Qed.

Lemma cmds_of_exec cmd w : cmds_of (exec cmd) w = exec_cmds (w_trace w) ++ [cmd].
Proof. unfold cmds_of. rewrite exec_spec. destruct (sh_run _ _). simpl. now cmds_simpl. Qed.

Lemma cmds_of_sendEmail env subject message w :
  exec_cmds (w_trace (snd (sendEmail env subject message w))) =
  exec_cmds (w_trace w) ++
    (if truthy (EMAIL_FROM env) && truthy (EMAIL_TO env) then [emailCmd env subject message] else []).
Proof.
  rewrite sendEmail_spec.
  destruct (_ && _); [apply cmds_of_exec | simpl; now rewrite app_nil_r].
Qed.

Lemma grows_sendEmail env subject message : grows (sendEmail env subject message).
Proof. unfold sendEmail. grows_tac. Qed.

Lemma grows_uploadBackupToS3 env path : grows (uploadBackupToS3 env path).
Proof. unfold uploadBackupToS3. grows_tac. Qed.

Lemma grows_backupMongo env now : grows (backupMongo env now).
Proof. unfold backupMongo. grows_tac. Qed.

#[local] Hint Resolve grows_sendEmail grows_uploadBackupToS3 grows_backupMongo : backup.

Lemma grows_notifySuccess env : grows (notifySuccess env).
Proof. unfold notifySuccess. grows_tac. Qed.

Lemma grows_ensureFolder env : grows (ensureFolder env).
Proof. unfold ensureFolder. grows_tac. Qed.

Lemma grows_mainBody env now tza : grows (mainBody env now tza).
Proof. unfold mainBody. grows_tac. Qed.

Lemma keeps_announced_main env now tza : keeps_announced (main env now tza).
Proof.
  unfold main, mainBody, ensureFolder, backupMongo, uploadBackupToS3, notifySuccess, sendEmail.
  keeps_announced_tac.
Qed.

Lemma fails_on_last_sendEmail env subject message : fails_on_last (sendEmail env subject message).
Proof. unfold sendEmail. fails_on_last_tac. Qed.

Lemma fails_on_last_mainBody env now tza : fails_on_last (mainBody env now tza).
Proof.
  unfold mainBody, backupMongo, uploadBackupToS3, notifySuccess.
  fails_on_last_tac; apply fails_on_last_sendEmail.
Qed.

(** C28: Every command the run hands to the shell is announced: in the
    trace of a run started on a well-formed trace (every earlier command
    announced), each [execSync] event comes right after the log line
    [Executing <command>] of line 34, with that very command. *)
Theorem main_announces_commands env now tza w pre c post :
  announced (w_trace w) ->
  w_trace (snd (main env now tza w)) = pre ++ EExec c :: post ->
  exists pre', pre = pre' ++ [ELog ("Executing " +:+ c)].
Proof.
  intros Hw E. exact (announced_exec_logged _ _ _ _ (keeps_announced_main env now tza w Hw) E).
Qed.

(** C4: First failure wins: when [mongodump] fails, nothing else of the run
    happens, and the failure e-mail (when both addresses are set) carries
    [execSync]'s message for the dump command. *)
Theorem dump_failure_notifies env now tza w :
  startup_ok env w ->
  fst (sh_run (mongoCmd env now) (w_dir w)) = false ->
  cmds_of (main env now tza) w =
  exec_cmds (w_trace w) ++ mongoCmd env now ::
    (if truthy (EMAIL_FROM env) && truthy (EMAIL_TO env)
     then [emailCmd env (errorSubject env) ("Command failed: " +:+ mongoCmd env now)] else []).
Proof.
  intros Hsu Hf. unfold cmds_of. rewrite (main_spec env now tza w Hsu).
  destruct (ensureFolder_keeps env w) as [Hd Ht]. set (w0 := snd (ensureFolder env w)) in *.
  unfold mainBody, backupMongo, bind at 1 2. rewrite exec_spec, Hd.
  destruct (sh_run (mongoCmd env now) (w_dir w)) as [ok d]; simpl in Hf; subst ok.
  rewrite cmds_of_sendEmail. cmds_simpl. now rewrite Ht.
Qed.

Lemma mainBody_steps env now tza w0 w1 w2 w3 :
  backupMongo env now w0 = (Ok tt, w1) ->
  uploadBackupToS3 env (bakcupArchiveFilePath env now) w1 = (Ok tt, w2) ->
  removeOldLocalBackups env tza w2 = (Ok tt, w3) ->
  mainBody env now tza w0 = notifySuccess env w3.
Proof.
  intros H1 H2 H3. unfold mainBody.
  rewrite (bind_Ok _ _ _ _ _ H1), (bind_Ok _ _ _ _ _ H2), (bind_Ok _ _ _ _ _ H3).
  reflexivity.
Qed.

(** C24: A failing success e-mail is caught by the same [catch]: a second,
    failure e-mail follows it, reporting the first e-mail's command. *)
Theorem success_email_failure_reported env now tza w w1 w2 w3 :
  let w0 := snd (ensureFolder env w) in
  let success := emailCmd env (successSubject env) (successMessage env) in
  startup_ok env w ->
  backupMongo env now w0 = (Ok tt, w1) ->
  uploadBackupToS3 env (bakcupArchiveFilePath env now) w1 = (Ok tt, w2) ->
  removeOldLocalBackups env tza w2 = (Ok tt, w3) ->
  truthy (EMAIL_FROM env) = true -> truthy (EMAIL_TO env) = true ->
  truthy (EMAIL_ONLY_ON_ERROR env) = false ->
  fst (sh_run success (w_dir w3)) = false ->
  cmds_of (main env now tza) w =
  exec_cmds (w_trace w3) ++
    [success; emailCmd env (errorSubject env) ("Command failed: " +:+ success)].
Proof.
  intros w0 success Hsu H1 H2 H3 Hf Ht Ho Hs. unfold cmds_of. rewrite (main_spec env now tza w Hsu). fold w0.
  rewrite (mainBody_steps _ _ _ _ _ _ _ H1 H2 H3).
  unfold notifySuccess. rewrite Ho. simpl negb. cbv iota.
  unfold bind at 1. rewrite sendEmail_spec, Hf, Ht. simpl andb. cbv iota.
  rewrite exec_spec. fold success. destruct (sh_run success (w_dir w3)) as [ok d].
  simpl in Hs. subst ok. cbv beta iota.
  rewrite cmds_of_sendEmail, Hf, Ht. simpl. now cmds_simpl.
Qed.

(** C25: Without both e-mail addresses a failure leaves no trace beyond the
    failing step: the [catch] returns normally (exit status 0) and no
    status line is logged. *)
Theorem failure_silent_without_email env now tza w e w1 :
  startup_ok env w ->
  mainBody env now tza (snd (ensureFolder env w)) = (Throw e, w1) ->
  truthy (EMAIL_FROM env) && truthy (EMAIL_TO env) = false ->
  main env now tza w = (Ok tt, w1).
Proof.
  intros Hsu Hb Hm. rewrite (main_spec env now tza w Hsu), Hb, sendEmail_spec, Hm. reflexivity.
Qed.

(** C26: A run whose steps and e-mail succeed ends normally with the success
    line as its last event. *)
Theorem success_run_logs env now tza w w1 w2 w3 :
  let w0 := snd (ensureFolder env w) in
  startup_ok env w ->
  backupMongo env now w0 = (Ok tt, w1) ->
  uploadBackupToS3 env (bakcupArchiveFilePath env now) w1 = (Ok tt, w2) ->
  removeOldLocalBackups env tza w2 = (Ok tt, w3) ->
  fst (sh_run (emailCmd env (successSubject env) (successMessage env)) (w_dir w3)) = true ->
  exists w', main env now tza w = (Ok tt, w') /\
             last (w_trace w') = Some (ELog (successMessage env)).
Proof.
  intros w0 Hsu H1 H2 H3 Hs. rewrite (main_spec env now tza w Hsu). fold w0.
  rewrite (mainBody_steps _ _ _ _ _ _ _ H1 H2 H3).
  unfold notifySuccess, bind at 1.
  destruct (negb (truthy (EMAIL_ONLY_ON_ERROR env))); [rewrite sendEmail_spec|];
    [destruct (_ && _); [rewrite exec_spec; destruct (sh_run _ _) as [ok d]; simpl in Hs; subst ok|]|];
    simpl; eexists; split; try reflexivity; apply last_snoc.
Qed.

Lemma listing_after_app l1 l2 d :
  listing_after (l1 ++ l2) d = listing_after l2 (listing_after l1 d).
Proof. apply fold_left_app. Qed.

Lemma runs_ret w : runs (ret tt) w [].
Proof. exists w. split; [reflexivity|]. split; [reflexivity|]. now rewrite app_nil_r. Qed.

Lemma runs_log msg w : runs (log msg) w [].
Proof. eexists. split; [reflexivity|]. split; [reflexivity|]. simpl. now cmds_simpl. Qed.

Lemma runs_bind {A} (m : M A) (k : A -> M unit) w cs1 cs2 a :
  (exists w1, m w = (Ok a, w1) /\ w_dir w1 = listing_after cs1 (w_dir w) /\
              exec_cmds (w_trace w1) = exec_cmds (w_trace w) ++ cs1) ->
  (forall w1, w_dir w1 = listing_after cs1 (w_dir w) -> runs (k a) w1 cs2) ->
  runs (bind m k) w (cs1 ++ cs2).
Proof.
  intros (w1 & Hm & Hd1 & Ht1) Hk. destruct (Hk w1 Hd1) as (w2 & Hk2 & Hd2 & Ht2).
  exists w2. unfold bind. rewrite Hm. split; [exact Hk2|]. split.
  - now rewrite Hd2, Hd1, listing_after_app.
  - now rewrite Ht2, Ht1, app_assoc.
Qed.

Lemma runs_then_log (m : M unit) w cs msg : runs m w cs -> runs (m ;; log msg) w cs.
Proof.
  intros Hm. rewrite <- (app_nil_r cs).
  apply runs_bind with (a := tt); [exact Hm | intros; apply runs_log].
Qed.

Section AllSucceed.
Hypothesis all_ok : forall c d, fst (sh_run c d) = true.

Lemma runs_exec cmd w : runs (exec cmd) w [cmd].
Proof.
  unfold runs. rewrite exec_spec. pose proof (all_ok cmd (w_dir w)) as Hc.
  destruct (sh_run cmd (w_dir w)) as [b d] eqn:E. simpl in Hc. subst b.
  eexists. split; [reflexivity|]. split; [unfold listing_after; simpl; now rewrite E | now cmds_simpl].
Qed.

Lemma runs_sendEmail env subject message w :
  runs (sendEmail env subject message) w
    (if truthy (EMAIL_FROM env) && truthy (EMAIL_TO env) then [emailCmd env subject message] else []).
Proof.
  unfold runs. rewrite sendEmail_spec. destruct (_ && _); [apply runs_exec | apply runs_ret].
Qed.

Lemma runs_backupMongo env now w :
  runs (backupMongo env now) w (mongoCmd env now :: (if truthy (ARCHIVE env) then [] else [tarCmd env now])).
Proof.
  unfold backupMongo. change (mongoCmd env now :: ?l) with ([mongoCmd env now] ++ l).
  apply runs_bind with (a := tt); [apply runs_exec|]. intros w1 _.
  destruct (truthy (ARCHIVE env)); [apply runs_ret | apply runs_exec].
Qed.

Lemma runs_uploadBackupToS3 env path w :
  runs (uploadBackupToS3 env path) w (if truthy (AWS_BUCKET env) then [s3cmd env path] else []).
Proof. unfold uploadBackupToS3. destruct (truthy (AWS_BUCKET env)); [apply runs_exec | apply runs_log]. Qed.

Lemma runs_removeOld env tza w :
  Forall (fun n => is_Some (archive_date_capture n)) (backupArchives (w_dir w)) ->
  runs (removeOldLocalBackups env tza) w (prune_cmds env tza (w_dir w)).
Proof.
  intros Hc. unfold runs, prune_cmds. rewrite removeOld_spec.
  destruct (_ <=? _)%Z; [|apply runs_ret].
  destruct (sortedBackups _ _ _) as [sorted|e] eqn:E.
  - destruct (runs_exec ("rm -rf " +:+ toRemove env sorted)
               (mkWorld (w_folder_exists w) (w_dir w) (w_trace w ++ [ELogList "Removing old backups" sorted])))
      as (w' & H1 & H2 & H3).
    exists w'. split; [exact H1|]. split; [exact H2|]. rewrite H3. simpl. now cmds_simpl.
  - rewrite sortedBackups_ok in E by exact Hc. discriminate.
Qed.

Lemma runs_notifySuccess env w : runs (notifySuccess env) w (success_email_cmds env).
Proof.
  unfold notifySuccess, success_email_cmds. cbv zeta. apply runs_then_log.
  destruct (truthy (EMAIL_ONLY_ON_ERROR env)); simpl negb; cbv iota;
    [rewrite andb_false_r; apply runs_ret | rewrite andb_true_r; apply runs_sendEmail].
Qed.

End AllSucceed.

(** The command plan of [mainBody], split at the steps of the body. *)
Lemma backup_cmds_split env now rest :
  backup_cmds env now ++ rest =
  (mongoCmd env now :: (if truthy (ARCHIVE env) then [] else [tarCmd env now])) ++
  ((if truthy (AWS_BUCKET env) then [s3cmd env (bakcupArchiveFilePath env now)] else []) ++ rest).
Proof. unfold backup_cmds. simpl. now rewrite <- !app_assoc. Qed.


(** *** Runs on any shell *)

Lemma runs_upto_runs m w cs : runs m w cs -> runs_upto m w cs.
Proof.
  intros (w' & Hm & Hd & Ht). exists cs. rewrite Hm. simpl.
  split; [reflexivity|]. split; [exact Ht|]. intros _. split; [reflexivity | exact Hd].
Qed.

Lemma runs_upto_exec cmd w : runs_upto (exec cmd) w [cmd].
Proof.
  unfold runs_upto. rewrite exec_spec. destruct (sh_run cmd (w_dir w)) as [ok d] eqn:E.
  exists [cmd]. split; [reflexivity|]. split; [simpl; now cmds_simpl|].
  intros Hok. split; [reflexivity|]. unfold listing_after. simpl. now rewrite E.
Qed.

Lemma runs_upto_bind (m : M unit) (k : unit -> M unit) w cs1 cs2 :
  runs_upto m w cs1 ->
  (forall w1, w_dir w1 = listing_after cs1 (w_dir w) -> runs_upto (k tt) w1 cs2) ->
  runs_upto (bind m k) w (cs1 ++ cs2).
Proof.
  intros (pre & Hp & Ht & Hok) Hk. unfold runs_upto, bind.
  destruct (m w) as [[[]|e] w1]; simpl in *.
  - destruct (Hok eq_refl) as [-> Hd]. destruct (Hk w1 Hd) as (pre2 & Hp2 & Ht2 & Hok2).
    exists (cs1 ++ pre2). split; [now apply prefix_app|]. split; [now rewrite Ht2, Ht, app_assoc|].
    intros Hr. destruct (Hok2 Hr) as [-> Hd2]. split; [reflexivity|].
    now rewrite Hd2, Hd, listing_after_app.
  - exists pre. split; [now apply prefix_app_r|]. split; [exact Ht | discriminate].
Qed.

Lemma runs_upto_sendEmail env subject message w :
  runs_upto (sendEmail env subject message) w
    (if truthy (EMAIL_FROM env) && truthy (EMAIL_TO env) then [emailCmd env subject message] else []).
Proof.
  unfold runs_upto. rewrite sendEmail_spec.
  destruct (_ && _); [apply runs_upto_exec | exact (runs_upto_runs _ _ _ (runs_ret w))].
Qed.

Lemma runs_upto_backupMongo env now w :
  runs_upto (backupMongo env now) w (mongoCmd env now :: (if truthy (ARCHIVE env) then [] else [tarCmd env now])).
Proof.
  unfold backupMongo. change (mongoCmd env now :: ?l) with ([mongoCmd env now] ++ l).
  apply runs_upto_bind; [apply runs_upto_exec|]. intros w1 _.
  destruct (truthy (ARCHIVE env)); [apply runs_upto_runs, runs_ret | apply runs_upto_exec].
Qed.

Lemma runs_upto_uploadBackupToS3 env path w :
  runs_upto (uploadBackupToS3 env path) w (if truthy (AWS_BUCKET env) then [s3cmd env path] else []).
Proof.
  unfold uploadBackupToS3.
  destruct (truthy (AWS_BUCKET env)); [apply runs_upto_exec | apply runs_upto_runs, runs_log].
Qed.

(** On any shell the pruner issues at most its [rm]: nothing when the
    dates cannot be read. *)
Lemma runs_upto_removeOld env tza w :
  runs_upto (removeOldLocalBackups env tza) w (prune_cmds env tza (w_dir w)).
Proof.
  unfold runs_upto, prune_cmds. rewrite removeOld_spec.
  destruct (_ <=? _)%Z; [|exact (runs_upto_runs _ _ _ (runs_ret w))].
  destruct (sortedBackups _ _ _) as [sorted|e].
  - destruct (runs_upto_exec ("rm -rf " +:+ toRemove env sorted)
               (mkWorld (w_folder_exists w) (w_dir w) (w_trace w ++ [ELogList "Removing old backups" sorted])))
      as (pre & Hp & Ht & Hok).
    exists pre. split; [exact Hp|]. split; [rewrite Ht; simpl; now cmds_simpl | exact Hok].
  - exists []. split; [reflexivity|]. split; [simpl; now rewrite app_nil_r | discriminate].
Qed.

Lemma runs_upto_notifySuccess env w : runs_upto (notifySuccess env) w (success_email_cmds env).
Proof.
  unfold notifySuccess, success_email_cmds. cbv zeta. match goal with |- runs_upto _ _ ?cs => rewrite <- (app_nil_r cs) end.
  apply runs_upto_bind; [|intros; apply runs_upto_runs, runs_log].
  destruct (truthy (EMAIL_ONLY_ON_ERROR env)); simpl negb; cbv iota;
    [rewrite andb_false_r; apply runs_upto_runs, runs_ret | rewrite andb_true_r; apply runs_upto_sendEmail].
Qed.

(** The plan has at most five commands: dump, [tar], upload, [rm] and
    the success e-mail. *)
Lemma plan_length env now tza d :
  (length (backup_cmds env now ++ prune_cmds env tza d ++ success_email_cmds env) <= 5)%nat.
Proof.
  unfold backup_cmds, prune_cmds, success_email_cmds. rewrite !length_app.
  destruct (truthy (ARCHIVE env)), (truthy (AWS_BUCKET env)), (_ && _); simpl;
    repeat case_match; simpl; lia.
Qed.

Lemma runs_upto_mainBody env now tza w0 :
  runs_upto (mainBody env now tza) w0
    (backup_cmds env now ++ prune_cmds env tza (listing_after (backup_cmds env now) (w_dir w0))
     ++ success_email_cmds env).
Proof.
  unfold mainBody. rewrite backup_cmds_split.
  apply runs_upto_bind; [apply runs_upto_backupMongo|]. intros w1 Hd1.
  apply runs_upto_bind; [apply runs_upto_uploadBackupToS3|]. intros w2 Hd2.
  apply runs_upto_bind; [|intros; apply runs_upto_notifySuccess].
  replace (listing_after (backup_cmds env now) (w_dir w0)) with (w_dir w2)
    by (rewrite Hd2, Hd1, <- listing_after_app; reflexivity).
  apply runs_upto_removeOld.
Qed.

(** The body of the [try] on a shell where every command succeeds. *)
Lemma runs_mainBody env now tza w0 :
  (forall c d, fst (sh_run c d) = true) ->
  Forall (fun n => is_Some (archive_date_capture n))
         (backupArchives (listing_after (backup_cmds env now) (w_dir w0))) ->
  runs (mainBody env now tza) w0
    (backup_cmds env now ++ prune_cmds env tza (listing_after (backup_cmds env now) (w_dir w0))
     ++ success_email_cmds env).
Proof.
  intros Hok Hc. unfold mainBody. rewrite backup_cmds_split.
  apply runs_bind with (a := tt); [now apply runs_backupMongo|]. intros w1 Hd1.
  apply runs_bind with (a := tt); [now apply runs_uploadBackupToS3|]. intros w2 Hd2.
  apply runs_bind with (a := tt); [|intros; now apply runs_notifySuccess].
  assert (Hdir : w_dir w2 = listing_after (backup_cmds env now) (w_dir w0)).
  { rewrite Hd2, Hd1, <- listing_after_app. reflexivity. }
  rewrite <- Hdir. apply runs_removeOld; [exact Hok | now rewrite Hdir].
Qed.

(** C6: With a shell on which every command succeeds, a run returns
    normally and issues, in this order: the dump, [tar] unless in archive
    mode, the upload when a bucket is set, the pruning decided on the
    listing those commands left, and the success e-mail when it is due. *)
Theorem run_commands_in_order env now tza w :
  startup_ok env w ->
  (forall c d, fst (sh_run c d) = true) ->
  Forall (fun n => is_Some (archive_date_capture n))
         (backupArchives (listing_after (backup_cmds env now) (w_dir w))) ->
  exists w', main env now tza w = (Ok tt, w') /\
    exec_cmds (w_trace w') =
    exec_cmds (w_trace w) ++ backup_cmds env now ++
    prune_cmds env tza (listing_after (backup_cmds env now) (w_dir w)) ++ success_email_cmds env.
Proof.
  intros Hsu Hok Hc. rewrite (main_spec env now tza w Hsu). set (w0 := snd (ensureFolder env w)).
  destruct (ensureFolder_keeps env w) as [Hd0 Ht0]. fold w0 in Hd0, Ht0.
  rewrite <- Hd0 in Hc |- *.
  destruct (runs_mainBody env now tza w0 Hok Hc) as (w' & Hm & _ & Ht).
  rewrite Hm. exists w'. split; [reflexivity|]. now rewrite Ht, Ht0.
Qed.

(** C9: On every shell, whatever each command answers, the commands of a run
    follow the plan.  When the start-up fails nothing runs.  Otherwise
    the body of the [try] issues a prefix of the plan (all of it when it
    returns normally), and the only command after it is the failure
    e-mail carrying the message of the error that stopped it, when both
    addresses are set. *)
Theorem main_follows_plan env now tza w :
  let plan := backup_cmds env now ++ prune_cmds env tza (listing_after (backup_cmds env now) (w_dir w))
              ++ success_email_cmds env in
  match ensureFolder env w with
  | (Throw _, _) => cmds_of (main env now tza) w = exec_cmds (w_trace w)
  | (Ok _, w0) =>
    exists pre, pre `prefix_of` plan /\ (fst (mainBody env now tza w0) = Ok tt -> pre = plan) /\
      cmds_of (main env now tza) w =
      exec_cmds (w_trace w) ++ pre ++
        match fst (mainBody env now tza w0) with
        | Ok _ => []
        | Throw e => if truthy (EMAIL_FROM env) && truthy (EMAIL_TO env)
                     then [emailCmd env (errorSubject env) (err_message e)] else []
        end
  end.
Proof.
  intros plan. destruct (ensureFolder_keeps env w) as [Hd0 Ht0].
  unfold cmds_of. rewrite main_cases.
  destruct (ensureFolder env w) as [[[]|e] w0] eqn:E; simpl in Hd0, Ht0 |- *; [|exact Ht0].
  destruct (runs_upto_mainBody env now tza w0) as (pre & Hp & Ht & Hok). rewrite Hd0 in Hp, Hok.
  exists pre. split; [exact Hp|]. split; [intros Hr; apply Hok, Hr|]. rewrite <- Ht0.
  destruct (mainBody env now tza w0) as [[[]|e] w1]; simpl in Ht |- *.
  - now rewrite Ht, app_nil_r.
  - now rewrite cmds_of_sendEmail, Ht, app_assoc.
Qed.

(** C27: Bounds: whatever the shell answers, a run issues at most six
    commands: the five of the plan and the failure e-mail. *)
Theorem main_command_count env now tza w :
  (length (cmds_of (main env now tza) w) <= length (exec_cmds (w_trace w)) + 6)%nat.
Proof.
  destruct (ensureFolder_keeps env w) as [_ Ht0]. unfold cmds_of. rewrite main_cases.
  destruct (ensureFolder env w) as [[[]|e] w0] eqn:E; simpl in Ht0 |- *; [|rewrite Ht0; lia].
  destruct (runs_upto_mainBody env now tza w0) as (pre & Hp & Ht & _).
  apply prefix_length in Hp. pose proof (plan_length env now tza
    (listing_after (backup_cmds env now) (w_dir w0))) as Hl.
  destruct (mainBody env now tza w0) as [[[]|e] w1]; simpl in Ht |- *.
  - rewrite Ht, Ht0, length_app. lia.
  - rewrite cmds_of_sendEmail, Ht, Ht0, !length_app. destruct (_ && _); simpl; lia.
Qed.

(** C14: The failure e-mail reports the command that failed: when the body
    of the [try] stops on a failing command [c], [c] is the last command
    the run issued, and the only command after it is the e-mail whose
    body is [Command failed: c]. *)
Theorem failure_mail_names_last_command env now tza w c w1 :
  startup_ok env w ->
  mainBody env now tza (snd (ensureFolder env w)) = (Throw (ECommandFailed c), w1) ->
  last (exec_cmds (w_trace w1)) = Some c /\
  cmds_of (main env now tza) w =
  exec_cmds (w_trace w1) ++
    (if truthy (EMAIL_FROM env) && truthy (EMAIL_TO env)
     then [emailCmd env (errorSubject env) ("Command failed: " +:+ c)] else []).
Proof.
  intros Hsu Hb. split; [exact (fails_on_last_mainBody env now tza _ _ _ Hb)|].
  unfold cmds_of. rewrite (main_spec env now tza w Hsu), Hb. apply cmds_of_sendEmail.
Qed.

(** C11: Two kinds of exception escape the script.  The first is
    [mkdirSync]'s at start-up (line 61, outside the [try]): the folder
    was missing, [mkdirSync] threw with that message, nothing ran and no
    e-mail is sent.  The second is the failure of the failure e-mail in
    the [catch], whose message is the original error's.  Every other
    error is caught. *)
Theorem main_escape_is_email_failure env now tza w e w' :
  main env now tza w = (Throw e, w') ->
  (w_folder_exists w = false /\ sh_mkdir (backupFolder env) = Some (err_message e) /\ w' = w) \/
  (exists e0, mainBody env now tza (snd (ensureFolder env w)) = (Throw e0, snd (mainBody env now tza (snd (ensureFolder env w)))) /\
              e = ECommandFailed (emailCmd env (errorSubject env) (err_message e0))).
Proof.
  rewrite main_cases. intros Hm. destruct (ensureFolder env w) as [[[]|e1] w0] eqn:E.
  - right. simpl. destruct (mainBody env now tza w0) as [[[]|e0] w1]; [discriminate|].
    exists e0. split; [reflexivity|]. revert Hm.
    rewrite sendEmail_spec. destruct (_ && _); [|discriminate].
    rewrite exec_spec. destruct (sh_run _ _) as [[|] d]; congruence.
  - injection Hm as -> ->. left. apply ensureFolder_throw in E as (-> & Hf & Hm).
    now repeat split.
Qed.

End WithShell.

(** ** Witnesses *)

Lemma dump_failure_notifies_witness :
  cmds_of (@main failing_shell sample_uri_env 1709210096789 0) start_world =
  exec_cmds (w_trace start_world) ++ mongoCmd sample_uri_env 1709210096789 ::
    (if truthy (EMAIL_FROM sample_uri_env) && truthy (EMAIL_TO sample_uri_env)
     then [emailCmd sample_uri_env (errorSubject sample_uri_env)
             ("Command failed: " +:+ mongoCmd sample_uri_env 1709210096789)] else []).
Proof. apply (@dump_failure_notifies failing_shell); [left | ]; reflexivity. Defined.

Lemma success_email_failure_reported_witness :
  let env := sample_uri_env in
  let w0 := snd (@ensureFolder ses_down_shell env start_world) in
  let success := emailCmd env (successSubject env) (successMessage env) in
  exists w1 w2 w3,
    @backupMongo ses_down_shell env 1709210096789 w0 = (Ok tt, w1) /\
    @uploadBackupToS3 ses_down_shell env (bakcupArchiveFilePath env 1709210096789) w1 = (Ok tt, w2) /\
    @removeOldLocalBackups ses_down_shell env 0 w2 = (Ok tt, w3) /\
    cmds_of (@main ses_down_shell env 1709210096789 0) start_world =
    exec_cmds (w_trace w3) ++
      [success; emailCmd env (errorSubject env) ("Command failed: " +:+ success)].
Proof.
  intros env w0 success. do 3 eexists.
  split; [reflexivity|]. split; [reflexivity|]. split; [reflexivity|].
  eapply (@success_email_failure_reported ses_down_shell); first [reflexivity | left; reflexivity].
Defined.

Lemma failure_silent_without_email_witness :
  exists e w1,
    @mainBody failing_shell sample_host_env 1709210096789 0
      (snd (@ensureFolder failing_shell sample_host_env start_world)) = (Throw e, w1) /\
    @main failing_shell sample_host_env 1709210096789 0 start_world = (Ok tt, w1).
Proof.
  do 2 eexists. split; [reflexivity|].
  eapply (@failure_silent_without_email failing_shell); first [reflexivity | left; reflexivity].
Defined.

Lemma main_announces_commands_witness :
  exists pre', [ELog ("Executing " +:+ mongoCmd sample_uri_env 0)] =
               pre' ++ [ELog ("Executing " +:+ mongoCmd sample_uri_env 0)].
Proof.
  apply (@main_announces_commands failing_shell sample_uri_env 0 0 start_world _ _
           (skipn 2 (w_trace (snd (@main failing_shell sample_uri_env 0 0 start_world))))).
  - apply announced_nil.
  - vm_compute. reflexivity.
Defined.

Lemma main_escape_is_email_failure_witness :
  exists e w', @main failing_shell sample_uri_env 1709210096789 0 start_world = (Throw e, w') /\
  ((w_folder_exists start_world = false /\
    @sh_mkdir failing_shell (backupFolder sample_uri_env) = Some (err_message e) /\ w' = start_world) \/
   (exists e0,
    @mainBody failing_shell sample_uri_env 1709210096789 0 (snd (@ensureFolder failing_shell sample_uri_env start_world))
    = (Throw e0, snd (@mainBody failing_shell sample_uri_env 1709210096789 0
                       (snd (@ensureFolder failing_shell sample_uri_env start_world)))) /\
    e = ECommandFailed (emailCmd sample_uri_env (errorSubject sample_uri_env) (err_message e0)))).
Proof.
  do 2 eexists. split; [reflexivity|].
  eapply (@main_escape_is_email_failure failing_shell). reflexivity.
Defined.

(** Start-up failure: the folder is missing and [mkdirSync] is refused;
    the error escapes before the [try], no command runs and no e-mail is
    sent. *)
Example startup_failure_escapes :
  @main no_mkdir_shell sample_uri_env 1709210096789 0 (mkWorld false [] []) =
  (Throw (EFsError "EACCES: permission denied, mkdir 'backup'"), mkWorld false [] []).
Proof. vm_compute. reflexivity. Qed.

Lemma run_commands_in_order_witness :
  exists w', @main ok_shell sample_uri_env 1709210096789 0 start_world = (Ok tt, w') /\
    exec_cmds (w_trace w') =
    exec_cmds (w_trace start_world) ++ @backup_cmds sample_uri_env 1709210096789 ++
    prune_cmds sample_uri_env 0 (@listing_after ok_shell (backup_cmds sample_uri_env 1709210096789)
                                  (w_dir start_world))
    ++ success_email_cmds sample_uri_env.
Proof.
  apply (@run_commands_in_order ok_shell); [left; reflexivity | intros; reflexivity | vm_compute; constructor].
Defined.

Lemma failure_mail_names_last_command_witness :
  let env := sample_uri_env in
  let c := mongoCmd env 1709210096789 in
  exists w1,
    @mainBody failing_shell env 1709210096789 0 (snd (@ensureFolder failing_shell env start_world))
      = (Throw (ECommandFailed c), w1) /\
    last (exec_cmds (w_trace w1)) = Some c /\
    cmds_of (@main failing_shell env 1709210096789 0) start_world =
    exec_cmds (w_trace w1) ++
      (if truthy (EMAIL_FROM env) && truthy (EMAIL_TO env)
       then [emailCmd env (errorSubject env) ("Command failed: " +:+ c)] else []).
Proof.
  intros env c. eexists. split; [reflexivity|].
  apply (@failure_mail_names_last_command failing_shell); [left | ]; reflexivity.
Defined.

Lemma success_run_logs_witness :
  let env := sample_uri_env in
  let w0 := snd (@ensureFolder ok_shell env start_world) in
  exists w1 w2 w3,
    @backupMongo ok_shell env 1709210096789 w0 = (Ok tt, w1) /\
    @uploadBackupToS3 ok_shell env (bakcupArchiveFilePath env 1709210096789) w1 = (Ok tt, w2) /\
    @removeOldLocalBackups ok_shell env 0 w2 = (Ok tt, w3) /\
    exists w', @main ok_shell env 1709210096789 0 start_world = (Ok tt, w') /\
               last (w_trace w') = Some (ELog (successMessage env)).
Proof.
  intros env w0. do 3 eexists.
  split; [reflexivity|]. split; [reflexivity|]. split; [reflexivity|].
  eapply (@success_run_logs ok_shell); first [reflexivity | left; reflexivity].
Defined.

End Run.
