(* ===== verification/Orchestrator.v ===== *)
(** * The orchestrator of the specification and the run that refines it

    Section 4.7 of the specification describes the top level of [run.ts]
    (lines 124-144) as a state machine: [Idle], [Dumping], an optional
    [Archiving], [Uploading], [Pruning], [NotifyingSuccess] and [Done],
    with one failure edge from the working stages to [NotifyingFailure]
    and then [Done].  [step] is that machine.

    The body of the [try] is [mainBody] of [Run]; [mainBody_stages] labels
    its parts with the stages they implement, and [run_stages] runs a
    labelled list, recording each stage as it is entered and stopping at
    the first exception.  [staged_main] runs the whole script that way:
    the start-up of line 61, the labelled [try] block, and the [catch] as
    the stage [NotifyingFailure].  The refinement theorem shows that this
    staged run is [main] itself, catch included, and that its stages form
    a path of the machine from [Idle], ending in [Done] exactly when the
    start-up succeeded and taking the failure edge exactly when the [try]
    block threw.  The machine of the specification has no edge for a
    start-up failure: the run then stops in [Idle]. *)

From S2P Require Import Prelude JsString JsNumber JsDate NodePath Config Exec JsArray Commands Sorting Retention Run.

Module Orchestrator.
Import JsString Config Exec Commands Retention Run.

Inductive stage :=
| Idle | Dumping | Archiving | Uploading | Pruning
| NotifyingSuccess | NotifyingFailure | Done.

#[export] Instance stage_eq_dec : EqDecision stage.
Proof. solve_decision. Defined.

(** The stages an exception can interrupt. *)
Definition working (s : stage) : Prop :=
  match s with
  | Dumping | Archiving | Uploading | Pruning | NotifyingSuccess => True
  | _ => False
  end.

(** The transitions of section 4.7. *)
Inductive step : stage -> stage -> Prop :=
| step_start : step Idle Dumping
| step_pack : step Dumping Archiving
| step_skip_pack : step Dumping Uploading
| step_upload : step Archiving Uploading
| step_prune : step Uploading Pruning
| step_notify : step Pruning NotifyingSuccess
| step_done : step NotifyingSuccess Done
| step_fail s : working s -> step s NotifyingFailure
| step_fail_done : step NotifyingFailure Done.

(** Consecutive stages of a list are transitions of the machine. *)
Fixpoint chain (l : list stage) : Prop :=
  match l with
  | x :: ((y :: _) as r) => step x y /\ chain r
  | _ => True
  end.

Section WithShell.
Context `{Shell}.

(** The parts of [mainBody], labelled with the stages they implement:
    [backupMongo] is the dump and, unless in archive mode, the packing. *)
Definition mainBody_stages (env : Env) (now tza : Z) : list (stage * M unit) :=
  (Dumping, exec (mongoCmd env now)) ::
  (if truthy (ARCHIVE env) then [] else [(Archiving, exec (tarCmd env now))]) ++
  [(Uploading, uploadBackupToS3 env (bakcupArchiveFilePath env now));
   (Pruning, removeOldLocalBackups env tza);
   (NotifyingSuccess, notifySuccess env)].

(** Run labelled parts in order: the stages entered, the result and the
    world. *)
Fixpoint run_stages (ss : list (stage * M unit)) (w : world) : list stage * (result unit * world) :=
  match ss with
  | [] => ([], (Ok tt, w))
  | (s, m) :: r =>
      match m w with
      | (Ok _, w') => let '(vs, res) := run_stages r w' in (s :: vs, res)
      | (Throw e, w') => ([s], (Throw e, w'))
      end
  end.

(** The same parts sequenced with [;;]. *)
Fixpoint seq_stages (ss : list (stage * M unit)) : M unit :=
  match ss with
  | [] => ret tt
  | (_, m) :: r => m ;; seq_stages r
  end.

(** A run of [main] stage by stage: the start-up, the labelled parts of
    the [try] block, and the [catch] of lines 139-144 as the stage
    [NotifyingFailure].  The result is the stages entered, from [Idle],
    and the outcome of the run.  A start-up that throws stops the run in
    [Idle]. *)
Definition staged_main (env : Env) (now tza : Z) (w : world) : list stage * (result unit * world) :=
  match ensureFolder env w with
  | (Throw e, w') => ([Idle], (Throw e, w'))
  | (Ok _, w0) =>
      match run_stages (mainBody_stages env now tza) w0 with
      | (vs, (Ok a, w1)) => (Idle :: vs ++ [Done], (Ok a, w1))
      | (vs, (Throw e, w1)) =>
          (Idle :: vs ++ [NotifyingFailure; Done], sendEmail env (errorSubject env) (err_message e) w1)
      end
  end.

Definition main_stages (env : Env) (now tza : Z) (w : world) : list stage :=
  fst (staged_main env now tza w).

(** ** Lemmas *)

Lemma run_stages_seq ss w : snd (run_stages ss w) = seq_stages ss w.
Proof.
  revert w. induction ss as [|[s m] r IH]; intros w; [reflexivity|].
  cbn [run_stages seq_stages]. unfold bind. destruct (m w) as [[a|e] w']; [|reflexivity].
  rewrite <- IH. now destruct (run_stages r w').
Qed.

(** Sequencing the labelled parts is [mainBody]. *)
Lemma seq_mainBody_stages env now tza w :
  seq_stages (mainBody_stages env now tza) w = mainBody env now tza w.
Proof.
  unfold mainBody, backupMongo, mainBody_stages. rewrite bind_assoc.
  cbn [seq_stages app]. apply bind_ext. intros [] w1.
  destruct (truthy (ARCHIVE env)); cbn [negb app seq_stages];
    [rewrite bind_ret_l | apply bind_ext; intros [] w2];
    do 2 (apply bind_ext; intros [] ?); apply bind_ret_unit.
Qed.

(** The stages entered: all of them, or a non-empty prefix ending with the
    stage that threw. *)
Lemma run_stages_shape ss w :
  match run_stages ss w with
  | (vs, (Ok _, _)) => vs = map fst ss
  | (vs, (Throw _, _)) => exists k, (k < length ss)%nat /\ vs = take (S k) (map fst ss)
  end.
Proof.
  revert w. induction ss as [|[s m] r IH]; intros w; [reflexivity|].
  cbn [run_stages]. destruct (m w) as [[a|e] w'].
  - specialize (IH w'). destruct (run_stages r w') as [vs [[u|e'] w'']].
    + simpl. now f_equal.
    + destruct IH as (k & Hk & ->). exists (S k). split; [simpl; lia | reflexivity].
  - exists 0%nat. split; [simpl; lia | reflexivity].
Qed.

End WithShell.

(** A run interrupted in a working stage still reaches [Done] through
    [NotifyingFailure]. *)
Lemma chain_fail_prefix x l k :
  chain (x :: l ++ [Done]) -> Forall working l -> (k < length l)%nat ->
  chain (x :: take (S k) l ++ [NotifyingFailure; Done]).
Proof.
  revert x k. induction l as [|y l IH]; intros x k Hc Hw Hk; [simpl in Hk; lia|].
  destruct Hc as [Hxy Hc]. inversion Hw as [|? ? Hy Hw']; subst.
  destruct k as [|k].
  - simpl. repeat split; [exact Hxy | now constructor | constructor].
  - split; [exact Hxy|]. apply IH; [exact Hc | exact Hw' | simpl in Hk; lia].
Qed.

Lemma last_run (l : list stage) x y z : last (x :: l ++ [y; z]) = Some z.
Proof. revert x. induction l as [|a l IH]; intros x; [reflexivity|]. exact (IH a). Qed.

(** The parts of the [try] block are working stages, and in order they
    are the success path of the machine. *)
Lemma mainBody_stages_path `{Shell} env now tza :
  chain (Idle :: map fst (mainBody_stages env now tza) ++ [Done]) /\
  Forall working (map fst (mainBody_stages env now tza)).
Proof.
  unfold mainBody_stages. destruct (truthy (ARCHIVE env)); simpl;
    (split; [repeat split; constructor | forall_list ltac:(exact I)]).
Qed.

(** ** The refinement *)

(** C8: Running [main] stage by stage, with its start-up and its [catch],
    is running [main], on every shell.  The stages of the run form a path
    of the machine of section 4.7 from [Idle], which reaches [Done]
    exactly when the start-up succeeded, and which takes the failure edge
    exactly when the [try] block threw. *)
Theorem main_refines_orchestrator `{Shell} env now tza w :
  snd (staged_main env now tza w) = main env now tza w /\
  chain (main_stages env now tza w) /\ head (main_stages env now tza w) = Some Idle /\
  (last (main_stages env now tza w) = Some Done <-> fst (ensureFolder env w) = Ok tt) /\
  (NotifyingFailure ∈ main_stages env now tza w <->
     fst (ensureFolder env w) = Ok tt /\
     exists e, fst (mainBody env now tza (snd (ensureFolder env w))) = Throw e).
Proof.
  destruct (mainBody_stages_path env now tza) as [Hc Hw].
  unfold main_stages, staged_main. rewrite main_cases.
  destruct (ensureFolder env w) as [[[]|e] w0]; cbn [fst snd].
  - pose proof (run_stages_shape (mainBody_stages env now tza) w0) as Hs.
    pose proof (run_stages_seq (mainBody_stages env now tza) w0) as Hq.
    rewrite seq_mainBody_stages in Hq.
    destruct (run_stages _ w0) as [vs [[[]|e] w1]]; simpl in Hq; rewrite <- Hq; cbn [fst snd].
    + subst vs. split; [reflexivity|]. split; [exact Hc|]. split; [reflexivity|]. split.
      * split; [reflexivity|]. intros _. unfold mainBody_stages. now destruct (truthy (ARCHIVE env)).
      * split; [|intros (_ & e & He); discriminate]. intros Hin; exfalso; revert Hin.
        unfold mainBody_stages. destruct (truthy (ARCHIVE env)); decide_closed.
    + destruct Hs as (k & Hk & ->). split; [reflexivity|].
      split; [apply chain_fail_prefix; [exact Hc | exact Hw | now rewrite length_map]|].
      split; [reflexivity|]. split; [split; [reflexivity | intros _; apply last_run]|].
      split; [intros _; split; [reflexivity | now exists e]|]. intros _.
      apply elem_of_cons. right. apply elem_of_app. right. apply list_elem_of_here.
  - split; [reflexivity|]. split; [exact I|]. split; [reflexivity|].
    split; [split; discriminate|].
    split; [intros Hin; apply list_elem_of_singleton in Hin; discriminate | intros [He _]; discriminate].
Qed.

End Orchestrator.
